(** * The Weekly Spaceman PM App: task API and board client

    A shallow embedding of [server.js] (the Express task API, in the
    version that validates its input), of the drop handler of
    [project_management_app.jsx] and of the drop handler of the Vite front
    end [App.jsx], with the properties of the task store proved over them.

    Conventions of the embedding:
    - a JavaScript value that travelled through JSON is a [jsval]; an object
      is a finite map from property names to values, and a property that is
      [undefined] is a key that is absent;
    - a character of a [string] stands for one UTF-16 code unit; the model
      covers the code units below 256, on which [String.length] is
      JavaScript's [.length];
    - a JSON number is kept as an integer; the handlers only ever ask
      whether a number is zero;
    - [uuidv4()] and [new Date().toISOString()] are read from the
      environment: the values they return are arguments of the handlers. *)

From stdpp Require Import gmap strings list fin_maps.
From Stdlib Require Import Ascii String.

Set Warnings "-register-all".
#[local] Open Scope string_scope.

(** ** JavaScript strings *)

Module JsString.

(** [WhiteSpace] and [LineTerminator] code units below 256: TAB, LF, VT,
    FF, CR, SP and NBSP. These are what [String.prototype.trim] strips. *)
Definition isWhiteSpace (c : ascii) : bool :=
  let n := nat_of_ascii c in
  (((9 <=? n) && (n <=? 13)) || (n =? 32) || (n =? 160))%nat.

Fixpoint trimStart (s : string) : string :=
  match s with
  | EmptyString => EmptyString
  | String c s' => if isWhiteSpace c then trimStart s' else s
  end.

Fixpoint trimEnd (s : string) : string :=
  match s with
  | EmptyString => EmptyString
  | String c s' =>
      match trimEnd s' with
      | EmptyString => if isWhiteSpace c then EmptyString else String c EmptyString
      | r => String c r
      end
  end.

(** [s.trim()] *)
Definition trim (s : string) : string := trimEnd (trimStart s).

Definition startsWithSpace (s : string) : bool :=
  match s with
  | EmptyString => false
  | String c _ => isWhiteSpace c
  end.

Fixpoint endsWithSpace (s : string) : bool :=
  match s with
  | EmptyString => false
  | String c EmptyString => isWhiteSpace c
  | String _ s' => endsWithSpace s'
  end.

(** No leading and no trailing white space. *)
Definition trimmed (s : string) : Prop :=
  startsWithSpace s = false ∧ endsWithSpace s = false.

(** [c.toLowerCase()] on one code unit below 256: A-Z and the Latin-1
    capitals (U+00C0..U+00DE without the multiplication sign). *)
Definition lowerChar (c : ascii) : ascii :=
  let n := nat_of_ascii c in
  if (((65 <=? n) && (n <=? 90)) ||
      ((192 <=? n) && (n <=? 222) && negb (n =? 215)))%nat
  then ascii_of_nat (n + 32)
  else c.

Fixpoint toLowerCase (s : string) : string :=
  match s with
  | EmptyString => EmptyString
  | String c s' => String (lowerChar c) (toLowerCase s')
  end.

(** [s.includes(sub)] *)
Fixpoint includes (s sub : string) : bool :=
  String.prefix sub s ||
  match s with
  | EmptyString => false
  | String _ s' => includes s' sub
  end.

(** [xs.join(sep)] *)
Fixpoint join (sep : string) (xs : list string) : string :=
  match xs with
  | [] => ""
  | [x] => x
  | x :: rest => x ++ sep ++ join sep rest
  end.

End JsString.

Import JsString.

(** ** JSON values *)

Inductive jsval : Type :=
  | JNull
  | JBool (b : bool)
  | JNum (n : Z)
  | JStr (s : string)
  | JArr (l : list jsval)
  | JObj (o : gmap string jsval).

(** A task, a request body: a plain object. *)
Abbreviation object := (gmap string jsval).

(** The [tasks] array of the server. *)
Abbreviation store := (list (gmap string jsval)).

(** [ToBoolean] *)
Definition truthy (v : jsval) : bool :=
  match v with
  | JNull => false
  | JBool b => b
  | JNum n => negb (n =? 0)%Z
  | JStr s => negb (String.eqb s "")
  | JArr _ | JObj _ => true
  end.

(** [x === s] for a property [x] that may be undefined and a string [s]. *)
Definition strictEqualsString (x : option jsval) (s : string) : bool :=
  match x with
  | Some (JStr s') => String.eqb s' s
  | _ => false
  end.

(** [{ ...o, k: x }] where [x] may be undefined: an undefined property is
    dropped by [JSON.stringify] and reads back as undefined, like a key
    that is absent. *)
Definition setProperty (k : string) (x : option jsval) (o : object) : object :=
  match x with
  | Some v => <[k := v]> o
  | None => delete k o
  end.

(** [arr.findIndex(p)], with [None] for -1. *)
Fixpoint findIndex {A} (p : A → bool) (l : list A) : option nat :=
  match l with
  | [] => None
  | x :: l' => if p x then Some 0 else S <$> findIndex p l'
  end.

(** ** HTTP responses and control flow of a handler *)

Record response := Resp { statusCode : nat; json : jsval }.

(** [res.status(code).json({ error: msg })] *)
Definition errorResponse (code : nat) (msg : string) : response :=
  Resp code (JObj {[ "error" := JStr msg ]}).

(** What running a piece of a handler's [try] block ends in. *)
Inductive flow (A : Type) : Type :=
  | Next (a : A)           (* control reaches the next statement *)
  | Reply (r : response)   (* [return res.status(..).json(..)] *)
  | Throw.                 (* a TypeError reaches the [catch] block *)
Arguments Next {A} a.
Arguments Reply {A} r.
Arguments Throw {A}.

(** Sequencing of statements: a reply or an exception skips the rest. *)
Definition andThen {A B} (m : flow A) (k : A → flow B) : flow B :=
  match m with
  | Next a => k a
  | Reply r => Reply r
  | Throw => Throw
  end.

Notation "'let*' x ':=' m 'in' k" := (andThen m (λ x, k))
  (at level 10, x name, m at level 100, k at level 200).
Notation "m ';;' k" := (andThen m (λ _, k))
  (at level 100, k at level 200, right associativity).

(** [if (c) return r;] *)
Definition replyIf (c : bool) (r : response) : flow unit :=
  if c then Reply r else Next ().

(** [try { ... } catch (error) { res.status(500).json(..) }] around a block
    that mutates [tasks] only in its last statement. *)
Definition handle (tasks : store) (block : flow (response * store)) : response * store :=
  match block with
  | Next out => out
  | Reply r => (r, tasks)
  | Throw => (errorResponse 500 "Internal server error", tasks)
  end.

(** [v.trim()]: only a string has a callable [trim]. *)
Definition callTrim (v : jsval) : flow jsval :=
  match v with
  | JStr s => Next (JStr (trim s))
  | _ => Throw
  end.

(** [v.toLowerCase()] *)
Definition callToLowerCase (x : option jsval) : flow string :=
  match x with
  | Some (JStr s) => Next (toLowerCase s)
  | _ => Throw
  end.

(** ** The task API ([server.js]) *)

Module Server.

(** Valid workflow statuses for the content pipeline. *)
Definition VALID_STATUSES : list string :=
  ["Idea"; "Assigned"; "Drafting"; "Editing"; "Fact-Check"; "Scheduled"; "Published"].

(** [VALID_STATUSES.includes(status)] *)
Definition isValidStatus (status : jsval) : bool :=
  match status with
  | JStr s => bool_decide (s ∈ VALID_STATUSES)
  | _ => false
  end.

Definition invalidStatusMessage : string :=
  "Invalid status. Must be one of: " ++ join ", " VALID_STATUSES.

(** The query string of [GET /tasks]: each parameter is absent or a string. *)
Record query := Query { q_status : option string; q_assignee : option string }.

(** [if (param)]: a parameter that is absent or empty is falsy. *)
Definition given (param : option string) : option string :=
  match param with
  | Some s => if String.eqb s "" then None else Some s
  | None => None
  end.

(** [arr.filter(p)] for a callback that may throw: the first exception
    leaves the loop. *)
Fixpoint filterThrowing {A} (p : A → flow bool) (l : list A) : flow (list A) :=
  match l with
  | [] => Next []
  | x :: l' =>
      let* keep := p x in
      let* rest := filterThrowing p l' in
      Next (if keep : bool then x :: rest else rest)
  end.

(** [GET /tasks] *)
Definition getTasks (q : query) (tasks : store) : response * store :=
  handle tasks (
    let filteredTasks := tasks in
    let filteredTasks :=
      match given (q_status q) with
      | Some status =>
          List.filter (λ task : object, strictEqualsString (task !! "status") status)
                      filteredTasks
      | None => filteredTasks
      end in
    let* filteredTasks :=
      match given (q_assignee q) with
      | Some assignee =>
          filterThrowing
            (λ task : object,
               let* lowered := callToLowerCase (task !! "assignee") in
               Next (includes lowered (toLowerCase assignee)))
            filteredTasks
      | None => Next filteredTasks
      end in
    Next (Resp 200 (JArr (JObj <$> filteredTasks)), tasks)).

(** [DELETE /tasks/:id] *)
Definition deleteTask (id : string) (tasks : store) : response * store :=
  handle tasks (
    match findIndex (λ task : object, strictEqualsString (task !! "id") id) tasks with
    | None => Reply (errorResponse 404 "Task not found")
    | Some taskIndex =>
        match tasks !! taskIndex with
        | Some deletedTask =>
            Next (Resp 200 (JObj {[ "message" := JStr "Task deleted";
                                    "task" := JObj deletedTask ]}),
                  delete taskIndex tasks)
        | None =>
            (* [splice] past the end removes nothing; [undefined] is not serialised *)
            Next (Resp 200 (JObj {[ "message" := JStr "Task deleted" ]}), tasks)
        end
    end).

(** One request to the API, together with what the environment returns to
    its handler: the fresh uuid and the clock readings. *)
Inductive request : Type :=
  | GET (q : query)
  | POST (body : object) (uuid createdAt updatedAt : string)
  | PUT (id : string) (body : object) (now : string)
  | DELETE (id : string).

(** The values [uuidv4()] hands to the [POST] requests of a run. *)
Fixpoint uuidsDrawn (reqs : list request) : list string :=
  match reqs with
  | [] => []
  | POST _ uuid _ _ :: reqs' => uuid :: uuidsDrawn reqs'
  | _ :: reqs' => uuidsDrawn reqs'
  end.

(** The task a response announces as created: the body of a 201. *)
Definition createdTask (r : response) : option object :=
  if (statusCode r =? 201)%nat then
    match json r with
    | JObj task => Some task
    | _ => None
    end
  else None.

(** The tasks a run has created, oldest first. *)
Definition created (resps : list response) : list object :=
  omap createdTask resps.

Section Host.

(** [isNaN(Date.parse(v))]: the date grammar accepted beyond ISO 8601 is
    the engine's own. *)
Variable dateParseIsNaN : jsval → bool.

(** [x > n] for the [length] property [x] of a parsed JSON object, with
    the coercions of the abstract relational comparison. *)
Variable exceeds : jsval → nat → bool.

(** [v.length > n] *)
Definition lengthExceeds (v : jsval) (n : nat) : flow bool :=
  match v with
  | JNull => Throw
  | JBool _ | JNum _ => Next false
  | JStr s => Next (n <? String.length s)%nat
  | JArr l => Next (n <? List.length l)%nat
  | JObj o =>
      match o !! "length" with
      | Some x => Next (exceeds x n)
      | None => Next false
      end
  end.

(** [POST /tasks]. [uuid] is what [uuidv4()] returns, [createdAt] and
    [updatedAt] what the two [new Date().toISOString()] return. *)
Definition postTask (body : object) (uuid createdAt updatedAt : string)
    (tasks : store) : response * store :=
  handle tasks (
    let title := body !! "title" in
    let description := default (JStr "") (body !! "description") in
    let assignee := default (JStr "") (body !! "assignee") in
    let dueDate := default (JStr "") (body !! "dueDate") in
    let status := default (JStr "Idea") (body !! "status") in
    match title with
    | Some (JStr title) =>
        (* a string: [!title || !title.trim()] *)
        replyIf (String.eqb title "" || String.eqb (trim title) "")
          (errorResponse 400 "Title is required and must be a non-empty string");;
        replyIf (200 <? String.length title)%nat
          (errorResponse 400 "Title must be 200 characters or less");;
        let* tooLong :=
          (if truthy description then lengthExceeds description 2000
           else Next false) in
        replyIf tooLong
          (errorResponse 400 "Description must be 2000 characters or less");;
        replyIf (negb (isValidStatus status))
          (errorResponse 400 invalidStatusMessage);;
        replyIf (truthy dueDate && dateParseIsNaN dueDate)
          (errorResponse 400 "Invalid date format for dueDate");;
        let* description := callTrim description in
        let* assignee := callTrim assignee in
        let newTask : object :=
          {[ "id" := JStr uuid;
             "title" := JStr (trim title);
             "description" := description;
             "assignee" := assignee;
             "dueDate" := dueDate;
             "status" := status;
             "createdAt" := JStr createdAt;
             "updatedAt" := JStr updatedAt ]} in
        Next (Resp 201 (JObj newTask), (tasks ++ [newTask])%list)
    | _ =>
        (* undefined, or [typeof title !== 'string'] *)
        Reply (errorResponse 400 "Title is required and must be a non-empty string")
    end).

(** [if (task[k]) task[k] = task[k].trim();] *)
Definition trimProperty (k : string) (task : object) : flow object :=
  match task !! k with
  | Some v =>
      if truthy v
      then let* v' := callTrim v in Next (<[k := v']> task)
      else Next task
  | None => Next task
  end.

(** The validation of [title] in [PUT]: [if (title !== undefined) ...] *)
Definition checkTitle (title : option jsval) : flow unit :=
  match title with
  | None => Next ()
  | Some (JStr title) =>
      replyIf (String.eqb (trim title) "")
        (errorResponse 400 "Title must be a non-empty string");;
      replyIf (200 <? String.length title)%nat
        (errorResponse 400 "Title must be 200 characters or less")
  | Some _ =>
      Reply (errorResponse 400 "Title must be a non-empty string")
  end.

(** [PUT /tasks/:id]. [now] is what [new Date().toISOString()] returns. *)
Definition putTask (id : string) (body : object) (now : string)
    (tasks : store) : response * store :=
  handle tasks (
    match findIndex (λ task : object, strictEqualsString (task !! "id") id) tasks with
    | None => Reply (errorResponse 404 "Task not found")
    | Some taskIndex =>
        let title := body !! "title" in
        let description := body !! "description" in
        let dueDate := body !! "dueDate" in
        let status := body !! "status" in
        checkTitle title;;
        let* tooLong :=
          match description with
          | Some description => lengthExceeds description 2000
          | None => Next false
          end in
        replyIf tooLong
          (errorResponse 400 "Description must be 2000 characters or less");;
        replyIf (match status with
                 | Some status => negb (isValidStatus status)
                 | None => false
                 end)
          (errorResponse 400 invalidStatusMessage);;
        replyIf (match dueDate with
                 | Some dueDate => truthy dueDate && dateParseIsNaN dueDate
                 | None => false
                 end)
          (errorResponse 400 "Invalid date format for dueDate");;
        match tasks !! taskIndex with
        | None => Throw   (* reading [id] of undefined *)
        | Some existingTask =>
            let updatedTask : object :=
              <["updatedAt" := JStr now]>
                (setProperty "createdAt" (existingTask !! "createdAt")
                   (setProperty "id" (existingTask !! "id")
                      (body ∪ existingTask))) in
            let* updatedTask := trimProperty "title" updatedTask in
            let* updatedTask := trimProperty "description" updatedTask in
            let* updatedTask := trimProperty "assignee" updatedTask in
            Next (Resp 200 (JObj updatedTask), <[taskIndex := updatedTask]> tasks)
        end
    end).

(** The router: one request against the store. *)
Definition serve (req : request) (tasks : store) : response * store :=
  match req with
  | GET q => getTasks q tasks
  | POST body uuid createdAt updatedAt => postTask body uuid createdAt updatedAt tasks
  | PUT id body now => putTask id body now tasks
  | DELETE id => deleteTask id tasks
  end.

(** Requests are served one at a time, each on the store the previous one
    left. *)
Fixpoint run (reqs : list request) (tasks : store) : list response * store :=
  match reqs with
  | [] => ([], tasks)
  | req :: reqs' =>
      let (resp, tasks') := serve req tasks in
      let (resps, tasks'') := run reqs' tasks' in
      (resp :: resps, tasks'')
  end.

End Host.

(** *** What the specification says of [GET /tasks] and [DELETE /tasks/:id] *)

(** A task matches a filter when its status equals the status parameter, if
    one is provided, and the assignee parameter, if one is provided, is a
    case-insensitive substring of its assignee. *)
Definition matchesFilter (q : query) (task : object) : bool :=
  match q_status q with
  | Some status => strictEqualsString (task !! "status") status
  | None => true
  end &&
  match q_assignee q with
  | Some assignee =>
      match task !! "assignee" with
      | Some (JStr a) => includes (toLowerCase a) (toLowerCase assignee)
      | _ => false
      end
  | None => true
  end.

(** The same, with a parameter that is the empty string counted as not
    provided. *)
Definition matchesGiven (q : query) (task : object) : bool :=
  matchesFilter (Query (given (q_status q)) (given (q_assignee q))) task.

(** The body [{message, deletedTask}] of the interface table. *)
Definition deletedTaskShape (body : jsval) (task : object) : Prop :=
  ∃ message : jsval,
    body = JObj {[ "message" := message; "deletedTask" := JObj task ]}.

(** The properties [PUT] sets itself, after the spread of the body. *)
Definition serverOwned : list string := ["id"; "createdAt"; "updatedAt"].

(** The properties the specification lists as the task's own. *)
Definition taskFields : list string :=
  ["title"; "description"; "assignee"; "dueDate"; "status"].

(** The string properties [POST] and [PUT] trim. *)
Definition trimmedFields : list string := ["title"; "description"; "assignee"].

(** An error response: [{ error: msg }] under a 4xx or 5xx code. *)
Definition refused (r : response) : Prop :=
  ∃ code msg, r = errorResponse code msg ∧ (400 ≤ code)%nat.

(** The object a response carries, if it carries one. *)
Definition taskOf (r : response) : object :=
  match json r with
  | JObj o => o
  | _ => ∅
  end.

(** The test [task => task.id === id] of [PUT] and [DELETE]. *)
Abbreviation hasId id := (λ task : object, strictEqualsString (task !! "id") id).

(** Some task of the store has this id. *)
Definition known (id : string) (tasks : store) : Prop :=
  ∃ task, task ∈ tasks ∧ task !! "id" = Some (JStr id).

(** The [id] properties of the stored tasks, in order. *)
Definition ids (tasks : store) : list (option jsval) :=
  (λ task : object, task !! "id") <$> tasks.

(** A property the trimming step of [PUT] leaves as it is: undefined, falsy,
    or a string with no white space at either end. *)
Definition settled (k : string) (task : object) : Prop :=
  ∀ v, task !! k = Some v → truthy v = true → ∃ s, v = JStr s ∧ trimmed s.

(** Every trimmed property of the task is settled. *)
Definition tidy (task : object) : Prop :=
  ∀ k, k ∈ trimmedFields → settled k task.

End Server.

(** ** The board component ([project_management_app.jsx]) *)

(** A [fetch] a client issues to change a task. *)
Inductive fetchCall : Type :=
  | FetchPut (taskId : string) (body : object).

Module Board.

(** The component state the drag handlers read and write: the task list
    last fetched and the id being dragged ([None] for [null]). *)
Record state := State { tasks : list object; draggedTaskId : option string }.

(** [updateTaskStatus]: the request it sends. *)
Definition updateTaskStatus (taskId newStatus : string) : fetchCall :=
  FetchPut taskId {[ "status" := JStr newStatus ]}.

Definition handleDragStart (st : state) (taskId : string) : state :=
  State (tasks st) (Some taskId).

(** [handleDrop(e, status)]: the request it issues, if any, and the state it
    leaves. The refetch that follows the answer is a later event. *)
Definition handleDrop (st : state) (status : string) : list fetchCall * state :=
  let calls :=
    match draggedTaskId st with
    | Some dragged =>
        if truthy (JStr dragged) then
          match List.find (λ t : object, strictEqualsString (t !! "id") dragged) (tasks st) with
          | Some task =>
              if negb (strictEqualsString (task !! "status") status)
              then [updateTaskStatus dragged status]
              else []
          | None => []
          end
        else []
    | None => []
    end in
  (calls, State (tasks st) None).

End Board.

(** ** The Vite front end ([App.jsx]) *)

Module App.

(** [updateTaskStatus]: the request it sends, the whole local task with the
    new status. *)
Definition updateTaskStatus (tasks : list object) (taskId newStatus : string) : fetchCall :=
  let task := List.find (λ t : object, strictEqualsString (t !! "id") taskId) tasks in
  FetchPut taskId (<["status" := JStr newStatus]> (default ∅ task)).

(** [handleDrop(e, status)], with [taskId] what the drag stored in
    [e.dataTransfer]. *)
Definition handleDrop (tasks : list object) (taskId status : string) : list fetchCall :=
  [updateTaskStatus tasks taskId status].

End App.

(** ** The first version of the task API *)

Module Legacy.

Import Server.

(** [GET /tasks] as first written: no [try], and the assignee must equal
    the parameter. *)
Definition getTasks (q : query) (tasks : store) : response * store :=
  let filteredTasks := tasks in
  let filteredTasks :=
    match given (q_status q) with
    | Some status =>
        List.filter (λ task : object, strictEqualsString (task !! "status") status)
                    filteredTasks
    | None => filteredTasks
    end in
  let filteredTasks :=
    match given (q_assignee q) with
    | Some assignee =>
        List.filter (λ task : object, strictEqualsString (task !! "assignee") assignee)
                    filteredTasks
    | None => filteredTasks
    end in
  (Resp 200 (JArr (JObj <$> filteredTasks)), tasks).

(** [POST /tasks] as first written: only a falsy title is refused, and the
    fields are stored as received. *)
Definition postTask (body : object) (uuid : string) (tasks : store) : response * store :=
  let title := body !! "title" in
  let description := default (JStr "") (body !! "description") in
  let assignee := default (JStr "") (body !! "assignee") in
  let dueDate := default (JStr "") (body !! "dueDate") in
  let status := default (JStr "Idea") (body !! "status") in
  match title with
  | Some title =>
      if negb (truthy title) then (errorResponse 400 "Title is required", tasks)
      else
        let newTask : object :=
          {[ "id" := JStr uuid;
             "title" := title;
             "description" := description;
             "assignee" := assignee;
             "dueDate" := dueDate;
             "status" := status ]} in
        (Resp 201 (JObj newTask), (tasks ++ [newTask])%list)
  | None => (errorResponse 400 "Title is required", tasks)
  end.

(** [PUT /tasks/:id] as first written: the body is spread over the task
    unchecked, and only [id] is set back. *)
Definition putTask (id : string) (body : object) (tasks : store) : response * store :=
  match findIndex (λ task : object, strictEqualsString (task !! "id") id) tasks with
  | None => (errorResponse 404 "Task not found", tasks)
  | Some taskIndex =>
      match tasks !! taskIndex with
      | Some existingTask =>
          let updatedTask : object :=
            setProperty "id" (existingTask !! "id") (body ∪ existingTask) in
          (Resp 200 (JObj updatedTask), <[taskIndex := updatedTask]> tasks)
      | None =>
          (* reading [id] of undefined: Express answers the TypeError with 500 *)
          (errorResponse 500 "Internal server error", tasks)
      end
  end.

(** [DELETE /tasks/:id] as first written: the answer carries the message
    only. *)
Definition deleteTask (id : string) (tasks : store) : response * store :=
  match findIndex (λ task : object, strictEqualsString (task !! "id") id) tasks with
  | None => (errorResponse 404 "Task not found", tasks)
  | Some taskIndex =>
      (Resp 200 (JObj {[ "message" := JStr "Task deleted" ]}), delete taskIndex tasks)
  end.

End Legacy.

(** ** The first board component, which keeps its tasks to itself *)

Module LocalBoard.

(** The state of the component. A form is an object whose values are
    strings: what the inputs hold. *)
Record state := State {
  tasks : list object;
  isDialogOpen : bool;
  formData : gmap string string }.

Definition emptyForm : gmap string string :=
  {[ "title" := ""; "description" := ""; "assignee" := ""; "status" := "Idea";
     "dueDate" := "" ]}.

(** [handleInputChange(e)], with [name] and [value] those of [e.target]. *)
Definition handleInputChange (name value : string) (st : state) : state :=
  State (tasks st) (isDialogOpen st) (<[name := value]> (formData st)).

Definition handleStatusChange (value : string) (st : state) : state :=
  State (tasks st) (isDialogOpen st) (<["status" := value]> (formData st)).

(** [addTask()], with [now] what [Date.now().toString()] returns. Without a
    title to trim the handler stops with a TypeError and the state stays. *)
Definition addTask (now : string) (st : state) : state :=
  match formData st !! "title" with
  | Some title =>
      if String.eqb (trim title) "" then st
      else
        let newTask : object := (JStr <$> formData st) ∪ {[ "id" := JStr now ]} in
        State (tasks st ++ [newTask])%list false emptyForm
  | None => st
  end.

(** [deleteTask(taskId)] *)
Definition deleteTask (taskId : string) (st : state) : state :=
  State (List.filter (λ t : object, negb (strictEqualsString (t !! "id") taskId)) (tasks st))
        (isDialogOpen st) (formData st).

End LocalBoard.

(** ** The network, as the clients see it *)

(** What [await fetch(..)] comes to: the promise is rejected with an error
    that has a message, or there is a response, with its [ok] flag and the
    JSON it carries. *)
Inductive fetched (A : Type) : Type :=
  | Rejected (message : string)
  | Responded (ok : bool) (body : A).
Arguments Rejected {A} message.
Arguments Responded {A} ok body.

(** The four requests the clients send, against a peer in state [W]. The
    API answers each of them with a JSON object, and the listing with an
    array of objects. *)
Record network (W : Type) : Type := Network {
  listTasks : W → fetched (list object) * W;
  createTask : object → W → fetched object * W;
  updateTask : string → object → W → fetched object * W;
  removeTask : string → W → fetched object * W }.
Arguments listTasks {W} n w.
Arguments createTask {W} n body w.
Arguments updateTask {W} n taskId body w.
Arguments removeTask {W} n taskId w.

(** [x || ""] *)
Definition orEmpty (x : option jsval) : jsval :=
  match x with
  | Some v => if truthy v then v else JStr ""
  | None => JStr ""
  end.

(** ** The whole board component ([project_management_app.jsx]) *)

Module ProjectManagementApp.

(** [STATUS_ORDER] *)
Definition STATUS_ORDER : list string :=
  ["Idea"; "Assigned"; "Drafting"; "Editing"; "Fact-Check"; "Scheduled"; "Published"].

(** The state hooks of the component. *)
Record state := State {
  tasks : list object;
  loading : bool;
  error : option string;
  isDialogOpen : bool;
  editingTask : option object;
  formData : object;
  submitting : bool;
  draggedTaskId : option string }.

Definition setTasks x st :=
  State x (loading st) (error st) (isDialogOpen st) (editingTask st) (formData st)
        (submitting st) (draggedTaskId st).
Definition setLoading x st :=
  State (tasks st) x (error st) (isDialogOpen st) (editingTask st) (formData st)
        (submitting st) (draggedTaskId st).
Definition setError x st :=
  State (tasks st) (loading st) x (isDialogOpen st) (editingTask st) (formData st)
        (submitting st) (draggedTaskId st).
Definition setDialogOpen x st :=
  State (tasks st) (loading st) (error st) x (editingTask st) (formData st)
        (submitting st) (draggedTaskId st).
Definition setEditingTask x st :=
  State (tasks st) (loading st) (error st) (isDialogOpen st) x (formData st)
        (submitting st) (draggedTaskId st).
Definition setFormData x st :=
  State (tasks st) (loading st) (error st) (isDialogOpen st) (editingTask st) x
        (submitting st) (draggedTaskId st).
Definition setSubmitting x st :=
  State (tasks st) (loading st) (error st) (isDialogOpen st) (editingTask st) (formData st)
        x (draggedTaskId st).
Definition setDraggedTaskId x st :=
  State (tasks st) (loading st) (error st) (isDialogOpen st) (editingTask st) (formData st)
        (submitting st) x.

Definition emptyForm : object :=
  {[ "title" := JStr ""; "description" := JStr ""; "assignee" := JStr "";
     "status" := JStr "Idea"; "dueDate" := JStr "" ]}.

(** The component as it is mounted, before the first fetch. *)
Definition initial : state :=
  State [] true None false None emptyForm false None.

Definition handleInputChange (name value : string) (st : state) : state :=
  setFormData (<[name := JStr value]> (formData st)) st.

Definition handleStatusChange (value : string) (st : state) : state :=
  setFormData (<["status" := JStr value]> (formData st)) st.

Definition resetForm (st : state) : state :=
  setEditingTask None (setFormData emptyForm st).

Definition openCreateDialog (st : state) : state :=
  setDialogOpen true (resetForm st).

Definition openEditDialog (task : object) (st : state) : state :=
  setDialogOpen true
    (setFormData
       (setProperty "title" (task !! "title")
          (setProperty "status" (task !! "status")
             {[ "description" := orEmpty (task !! "description");
                "assignee" := orEmpty (task !! "assignee");
                "dueDate" := orEmpty (task !! "dueDate") ]}))
       (setEditingTask (Some task) st)).

(** [renderColumnTasks(status)]: the tasks whose cards the column shows. *)
Definition renderColumnTasks (status : string) (tasks : list object) : list object :=
  List.filter (λ task : object, strictEqualsString (task !! "status") status) tasks.

Definition handleDragStart (taskId : string) (st : state) : state :=
  setDraggedTaskId (Some taskId) st.

Section Engine.

(** [String(v)] for a value that is not a string, as a template literal
    and [new Error(v)] apply it. *)
Variable stringOf : option jsval → string.

Definition templateLiteral (x : option jsval) : string :=
  match x with
  | Some (JStr s) => s
  | other => stringOf other
  end.

Context {W : Type}.
Variable net : network W.

(** [fetchTasks()] *)
Definition fetchTasks (st : state) (w : W) : state * W :=
  let st := setError None (setLoading true st) in
  match listTasks net w with
  | (Rejected message, w) => (setLoading false (setError (Some message) st), w)
  | (Responded false _, w) =>
      (setLoading false (setError (Some "Failed to fetch tasks") st), w)
  | (Responded true data, w) => (setLoading false (setTasks data st), w)
  end.

(** [handleSubmit()]. A title that is not a string stops the handler with a
    TypeError before it has set or sent anything. *)
Definition handleSubmit (st : state) (w : W) : state * W :=
  match formData st !! "title" with
  | Some (JStr title) =>
      if String.eqb (trim title) "" then (st, w)
      else
        let st1 := setSubmitting true st in
        let answer :=
          match editingTask st with
          | Some task => updateTask net (templateLiteral (task !! "id")) (formData st) w
          | None => createTask net (formData st) w
          end in
        match answer with
        | (Rejected message, w) =>
            (setSubmitting false (setError (Some message) st1), w)
        | (Responded false errorData, w) =>
            let message :=
              match errorData !! "error" with
              | Some v => if truthy v then templateLiteral (Some v) else "Failed to save task"
              | None => "Failed to save task"
              end in
            (setSubmitting false (setError (Some message) st1), w)
        | (Responded true _, w) =>
            let (st2, w) := fetchTasks st1 w in
            (setSubmitting false (setDialogOpen false (resetForm st2)), w)
        end
  | _ => (st, w)
  end.

(** [deleteTask(taskId)], with [confirmed] the answer to [window.confirm]. *)
Definition deleteTask (confirmed : bool) (taskId : option jsval) (st : state) (w : W)
    : state * W :=
  if negb confirmed then (st, w)
  else
    match removeTask net (templateLiteral taskId) w with
    | (Rejected message, w) => (setError (Some message) st, w)
    | (Responded false _, w) => (setError (Some "Failed to delete task") st, w)
    | (Responded true _, w) => fetchTasks st w
    end.

(** [updateTaskStatus(taskId, newStatus)] *)
Definition updateTaskStatus (taskId newStatus : string) (st : state) (w : W) : state * W :=
  match updateTask net taskId {[ "status" := JStr newStatus ]} w with
  | (Rejected message, w) => (setError (Some message) st, w)
  | (Responded false _, w) => (setError (Some "Failed to update task status") st, w)
  | (Responded true _, w) => fetchTasks st w
  end.

(** [handleDrop(e, status)], to its end. *)
Definition handleDrop (status : string) (st : state) (w : W) : state * W :=
  let (st', w) :=
    match draggedTaskId st with
    | Some dragged =>
        if truthy (JStr dragged) then
          match List.find (λ t : object, strictEqualsString (t !! "id") dragged) (tasks st) with
          | Some task =>
              if negb (strictEqualsString (task !! "status") status)
              then updateTaskStatus dragged status st w
              else (st, w)
          | None => (st, w)
          end
        else (st, w)
    | None => (st, w)
    end in
  (setDraggedTaskId None st', w).

(** The list shown after a handler is the list shown before it, or the
    body of a listing that was answered ok. *)
Definition keptOrFetched (st st' : state) : Prop :=
  tasks st' = tasks st ∨
  ∃ w1 w2 data,
    listTasks net w1 = (Responded true data, w2) ∧ tasks st' = data.

End Engine.

End ProjectManagementApp.

(** ** The whole Vite front end ([App.jsx]) *)

Module ViteApp.

(** The state hooks of the component. The form holds what the inputs hold:
    strings. *)
Record state := State {
  tasks : list object;
  isDialogOpen : bool;
  loading : bool;
  formData : gmap string string }.

Definition emptyForm : gmap string string :=
  {[ "title" := ""; "description" := ""; "assignee" := ""; "status" := "Idea";
     "dueDate" := "" ]}.

Definition initial : state := State [] false true emptyForm.

Definition handleInputChange (name value : string) (st : state) : state :=
  State (tasks st) (isDialogOpen st) (loading st) (<[name := value]> (formData st)).

Section Network.

Context {W : Type}.
Variable net : network W.

(** [fetchTasks()]: whatever the answer carries becomes the task list; a
    rejected fetch is logged. *)
Definition fetchTasks (st : state) (w : W) : state * W :=
  match listTasks net w with
  | (Rejected _, w) => (State (tasks st) (isDialogOpen st) false (formData st), w)
  | (Responded _ data, w) => (State data (isDialogOpen st) false (formData st), w)
  end.

(** [addTask()]: whatever the answer carries is appended. Without a title
    to trim the handler stops with a TypeError and the state stays. *)
Definition addTask (st : state) (w : W) : state * W :=
  match formData st !! "title" with
  | Some title =>
      if String.eqb (trim title) "" then (st, w)
      else
        match createTask net (JStr <$> formData st) w with
        | (Rejected _, w) => (st, w)
        | (Responded _ newTask, w) =>
            (State (tasks st ++ [newTask])%list false (loading st) emptyForm, w)
        end
  | None => (st, w)
  end.

(** [deleteTask(taskId)], for a card whose id is a string. *)
Definition deleteTask (taskId : string) (st : state) (w : W) : state * W :=
  match removeTask net taskId w with
  | (Rejected _, w) => (st, w)
  | (Responded _ _, w) =>
      (State (List.filter (λ t : object, negb (strictEqualsString (t !! "id") taskId))
                          (tasks st))
             (isDialogOpen st) (loading st) (formData st), w)
  end.

(** [updateTaskStatus(taskId, newStatus)]: whatever the answer carries
    takes the place of the task. *)
Definition updateTaskStatus (taskId newStatus : string) (st : state) (w : W) : state * W :=
  let task := List.find (λ t : object, strictEqualsString (t !! "id") taskId) (tasks st) in
  match updateTask net taskId (<["status" := JStr newStatus]> (default ∅ task)) w with
  | (Rejected _, w) => (st, w)
  | (Responded _ updatedTask, w) =>
      (State ((λ t : object, if strictEqualsString (t !! "id") taskId
                             then updatedTask else t) <$> tasks st)
             (isDialogOpen st) (loading st) (formData st), w)
  end.

(** [handleDrop(e, status)], with [taskId] what the drag stored in
    [e.dataTransfer]. *)
Definition handleDrop (taskId status : string) (st : state) (w : W) : state * W :=
  updateTaskStatus taskId status st w.

End Network.

End ViteApp.

(** ** The task API behind the network *)

Module Backend.

Import Server.

(** [response.ok] *)
Definition isOk (r : response) : bool :=
  ((200 <=? statusCode r) && (statusCode r <=? 299))%nat.

Definition asObject (v : jsval) : object :=
  match v with
  | JObj o => o
  | _ => ∅
  end.

Definition asObjects (v : jsval) : list object :=
  match v with
  | JArr l => asObject <$> l
  | _ => []
  end.

(** What the client gets of an answer of the API. *)
Definition received {A} (decode : jsval → A) (out : response * store) : fetched A * store :=
  (Responded (isOk out.1) (decode (json out.1)), out.2).

Section Host.

Variable dateParseIsNaN : jsval → bool.
Variable exceeds : jsval → nat → bool.

(** The API as a peer that always answers, with the store as its state.
    Each handler of a client sends at most one request that changes the
    store: [uuid], [createdAt], [updatedAt] and [now] are what the
    environment hands the API for it. An id travels in the path as it is: a
    uuid is not empty and needs no escaping. *)
Definition api (uuid createdAt updatedAt now : string) : network store :=
  Network store
    (λ tasks, received asObjects (getTasks (Query None None) tasks))
    (λ body tasks,
       received asObject (postTask dateParseIsNaN exceeds body uuid createdAt updatedAt tasks))
    (λ id body tasks, received asObject (putTask dateParseIsNaN exceeds id body now tasks))
    (λ id tasks, received asObject (deleteTask id tasks)).

End Host.

End Backend.

(** ** What the API keeps true of every stored task *)

Module Stored.

Import Server.

(** What the trimming step of [PUT] makes of a property. *)
Definition trimmedValue (x : option jsval) : option jsval :=
  match x with
  | Some (JStr s) => Some (JStr (trim s))
  | other => other
  end.

(** The status is one of the workflow statuses. *)
Definition staged (task : object) : Prop :=
  ∃ s, task !! "status" = Some (JStr s) ∧ s ∈ VALID_STATUSES.

(** The title is a string that is not empty, has no white space at either
    end and is at most 200 characters long. *)
Definition titled (task : object) : Prop :=
  ∃ s, task !! "title" = Some (JStr s) ∧ s ≠ "" ∧ trimmed s ∧
       (String.length s ≤ 200)%nat.

(** The description is a trimmed string of at most 2000 characters, or one
    of the two falsy values that have a [length] to read: 0 and false. *)
Definition described (task : object) : Prop :=
  ∃ v, task !! "description" = Some v ∧
       ((∃ s, v = JStr s ∧ trimmed s ∧ (String.length s ≤ 2000)%nat) ∨
        v = JNum 0 ∨ v = JBool false).

(** The assignee is a trimmed string or a falsy value. *)
Definition assigned (task : object) : Prop :=
  ∃ v, task !! "assignee" = Some v ∧
       ((∃ s, v = JStr s ∧ trimmed s) ∨ truthy v = false).

(** The due date is falsy or a value the engine's date parser accepts. *)
Definition dated (dateParseIsNaN : jsval → bool) (task : object) : Prop :=
  ∃ v, task !! "dueDate" = Some v ∧ truthy v && dateParseIsNaN v = false.

(** The id and the two timestamps are strings. *)
Definition stamped (task : object) : Prop :=
  (∃ s, task !! "id" = Some (JStr s)) ∧
  (∃ s, task !! "createdAt" = Some (JStr s)) ∧
  (∃ s, task !! "updatedAt" = Some (JStr s)).

Definition wellFormed (dateParseIsNaN : jsval → bool) (task : object) : Prop :=
  staged task ∧ titled task ∧ described task ∧ assigned task ∧
  dated dateParseIsNaN task ∧ stamped task.

(** The eight properties [POST] gives a task. *)
Definition taskKeys : list string :=
  ["id"; "title"; "description"; "assignee"; "dueDate"; "status";
   "createdAt"; "updatedAt"].

End Stored.

(** ** Sample data *)

Module Sample.

Import Server.

(** Stand-ins for the engine in the examples below, none of which carries a
    [dueDate] or an object for a description: every date is taken as
    unparseable, no [length] as exceeding. *)
Definition noDate : jsval → bool := λ _, true.
Definition noLength : jsval → nat → bool := λ _ _, false.

(** The request body of the specification's example scenario. *)
Definition launch : object :=
  {[ "title" := JStr "Write launch article"; "assignee" := JStr "Ada" ]}.

(** The task [POST] stores for it under the id [u1] at time [t0]. *)
Definition launched : object :=
  {[ "id" := JStr "u1";
     "title" := JStr "Write launch article";
     "description" := JStr "";
     "assignee" := JStr "Ada";
     "dueDate" := JStr "";
     "status" := JStr "Idea";
     "createdAt" := JStr "t0";
     "updatedAt" := JStr "t0" ]}.

(** The run that creates it, and the store that run leaves. *)
Definition opening : list request := [POST launch "u1" "t0" "t0"].
Definition board : store := [launched].

(** A title of 201 characters, 200 of them trailing blanks. *)
Definition padded : string := String "a" (string_of_list_ascii (replicate 200 " "%char)).

(** The same task, had it been created next under the id [u2]. *)
Definition second : object := <["id" := JStr "u2"]> launched.

(** An update that carries a property the task model does not have. *)
Definition annotate : object := {[ "note" := JStr " x" ]}.

(** What the store holds for [u1] after that update at time [t1]. *)
Definition annotated : object :=
  <["note" := JStr " x"]> (<["updatedAt" := JStr "t1"]> launched).

(** An update that tries to set the modification time. *)
Definition backdate : object := {[ "updatedAt" := JStr "1999-01-01T00:00:00.000Z" ]}.

End Sample.

(** ** Sample scenarios *)

Module Scenario.

Import Server Sample.


(** Bodies the API refuses: a status outside the workflow, and a
    description that is a number. *)
Definition misfiled : object := {[ "title" := JStr "Moon phases"; "status" := JStr "Done" ]}.

(** An update that tries to set the id and the creation time, and what the
    store holds for [u1] after it at time [t1]. *)
Definition forge : object := {[ "id" := JStr "u9"; "createdAt" := JStr "t9" ]}.
Definition forged : object := <["updatedAt" := JStr "t1"]> launched.

(** A create with a property the task model does not have, and the task
    stored for it under the id [u2] at time [t1]. *)
Definition noted : object := {[ "title" := JStr "Moon phases"; "note" := JStr "x" ]}.
Definition phases : object :=
  {[ "id" := JStr "u2";
     "title" := JStr "Moon phases";
     "description" := JStr "";
     "assignee" := JStr "";
     "dueDate" := JStr "";
     "status" := JStr "Idea";
     "createdAt" := JStr "t1";
     "updatedAt" := JStr "t1" ]}.

(** The sample task moved to "Editing" at time [t1]. *)
Definition edited : object :=
  <["updatedAt" := JStr "t1"]> (<["status" := JStr "Editing"]> launched).

(** The first board component with a title typed in. *)
Definition drafted : LocalBoard.state :=
  LocalBoard.handleInputChange "title" "Moon phases"
    (LocalBoard.State [] true LocalBoard.emptyForm).

(** A network that is down: every fetch is rejected. *)
Definition offline : network unit :=
  Network unit
    (λ w, (Rejected "Failed to fetch", w))
    (λ _ w, (Rejected "Failed to fetch", w))
    (λ _ _ w, (Rejected "Failed to fetch", w))
    (λ _ w, (Rejected "Failed to fetch", w)).

(** The API of the examples: the next uuid is [u2], the clock reads [t1]. *)
Definition online : network store := Backend.api noDate noLength "u2" "t1" "t1" "t1".

(** [String(v)] where the examples never need it. *)
Definition noString : option jsval → string := λ _, "".

(** The board component after its first fetch of the sample board. *)
Definition loaded : ProjectManagementApp.state :=
  ProjectManagementApp.State board false None false None
    ProjectManagementApp.emptyForm false None.

(** The same with the dialog open and a title typed in, or blanks only. *)
Definition typing : ProjectManagementApp.state :=
  ProjectManagementApp.handleInputChange "title" " Review photos "
    (ProjectManagementApp.openCreateDialog loaded).
Definition blank : ProjectManagementApp.state :=
  ProjectManagementApp.handleInputChange "title" "   "
    (ProjectManagementApp.openCreateDialog loaded).

(** The task the API stores for the typed form. *)
Definition reviewed : object :=
  {[ "id" := JStr "u2";
     "title" := JStr "Review photos";
     "description" := JStr "";
     "assignee" := JStr "";
     "dueDate" := JStr "";
     "status" := JStr "Idea";
     "createdAt" := JStr "t1";
     "updatedAt" := JStr "t1" ]}.

(** The board component with the sample card being dragged. *)
Definition dragging : ProjectManagementApp.state :=
  ProjectManagementApp.handleDragStart "u1" loaded.

(** The Vite front end after its first fetch of the sample board, and with
    a title of 201 characters typed in. *)
Definition synced : ViteApp.state := ViteApp.State board false false ViteApp.emptyForm.
Definition overlong : ViteApp.state := ViteApp.handleInputChange "title" padded synced.

End Scenario.

(** ** Proof steps *)

(** Membership in a list that is written out. *)
Ltac listed := by repeat first [apply list_elem_of_here | apply list_elem_of_further].
Ltac not_listed :=
  let H := fresh in
  intros H; repeat (apply elem_of_cons in H as [H|H]; [discriminate H|]);
  by apply elem_of_nil in H.

(** * Properties *)

(** ** [trim] *)

Module JsStringFacts.

Lemma trimStart_starts s : startsWithSpace (trimStart s) = false.
Proof.
  induction s as [|c s IH]; simpl; [reflexivity|].
  destruct (isWhiteSpace c) eqn:Hc; simpl; [exact IH | exact Hc].
Qed.

Lemma trimEnd_ends s : endsWithSpace (trimEnd s) = false.
Proof.
  induction s as [|c s IH]; simpl; [reflexivity|].
  destruct (trimEnd s) as [|c' r] eqn:Hr.
  - destruct (isWhiteSpace c) eqn:Hc; simpl; [reflexivity | exact Hc].
  - exact IH.
Qed.

Lemma trimEnd_starts s :
  startsWithSpace s = false → startsWithSpace (trimEnd s) = false.
Proof.
  destruct s as [|c s]; simpl; [reflexivity|]. intros Hc.
  destruct (trimEnd s); [rewrite Hc|]; simpl; [exact Hc | exact Hc].
Qed.

(** The result of [trim] has no white space at either end. *)
Lemma trim_trimmed s : trimmed (trim s).
Proof.
  split; unfold trim.
  - apply trimEnd_starts, trimStart_starts.
  - apply trimEnd_ends.
Qed.

Lemma trimStart_id s : startsWithSpace s = false → trimStart s = s.
Proof. destruct s as [|c s]; simpl; [reflexivity|]. by intros ->. Qed.

Lemma trimEnd_id s : endsWithSpace s = false → trimEnd s = s.
Proof.
  induction s as [|c s IH]; [reflexivity|].
  destruct s as [|c' s].
  - simpl. by intros ->.
  - intros H. change (endsWithSpace (String c' s) = false) in H.
    change (trimEnd (String c (String c' s)))
      with (match trimEnd (String c' s) with
            | EmptyString => if isWhiteSpace c then EmptyString else String c EmptyString
            | r => String c r
            end).
    by rewrite (IH H).
Qed.

(** [trim] leaves a string alone that has no white space at either end. *)
Lemma trim_id s : trimmed s → trim s = s.
Proof.
  intros [H1 H2]. unfold trim. rewrite (trimStart_id _ H1). by apply trimEnd_id.
Qed.

Lemma trim_idempotent s : trim (trim s) = trim s.
Proof. apply trim_id, trim_trimmed. Qed.

Lemma trimmed_empty : trimmed "".
Proof. by split. Qed.

End JsStringFacts.

(** ** Arrays *)

Module ArrayFacts.

Lemma findIndex_None {A} (p : A → bool) (l : list A) :
  findIndex p l = None ↔ ∀ x, x ∈ l → p x = false.
Proof.
  induction l as [|x l IH]; simpl.
  - split; [|done]. intros _ x Hx. by apply elem_of_nil in Hx.
  - destruct (p x) eqn:Hpx.
    + split; [done|]. intros H. specialize (H x (list_elem_of_here _ _)). congruence.
    + destruct (findIndex p l) as [i|] eqn:Hf; simpl.
      * split; [done|]. intros H.
        assert (Some i = None) as Habs; [|done].
        apply IH. intros y Hy. apply H. by apply list_elem_of_further.
      * split; [|done]. intros _ y Hy. apply elem_of_cons in Hy as [->|Hy]; [done|].
        by apply IH.
Qed.

Lemma findIndex_Some {A} (p : A → bool) (l : list A) i :
  findIndex p l = Some i →
  ∃ x, l !! i = Some x ∧ p x = true ∧ ∀ j y, j < i → l !! j = Some y → p y = false.
Proof.
  revert i. induction l as [|x l IH]; intros i; simpl; [done|].
  destruct (p x) eqn:Hpx.
  - intros [= <-]. exists x. split_and!; [done..|]. intros j y Hj. lia.
  - destruct (findIndex p l) as [i'|] eqn:Hf; simpl; [|done].
    intros [= <-]. destruct (IH i' eq_refl) as (y & Hy & Hpy & Hlt).
    exists y. split_and!; [done..|].
    intros [|j] z Hj; simpl; [by intros [= <-]|].
    apply Hlt. lia.
Qed.

Lemma findIndex_first {A} (p : A → bool) (l : list A) i x :
  l !! i = Some x → p x = true →
  (∀ j y, j < i → l !! j = Some y → p y = false) →
  findIndex p l = Some i.
Proof.
  revert i. induction l as [|z l IH]; intros i; simpl; [done|].
  destruct i as [|i]; simpl.
  - intros [= ->] -> _. done.
  - intros Hx Hpx Hlt.
    rewrite (Hlt 0 z); [|lia|done].
    rewrite (IH i); [done..|].
    intros j y Hj Hy. apply (Hlt (S j) y); [lia|done].
Qed.

Lemma findIndex_exists {A} (p : A → bool) (l : list A) x :
  x ∈ l → p x = true → ∃ i, findIndex p l = Some i.
Proof.
  intros Hx Hpx. destruct (findIndex p l) as [i|] eqn:Hf; [by exists i|].
  rewrite findIndex_None in Hf. rewrite (Hf x Hx) in Hpx. done.
Qed.

End ArrayFacts.

(** ** The task API *)

Module ServerFacts.

Import Server ArrayFacts JsStringFacts.

Lemma strictEqualsString_true x s :
  strictEqualsString x s = true ↔ x = Some (JStr s).
Proof.
  destruct x as [[]|]; simpl; try (split; [done | congruence]).
  rewrite String.eqb_eq. split; [by intros -> | by intros [= ->]].
Qed.

Lemma strictEqualsString_false x s :
  strictEqualsString x s = false ↔ x ≠ Some (JStr s).
Proof.
  rewrite <- strictEqualsString_true. by destruct (strictEqualsString x s).
Qed.

Lemma unknown_findIndex id (tasks : store) :
  (∀ task, task ∈ tasks → task !! "id" ≠ Some (JStr id)) →
  findIndex (hasId id) tasks = None.
Proof.
  intros H. apply findIndex_None. intros task Ht.
  apply strictEqualsString_false. by apply H.
Qed.

Lemma known_findIndex id (tasks : store) :
  known id tasks →
  ∃ i task, findIndex (hasId id) tasks = Some i ∧ tasks !! i = Some task ∧
            task !! "id" = Some (JStr id).
Proof.
  intros (task & Ht & Hid).
  destruct (findIndex_exists (hasId id) tasks task Ht) as [i Hi].
  { by apply strictEqualsString_true. }
  destruct (findIndex_Some _ _ _ Hi) as (t & Hlook & Hp & _).
  exists i, t. split_and!; [done..|]. by apply strictEqualsString_true.
Qed.

Section WithHost.

Variable dateParseIsNaN : jsval → bool.
Variable exceeds : jsval → nat → bool.

Local Abbreviation postTask := (Server.postTask dateParseIsNaN exceeds).
Local Abbreviation putTask := (Server.putTask dateParseIsNaN exceeds).
Local Abbreviation serve := (Server.serve dateParseIsNaN exceeds).
Local Abbreviation run := (Server.run dateParseIsNaN exceeds).

(** C1. An update whose id matches no stored task is answered 404
    "Task not found", and the store is left exactly as it was. *)
Theorem put_unknown_id id body now (tasks : store) :
  (∀ task, task ∈ tasks → task !! "id" ≠ Some (JStr id)) →
  putTask id body now tasks = (errorResponse 404 "Task not found", tasks).
Proof.
  intros H. unfold Server.putTask. by rewrite (unknown_findIndex _ _ H).
Qed.

(** C4. A create whose title is missing, is not a string, or is empty once
    trimmed is answered 400, and nothing is appended to the store. *)
Theorem post_bad_title body uuid createdAt updatedAt (tasks : store) :
  body !! "title" = None ∨
  (∃ v, body !! "title" = Some v ∧ ∀ s, v ≠ JStr s) ∨
  (∃ s, body !! "title" = Some (JStr s) ∧ trim s = "") →
  postTask body uuid createdAt updatedAt tasks =
    (errorResponse 400 "Title is required and must be a non-empty string", tasks).
Proof.
  unfold Server.postTask.
  intros [-> | [(v & -> & Hv) | (s & -> & Hs)]]; simpl.
  - done.
  - destruct v; try done. by destruct (Hv s).
  - rewrite Hs. simpl. by rewrite orb_true_r.
Qed.

(** C10. The 200-character limit is applied to the title as received: a
    title longer than 200 characters is refused with 400 by create, and by
    update of a known id, however short it is once trimmed. *)
Theorem title_limit_before_trim s body uuid createdAt updatedAt id now (tasks : store) :
  body !! "title" = Some (JStr s) →
  200 < String.length s →
  postTask body uuid createdAt updatedAt tasks =
    (errorResponse 400
       (if String.eqb (trim s) ""
        then "Title is required and must be a non-empty string"
        else "Title must be 200 characters or less"), tasks) ∧
  (known id tasks →
   putTask id body now tasks =
     (errorResponse 400
        (if String.eqb (trim s) ""
         then "Title must be a non-empty string"
         else "Title must be 200 characters or less"), tasks)).
Proof.
  intros Hs Hlen.
  assert ((200 <? String.length s)%nat = true) as Hlt by by apply Nat.ltb_lt.
  assert (String.eqb s "" = false) as Hne.
  { destruct s; [simpl in Hlen; lia | done]. }
  split.
  - unfold Server.postTask. rewrite Hs, Hne. simpl.
    destruct (String.eqb (trim s) ""); simpl; [done|]. by rewrite Hlt.
  - intros Hk. destruct (known_findIndex _ _ Hk) as (i & task & Hi & _ & _).
    unfold Server.putTask. rewrite Hi, Hs. simpl.
    destruct (String.eqb (trim s) ""); simpl; [done|]. by rewrite Hlt.
Qed.

(** *** The shape of every answer *)

Lemma refused_error code msg : (400 ≤ code)%nat → refused (errorResponse code msg).
Proof. intros H. by exists code, msg. Qed.

Lemma refused_code r : refused r → (400 ≤ statusCode r)%nat.
Proof. by intros (code & msg & -> & H). Qed.

Lemma trimProperty_Next k task task' :
  trimProperty k task = Next task' →
  (∀ k', k' ≠ k → task' !! k' = task !! k') ∧
  settled k task' ∧
  (∀ v, task !! k = Some v → truthy v = false → task' = task) ∧
  (∀ v, task !! k = Some v → truthy v = true →
        ∃ s, v = JStr s ∧ task' = <[k := JStr (trim s)]> task) ∧
  (task !! k = None → task' = task).
Proof.
  unfold trimProperty, settled.
  destruct (task !! k) as [v|] eqn:Hv.
  - destruct (truthy v) eqn:Htr.
    + destruct v; simpl; try done. intros [= <-].
      split_and!.
      * intros k' Hk. by rewrite lookup_insert_ne.
      * intros v. rewrite lookup_insert_eq. intros [= <-] _.
        eexists. split; [done|]. apply trim_trimmed.
      * intros v [= <-]. congruence.
      * intros v [= <-] _. by eexists.
      * done.
    + intros [= <-]. split_and!.
      * done.
      * intros v'. rewrite Hv. intros [= <-]. congruence.
      * done.
      * intros v' [= <-]. congruence.
      * done.
  - intros [= <-]. split_and!; try done. intros v. by rewrite Hv.
Qed.

Lemma trimProperty_noReply k task r : trimProperty k task ≠ Reply r.
Proof.
  unfold trimProperty. destruct (task !! k) as [v|]; [|done].
  destruct (truthy v); [|done]. by destruct v.
Qed.

Lemma trimProperty_settled k task :
  settled k task → trimProperty k task = Next task.
Proof.
  unfold settled, trimProperty. intros H.
  destruct (task !! k) as [v|] eqn:Hv; [|done].
  destruct (truthy v) eqn:Htr; [|done].
  destruct (H v eq_refl Htr) as (s & -> & Hs). simpl.
  rewrite (trim_id _ Hs). by rewrite insert_id.
Qed.

Lemma checkTitle_cases title :
  checkTitle title = Next () ∨ ∃ msg, checkTitle title = Reply (errorResponse 400 msg).
Proof.
  destruct title as [[]|]; simpl; eauto.
  destruct (String.eqb (trim s) ""); simpl; eauto.
  destruct (200 <? String.length s)%nat; simpl; eauto.
Qed.

Lemma lengthExceeds_cases v n :
  lengthExceeds exceeds v n = Throw ∨ ∃ b, lengthExceeds exceeds v n = Next b.
Proof. destruct v; simpl; eauto. destruct (o !! "length"); eauto. Qed.

(** [PUT] either refuses and leaves the store alone, or answers 200 with the
    merged and trimmed task and stores it in place of the existing one. *)
Lemma putTask_cases id body now (tasks : store) :
  (refused (putTask id body now tasks).1 ∧ (putTask id body now tasks).2 = tasks) ∨
  (∃ i existing u1 u2 u3,
     findIndex (hasId id) tasks = Some i ∧
     tasks !! i = Some existing ∧
     checkTitle (body !! "title") = Next () ∧
     (∀ status, body !! "status" = Some status → isValidStatus status = true) ∧
     trimProperty "title"
       (<["updatedAt" := JStr now]>
          (setProperty "createdAt" (existing !! "createdAt")
             (setProperty "id" (existing !! "id") (body ∪ existing)))) = Next u1 ∧
     trimProperty "description" u1 = Next u2 ∧
     trimProperty "assignee" u2 = Next u3 ∧
     putTask id body now tasks = (Resp 200 (JObj u3), <[i := u3]> tasks)).
Proof.
  unfold Server.putTask.
  destruct (findIndex (hasId id) tasks) as [i|] eqn:Hi; simpl;
    [|left; split; [by apply refused_error; lia | done]].
  destruct (checkTitle_cases (body !! "title")) as [Ht | [msg Ht]]; rewrite Ht; simpl;
    [|left; split; [by apply refused_error; lia | done]].
  assert (∃ fl : flow bool,
    match body !! "description" with
    | Some description => lengthExceeds exceeds description 2000
    | None => Next false
    end = fl ∧ (fl = Throw ∨ ∃ b, fl = Next b)) as (fl & -> & Hfl).
  { eexists. split; [done|]. destruct (body !! "description"); [|by eauto].
    apply lengthExceeds_cases. }
  destruct Hfl as [-> | [b ->]]; simpl;
    [left; split; [by apply refused_error; lia | done]|].
  destruct b; simpl; [left; split; [by apply refused_error; lia | done]|].
  destruct (body !! "status") as [status|] eqn:Hst; simpl.
  all: match goal with
       | |- context [replyIf (negb (isValidStatus ?s))] =>
           destruct (isValidStatus s) eqn:Hvalid; simpl;
           [|left; split; [by apply refused_error; lia | done]]
       | _ => idtac
       end.
  all: destruct (match body !! "dueDate" with
                 | Some dueDate => truthy dueDate && dateParseIsNaN dueDate
                 | None => false
                 end); simpl; [left; split; [by apply refused_error; lia | done]|].
  all: destruct (tasks !! i) as [existing|] eqn:Hex; simpl;
         [|left; split; [by apply refused_error; lia | done]].
  all: destruct (trimProperty "title" _) as [u1| |] eqn:H1; simpl;
         [|by destruct (trimProperty_noReply _ _ _ H1)
          |left; split; [by apply refused_error; lia | done]].
  all: destruct (trimProperty "description" u1) as [u2| |] eqn:H2; simpl;
         [|by destruct (trimProperty_noReply _ _ _ H2)
          |left; split; [by apply refused_error; lia | done]].
  all: destruct (trimProperty "assignee" u2) as [u3| |] eqn:H3; simpl;
         [|by destruct (trimProperty_noReply _ _ _ H3)
          |left; split; [by apply refused_error; lia | done]].
  all: right; exists i, existing, u1, u2, u3; split_and!; try done.
  by intros ? [= <-].
Qed.

(** [POST] either refuses and leaves the store alone, or answers 201 with a
    new task and appends it. *)
Lemma postTask_cases body uuid createdAt updatedAt (tasks : store) :
  (refused (postTask body uuid createdAt updatedAt tasks).1 ∧
   (postTask body uuid createdAt updatedAt tasks).2 = tasks) ∨
  (∃ title description assignee,
     body !! "title" = Some (JStr title) ∧
     default (JStr "") (body !! "description") = JStr description ∧
     default (JStr "") (body !! "assignee") = JStr assignee ∧
     isValidStatus (default (JStr "Idea") (body !! "status")) = true ∧
     let newTask : object :=
       {[ "id" := JStr uuid;
          "title" := JStr (trim title);
          "description" := JStr (trim description);
          "assignee" := JStr (trim assignee);
          "dueDate" := default (JStr "") (body !! "dueDate");
          "status" := default (JStr "Idea") (body !! "status");
          "createdAt" := JStr createdAt;
          "updatedAt" := JStr updatedAt ]} in
     postTask body uuid createdAt updatedAt tasks =
       (Resp 201 (JObj newTask), (tasks ++ [newTask])%list)).
Proof.
  unfold Server.postTask.
  destruct (body !! "title") as [[| | |title| |]|] eqn:Ht; simpl;
    try (left; split; [by apply refused_error; lia | done]).
  destruct (String.eqb title "" || String.eqb (trim title) ""); simpl;
    [left; split; [by apply refused_error; lia | done]|].
  destruct (200 <? String.length title)%nat; simpl;
    [left; split; [by apply refused_error; lia | done]|].
  assert (∃ fl : flow bool,
    (if truthy (default (JStr "") (body !! "description"))
     then lengthExceeds exceeds (default (JStr "") (body !! "description")) 2000
     else Next false) = fl ∧ (fl = Throw ∨ ∃ b, fl = Next b)) as (fl & -> & Hfl).
  { eexists. split; [done|]. destruct (truthy _); [|by eauto].
    apply lengthExceeds_cases. }
  destruct Hfl as [-> | [b ->]]; simpl;
    [left; split; [by apply refused_error; lia | done]|].
  destruct b; simpl; [left; split; [by apply refused_error; lia | done]|].
  destruct (isValidStatus (default (JStr "Idea") (body !! "status"))) eqn:Hvalid; simpl;
    [|left; split; [by apply refused_error; lia | done]].
  destruct (truthy (default (JStr "") (body !! "dueDate")) &&
            dateParseIsNaN (default (JStr "") (body !! "dueDate"))); simpl;
    [left; split; [by apply refused_error; lia | done]|].
  destruct (default (JStr "") (body !! "description")) as [| | |description| |] eqn:Hd;
    simpl; try (left; split; [by apply refused_error; lia | done]).
  destruct (default (JStr "") (body !! "assignee")) as [| | |assignee| |] eqn:Ha;
    simpl; try (left; split; [by apply refused_error; lia | done]).
  right. by exists title, description, assignee.
Qed.

(** [DELETE] either answers 404 and leaves the store alone, or answers 200
    and removes the first task with the id. *)
Lemma deleteTask_cases id (tasks : store) :
  (deleteTask id tasks = (errorResponse 404 "Task not found", tasks) ∧
   ∀ task, task ∈ tasks → task !! "id" ≠ Some (JStr id)) ∨
  (∃ i task,
     findIndex (hasId id) tasks = Some i ∧ tasks !! i = Some task ∧
     task !! "id" = Some (JStr id) ∧
     deleteTask id tasks =
       (Resp 200 (JObj {[ "message" := JStr "Task deleted"; "task" := JObj task ]}),
        delete i tasks)).
Proof.
  unfold deleteTask.
  destruct (findIndex (hasId id) tasks) as [i|] eqn:Hi; simpl.
  - right. destruct (findIndex_Some _ _ _ Hi) as (task & Hlook & Hp & _).
    exists i, task. rewrite Hlook. split_and!; try done.
    by apply strictEqualsString_true.
  - left. split; [done|]. intros task Ht.
    apply strictEqualsString_false. revert task Ht. by apply findIndex_None.
Qed.

Lemma filterThrowing_cases {A} (p : A → flow bool) (l : list A) :
  (∀ x, p x = Throw ∨ ∃ b, p x = Next b) →
  filterThrowing p l = Throw ∨ ∃ l', filterThrowing p l = Next l'.
Proof.
  intros Hp. induction l as [|x l IH]; simpl; [by eauto|].
  destruct (Hp x) as [-> | [b ->]]; simpl; [by left|].
  destruct IH as [-> | [l' ->]]; simpl; eauto.
Qed.

(** A callback that does not throw makes [filterThrowing] the plain filter. *)
Lemma filterThrowing_filter {A} (p : A → flow bool) (f : A → bool) (l : list A) :
  (∀ x, x ∈ l → p x = Next (f x)) →
  filterThrowing p l = Next (List.filter f l).
Proof.
  induction l as [|x l IH]; intros Hp; simpl; [done|].
  rewrite (Hp x) by apply list_elem_of_here. simpl.
  rewrite IH; [done|]. intros y Hy. apply Hp. by apply list_elem_of_further.
Qed.

(** [GET] never changes the store, and answers 200 or 500. *)
Lemma getTasks_store q (tasks : store) :
  (getTasks q tasks).2 = tasks ∧
  (refused (getTasks q tasks).1 ∨ ∃ found, (getTasks q tasks).1 = Resp 200 (JArr found)).
Proof.
  unfold getTasks.
  destruct (given (q_assignee q)) as [assignee|]; simpl.
  - match goal with
    | |- context [filterThrowing ?p ?l] =>
        destruct (filterThrowing_cases p l) as [-> | [l' ->]]
    end.
    + intros task. destruct (task !! "assignee") as [[]|]; simpl; eauto.
    + simpl. split; [done|]. left. apply refused_error. lia.
    + simpl. split; [done|]. right. by eexists.
  - split; [done|]. right. by eexists.
Qed.

(** *** Listing and deleting *)

Lemma filter_twice {A} (f g : A → bool) (l : list A) :
  List.filter g (List.filter f l) = List.filter (λ x, f x && g x) l.
Proof.
  induction l as [|x l IH]; simpl; [done|].
  destruct (f x); simpl; [|done]. destruct (g x); by rewrite IH.
Qed.

Lemma filter_agree {A} (f g : A → bool) (l : list A) :
  (∀ x, x ∈ l → f x = g x) → List.filter f l = List.filter g l.
Proof.
  induction l as [|x l IH]; intros H; simpl; [done|].
  rewrite (H x) by apply list_elem_of_here.
  rewrite IH; [done|]. intros y Hy. apply H. by apply list_elem_of_further.
Qed.

Lemma elem_of_filter_bool {A} (f : A → bool) (l : list A) x :
  x ∈ List.filter f l → x ∈ l.
Proof. rewrite !list_elem_of_In, List.filter_In. tauto. Qed.

(** C5, as the code has it. On a store whose tasks all have a string for
    assignee, [GET /tasks] answers 200 with exactly the tasks that match
    every given parameter, in the order of the store, and leaves the store
    as it is; a parameter that is absent or the empty string is not given. *)
Theorem getTasks_matching q (tasks : store) :
  (∀ task, task ∈ tasks → ∃ a, task !! "assignee" = Some (JStr a)) →
  getTasks q tasks =
    (Resp 200 (JArr (JObj <$> List.filter (matchesGiven q) tasks)), tasks).
Proof.
  intros Hstr. unfold getTasks, matchesGiven, matchesFilter. simpl.
  destruct (given (q_assignee q)) as [assignee|]; simpl.
  - rewrite (filterThrowing_filter _
      (λ task : object,
         match task !! "assignee" with
         | Some (JStr a) => includes (toLowerCase a) (toLowerCase assignee)
         | _ => false
         end)).
    + simpl. destruct (given (q_status q)) as [status|]; simpl.
      * by rewrite filter_twice.
      * done.
    + intros task Ht.
      assert (task ∈ tasks) as Hin.
      { destruct (given (q_status q)); [by eapply elem_of_filter_bool | done]. }
      by destruct (Hstr task Hin) as [a ->].
  - destruct (given (q_status q)) as [status|]; simpl; [|by rewrite List.filter_true].
    do 4 f_equal. apply filter_agree. intros task _. by rewrite andb_true_r.
Qed.

(** C6, as the code has it. Deleting a known id answers 200 with the body
    [{ message: 'Task deleted', task }], where [task] is the first stored
    task with that id, and removes that task from the store. *)
Theorem delete_known_id id (tasks : store) :
  known id tasks →
  ∃ i task,
    tasks !! i = Some task ∧ task !! "id" = Some (JStr id) ∧
    (∀ j other, j < i → tasks !! j = Some other → other !! "id" ≠ Some (JStr id)) ∧
    deleteTask id tasks =
      (Resp 200 (JObj {[ "message" := JStr "Task deleted"; "task" := JObj task ]}),
       delete i tasks).
Proof.
  intros (t & Ht & Hid).
  destruct (deleteTask_cases id tasks) as [[_ Hnone] | (i & task & Hf & Hl & Hi & Hd)].
  - by destruct (Hnone t Ht).
  - exists i, task. split_and!; try done.
    destruct (findIndex_Some _ _ _ Hf) as (_ & _ & _ & Hfirst).
    intros j other Hj Hother. apply strictEqualsString_false. by eapply Hfirst.
Qed.

(** *** What a stored task looks like *)

Lemma settled_lookup k (task task' : object) :
  task' !! k = task !! k → settled k task → settled k task'.
Proof. unfold settled. by intros ->. Qed.

Lemma settled_string k (task : object) s : task !! k = Some (JStr (trim s)) → settled k task.
Proof.
  intros H v. rewrite H. intros [= <-] _. eexists. split; [done|]. apply trim_trimmed.
Qed.

(** The three trimming statements of [PUT], one after the other. *)
Lemma trim_chain (m u1 u2 u3 : object) :
  trimProperty "title" m = Next u1 →
  trimProperty "description" u1 = Next u2 →
  trimProperty "assignee" u2 = Next u3 →
  (∀ k, k ∉ trimmedFields → u3 !! k = m !! k) ∧ tidy u3.
Proof.
  intros H1 H2 H3.
  destruct (trimProperty_Next _ _ _ H1) as (E1 & S1 & _).
  destruct (trimProperty_Next _ _ _ H2) as (E2 & S2 & _).
  destruct (trimProperty_Next _ _ _ H3) as (E3 & S3 & _).
  split.
  - intros k Hk.
    rewrite E3, E2, E1; [done|..]; intros ->; apply Hk; listed.
  - intros k Hk. unfold trimmedFields in Hk.
    apply elem_of_cons in Hk as [-> | Hk]; [|apply elem_of_cons in Hk as [-> | Hk]];
      [| |apply list_elem_of_singleton in Hk as ->].
    + eapply settled_lookup; [|exact S1]. by rewrite E3, E2.
    + eapply settled_lookup; [|exact S2]. by rewrite E3.
    + exact S3.
Qed.

(** Trimming changes nothing on a task that is tidy already. *)
Lemma trim_chain_tidy (m : object) :
  tidy m →
  trimProperty "title" m = Next m ∧
  trimProperty "description" m = Next m ∧
  trimProperty "assignee" m = Next m.
Proof.
  intros H. split_and!; apply trimProperty_settled, H; listed.
Qed.

Lemma tidy_lookup (task task' : object) :
  (∀ k, k ∈ trimmedFields → task' !! k = task !! k) → tidy task → tidy task'.
Proof. intros E H k Hk. eapply settled_lookup; [by apply E | by apply H]. Qed.

(** [POST] stores a tidy task. *)
Lemma postTask_tidy body uuid createdAt updatedAt (tasks : store) :
  Forall tidy tasks → Forall tidy (postTask body uuid createdAt updatedAt tasks).2.
Proof.
  intros Hall.
  destruct (postTask_cases body uuid createdAt updatedAt tasks)
    as [[_ ->] | (title & description & assignee & _ & _ & _ & _ & ->)]; [done|].
  simpl. apply Forall_app. split; [done|]. apply Forall_singleton.
  intros k Hk. unfold trimmedFields in Hk.
  apply elem_of_cons in Hk as [-> | Hk]; [|apply elem_of_cons in Hk as [-> | Hk]];
    [| |apply list_elem_of_singleton in Hk as ->].
  - by apply (settled_string _ _ title).
  - by apply (settled_string _ _ description).
  - by apply (settled_string _ _ assignee).
Qed.

(** [PUT] stores a tidy task. *)
Lemma putTask_tidy id body now (tasks : store) :
  Forall tidy tasks → Forall tidy (putTask id body now tasks).2.
Proof.
  intros Hall.
  destruct (putTask_cases id body now tasks)
    as [[_ ->] | (i & existing & u1 & u2 & u3 & _ & _ & _ & _ & H1 & H2 & H3 & ->)];
    [done|].
  simpl. apply Forall_insert; [done|]. by destruct (trim_chain _ _ _ _ H1 H2 H3).
Qed.

Lemma deleteTask_tidy id (tasks : store) :
  Forall tidy tasks → Forall tidy (deleteTask id tasks).2.
Proof.
  intros Hall.
  destruct (deleteTask_cases id tasks) as [[-> _] | (i & task & _ & _ & _ & ->)];
    [done|].
  simpl. by apply Forall_delete.
Qed.

Lemma serve_tidy req (tasks : store) :
  Forall tidy tasks → Forall tidy (serve req tasks).2.
Proof.
  destruct req; simpl.
  - by rewrite (proj1 (getTasks_store q tasks)).
  - apply postTask_tidy.
  - apply putTask_tidy.
  - apply deleteTask_tidy.
Qed.

Lemma run_cons req reqs (tasks : store) :
  run (req :: reqs) tasks =
    ((serve req tasks).1 :: (run reqs (serve req tasks).2).1,
     (run reqs (serve req tasks).2).2).
Proof.
  simpl. destruct (serve req tasks) as [resp tasks']. simpl.
  by destruct (Server.run dateParseIsNaN exceeds reqs tasks').
Qed.

(** Every task of every store a run reaches is tidy. *)
Lemma run_tidy reqs (tasks : store) :
  Forall tidy tasks → Forall tidy (run reqs tasks).2.
Proof.
  revert tasks. induction reqs as [|req reqs IH]; intros tasks Hall; [done|].
  rewrite run_cons. simpl. by apply IH, serve_tidy.
Qed.

(** *** The ids of the stored tasks *)

(** The object literal of [PUT], read property by property. *)
Lemma merged_lookup (body existing : object) now k :
  (<["updatedAt" := JStr now]>
     (setProperty "createdAt" (existing !! "createdAt")
        (setProperty "id" (existing !! "id") (body ∪ existing)))) !! k =
  if decide (k = "updatedAt") then Some (JStr now)
  else if decide (k = "createdAt") then existing !! "createdAt"
  else if decide (k = "id") then existing !! "id"
  else (body ∪ existing) !! k.
Proof.
  destruct (decide (k = "updatedAt")) as [-> | Hu]; [by rewrite lookup_insert_eq|].
  rewrite lookup_insert_ne by done.
  destruct (decide (k = "createdAt")) as [-> | Hc].
  { unfold setProperty at 1. destruct (existing !! "createdAt");
      [by rewrite lookup_insert_eq | by rewrite lookup_delete_eq]. }
  assert (∀ x (o : object), setProperty "createdAt" x o !! k = o !! k) as ->.
  { intros [v|] o; simpl; [by rewrite lookup_insert_ne | by rewrite lookup_delete_ne]. }
  destruct (decide (k = "id")) as [-> | Hi].
  { unfold setProperty. destruct (existing !! "id");
      [by rewrite lookup_insert_eq | by rewrite lookup_delete_eq]. }
  destruct (existing !! "id"); simpl;
    [by rewrite lookup_insert_ne | by rewrite lookup_delete_ne].
Qed.

(** What [PUT] stores on success, property by property: the three
    server-owned properties come from the existing task and the clock, and
    every property that is not trimmed comes from the body if it has it,
    else from the existing task. *)
Lemma putTask_stored id body now (tasks : store) updated tasks' :
  putTask id body now tasks = (Resp 200 (JObj updated), tasks') →
  ∃ i existing,
    findIndex (hasId id) tasks = Some i ∧ tasks !! i = Some existing ∧
    tasks' = <[i := updated]> tasks ∧
    tidy updated ∧
    updated !! "id" = existing !! "id" ∧
    updated !! "createdAt" = existing !! "createdAt" ∧
    updated !! "updatedAt" = Some (JStr now) ∧
    (∀ k, k ∉ serverOwned → k ∉ trimmedFields →
          updated !! k = (body ∪ existing) !! k) ∧
    (∀ status, body !! "status" = Some status → isValidStatus status = true).
Proof.
  intros Hput.
  destruct (putTask_cases id body now tasks)
    as [[Href Hsame] | (i & existing & u1 & u2 & u3 & Hi & Hex & _ & Hst & H1 & H2 & H3 & E)].
  { rewrite Hput in Href. apply refused_code in Href. simpl in Href. lia. }
  rewrite Hput in E. injection E as -> ->.
  destruct (trim_chain _ _ _ _ H1 H2 H3) as [Hk Htidy].
  exists i, existing. split_and!; try done.
  - rewrite Hk by not_listed. by rewrite merged_lookup.
  - rewrite Hk by not_listed. by rewrite merged_lookup.
  - rewrite Hk by not_listed. by rewrite merged_lookup.
  - intros k Hs Ht. rewrite (Hk k Ht), merged_lookup.
    repeat case_decide; subst; try done; exfalso; apply Hs; listed.
Qed.

Lemma ids_insert_same (tasks : store) i (existing updated : object) :
  tasks !! i = Some existing → updated !! "id" = existing !! "id" →
  ids (<[i := updated]> tasks) = ids tasks.
Proof.
  intros Hex Hid. unfold ids. rewrite list_fmap_insert. simpl. rewrite Hid.
  apply list_insert_id. by rewrite list_lookup_fmap, Hex.
Qed.

(** One request appends the drawn uuid to the ids, removes one id, or keeps
    the ids as they are. *)
Lemma serve_ids req (tasks : store) :
  ids (serve req tasks).2 = ids tasks ∨
  (∃ i, ids (serve req tasks).2 = delete i (ids tasks)) ∨
  (∃ body uuid createdAt updatedAt,
     req = POST body uuid createdAt updatedAt ∧
     ids (serve req tasks).2 = (ids tasks ++ [Some (JStr uuid)])%list).
Proof.
  destruct req as [q | body uuid createdAt updatedAt | id body now | id]; simpl.
  - left. by rewrite (proj1 (getTasks_store q tasks)).
  - destruct (postTask_cases body uuid createdAt updatedAt tasks)
      as [[_ ->] | (title & description & assignee & _ & _ & _ & _ & ->)]; [by left|].
    right; right. exists body, uuid, createdAt, updatedAt. split; [done|].
    simpl. unfold ids. by rewrite fmap_app.
  - left.
    destruct (putTask_cases id body now tasks) as [[_ ->] | Hok]; [done|].
    destruct Hok as (i & existing & u1 & u2 & u3 & _ & _ & _ & _ & _ & _ & _ & E).
    destruct (putTask_stored _ _ _ _ _ _ E) as (i' & ex' & _ & Hex & E' & _ & Hid & _).
    rewrite E. simpl. rewrite E'. by eapply ids_insert_same.
  - destruct (deleteTask_cases id tasks) as [[-> _] | (i & task & _ & _ & _ & ->)];
      [by left|].
    right; left. exists i. simpl. unfold ids. by rewrite list_fmap_delete.
Qed.

(** Every stored id was drawn by an earlier [POST] of the run, or was in the
    store the run started from. *)
Lemma run_ids_drawn reqs (tasks : store) x :
  x ∈ ids (run reqs tasks).2 →
  x ∈ ids tasks ∨ ∃ uuid, uuid ∈ uuidsDrawn reqs ∧ x = Some (JStr uuid).
Proof.
  revert tasks. induction reqs as [|req reqs IH]; intros tasks; [by left|].
  rewrite run_cons. simpl. intros Hx.
  destruct (IH _ Hx) as [Hin | (uuid & Hu & ->)].
  - destruct (serve_ids req tasks)
      as [E | [[i E] | (body & uuid & c & u & -> & E)]]; rewrite E in Hin.
    + by left.
    + left. by eapply list_elem_of_delete_inv.
    + apply elem_of_app in Hin as [Hin | Hin]; [by left|].
      apply list_elem_of_singleton in Hin as ->. right. exists uuid. simpl.
      split; [apply list_elem_of_here | done].
  - right. exists uuid. split; [|done].
    destruct req; simpl; try done. by apply list_elem_of_further.
Qed.

(** While [uuidv4()] never returns a value twice, no two stored tasks share
    an id. *)
Lemma run_ids_NoDup reqs (tasks : store) :
  NoDup (ids tasks) →
  NoDup (uuidsDrawn reqs) →
  (∀ uuid, uuid ∈ uuidsDrawn reqs → Some (JStr uuid) ∉ ids tasks) →
  NoDup (ids (run reqs tasks).2).
Proof.
  revert tasks. induction reqs as [|req reqs IH]; intros tasks Hnd Hdrawn Hfresh; [done|].
  rewrite run_cons. simpl.
  assert (NoDup (uuidsDrawn reqs)) as Hdrawn'.
  { destruct req; simpl in Hdrawn; try done. by apply NoDup_cons in Hdrawn as [_ ?]. }
  assert (∀ uuid, uuid ∈ uuidsDrawn reqs → Some (JStr uuid) ∉ ids tasks) as Hfresh'.
  { intros uuid Hu. apply Hfresh. destruct req; simpl; try done.
    by apply list_elem_of_further. }
  destruct (serve_ids req tasks)
    as [E | [[i E] | (body & uuid & c & u & -> & E)]].
  - apply IH; [by rewrite E | done | by rewrite E].
  - apply IH; [|done|].
    + rewrite E. exact (sublist_NoDup _ _ Hnd (sublist_delete _ _)).
    + intros uuid Hu Hin. apply (Hfresh' uuid Hu). rewrite E in Hin.
      by eapply list_elem_of_delete_inv.
  - simpl in Hdrawn. apply NoDup_cons in Hdrawn as [Hnew _].
    apply IH; [|done|].
    + rewrite E. apply NoDup_app. split_and!; [done| |apply NoDup_singleton].
      intros x Hx Hx'. apply list_elem_of_singleton in Hx' as ->.
      apply (Hfresh uuid); [apply list_elem_of_here | done].
    + intros uuid' Hu Hin. rewrite E in Hin.
      apply elem_of_app in Hin as [Hin | Hin]; [by apply (Hfresh' uuid' Hu)|].
      apply list_elem_of_singleton in Hin. injection Hin as ->. done.
Qed.

(** *** Creating *)

(** A body whose fields are strings within the limits is accepted: [POST]
    answers 201 with the new task and appends it. *)
Lemma postTask_accepts body title description assignee uuid createdAt updatedAt
    (tasks : store) :
  body !! "title" = Some (JStr title) →
  trim title ≠ "" →
  (String.length title ≤ 200)%nat →
  default (JStr "") (body !! "description") = JStr description →
  (String.length description ≤ 2000)%nat →
  default (JStr "") (body !! "assignee") = JStr assignee →
  isValidStatus (default (JStr "Idea") (body !! "status")) = true →
  truthy (default (JStr "") (body !! "dueDate")) &&
    dateParseIsNaN (default (JStr "") (body !! "dueDate")) = false →
  let newTask : object :=
    {[ "id" := JStr uuid;
       "title" := JStr (trim title);
       "description" := JStr (trim description);
       "assignee" := JStr (trim assignee);
       "dueDate" := default (JStr "") (body !! "dueDate");
       "status" := default (JStr "Idea") (body !! "status");
       "createdAt" := JStr createdAt;
       "updatedAt" := JStr updatedAt ]} in
  postTask body uuid createdAt updatedAt tasks =
    (Resp 201 (JObj newTask), (tasks ++ [newTask])%list).
Proof.
  intros Ht Hne Hlen Hd Hdlen Ha Hst Hdue. simpl.
  unfold Server.postTask. rewrite Ht, Hd, Ha, Hst, Hdue.
  assert (String.eqb title "" = false) as ->.
  { destruct title; [done | done]. }
  apply String.eqb_neq in Hne. rewrite Hne. simpl.
  assert ((200 <? String.length title)%nat = false) as -> by (apply Nat.ltb_ge; lia).
  simpl.
  assert ((2000 <? String.length description)%nat = false) as Hd'
    by (apply Nat.ltb_ge; lia).
  destruct (negb (String.eqb description "")); simpl; by rewrite ?Hd'.
Qed.

(** [dueDate] is stored as received: whatever string the engine's date
    parser accepts is kept character for character, white space included. *)
Lemma postTask_dueDate_as_received body title due uuid createdAt updatedAt
    (tasks : store) :
  body !! "title" = Some (JStr title) →
  trim title ≠ "" →
  (String.length title ≤ 200)%nat →
  body !! "description" = None →
  body !! "assignee" = None →
  body !! "status" = None →
  body !! "dueDate" = Some (JStr due) →
  dateParseIsNaN (JStr due) = false →
  ∃ task,
    postTask body uuid createdAt updatedAt tasks =
      (Resp 201 (JObj task), (tasks ++ [task])%list) ∧
    task !! "dueDate" = Some (JStr due).
Proof.
  intros Ht Hne Hlen Hd Ha Hst Hdue Hparse.
  eexists. split.
  - apply (postTask_accepts body title "" ""); try done.
    + by rewrite Hd.
    + simpl. lia.
    + by rewrite Ha.
    + by rewrite Hst.
    + rewrite Hdue. simpl. rewrite Hparse. apply andb_false_r.
  - by rewrite Hdue.
Qed.

(** *** The tasks a run creates *)

Lemma createdTask_refused r : refused r → createdTask r = None.
Proof.
  intros (code & msg & -> & Hcode). unfold createdTask. simpl.
  destruct (code =? 201)%nat eqn:E; [|done]. apply Nat.eqb_eq in E. lia.
Qed.

(** Only [POST] answers 201, and the task it announces carries the uuid
    drawn for it. *)
Lemma serve_created req (tasks : store) task :
  createdTask (serve req tasks).1 = Some task →
  ∃ body uuid createdAt updatedAt,
    req = POST body uuid createdAt updatedAt ∧ task !! "id" = Some (JStr uuid).
Proof.
  destruct req as [q | body uuid createdAt updatedAt | id body now | id]; simpl.
  - destruct (getTasks_store q tasks) as [_ [Href | [found ->]]]; [|done].
    by rewrite (createdTask_refused _ Href).
  - destruct (postTask_cases body uuid createdAt updatedAt tasks)
      as [[Href _] | (title & description & assignee & _ & _ & _ & _ & ->)].
    + by rewrite (createdTask_refused _ Href).
    + intros [= <-]. by exists body, uuid, createdAt, updatedAt.
  - destruct (putTask_cases id body now tasks) as [[Href _] | Hok].
    + by rewrite (createdTask_refused _ Href).
    + by destruct Hok as (i & existing & u1 & u2 & u3 & _ & _ & _ & _ & _ & _ & _ & ->).
  - by destruct (deleteTask_cases id tasks) as [[-> _] | (i & t & _ & _ & _ & ->)].
Qed.

Lemma run_created reqs (tasks : store) task :
  task ∈ created (run reqs tasks).1 →
  ∃ uuid, uuid ∈ uuidsDrawn reqs ∧ task !! "id" = Some (JStr uuid).
Proof.
  revert tasks. induction reqs as [|req reqs IH]; intros tasks.
  - simpl. intros H. by apply elem_of_nil in H.
  - rewrite run_cons. unfold created. simpl.
    destruct (createdTask (serve req tasks).1) as [t|] eqn:Hc.
    + intros H. apply elem_of_cons in H as [-> | H].
      * destruct (serve_created _ _ _ Hc) as (body & uuid & c & u & -> & Hid).
        exists uuid. split; [apply list_elem_of_here | done].
      * destruct (IH _ H) as (uuid & Hu & Hid). exists uuid. split; [|done].
        destruct req; simpl; try done. by apply list_elem_of_further.
    + intros H. destruct (IH _ H) as (uuid & Hu & Hid). exists uuid. split; [|done].
      destruct req; simpl; try done. by apply list_elem_of_further.
Qed.

(** C3. After any run from the empty store, a create that is answered 201,
    with a uuid that [uuidv4()] has not returned before, returns a task
    whose id differs from the id of every task created earlier and of every
    stored task; its status is "Idea" when the body has no status; and the
    task is appended to the store. *)
Theorem post_fresh_id_default_status reqs body uuid createdAt updatedAt task tasks' :
  uuid ∉ uuidsDrawn reqs →
  postTask body uuid createdAt updatedAt (run reqs []).2 = (Resp 201 (JObj task), tasks') →
  (∀ earlier, earlier ∈ created (run reqs []).1 → earlier !! "id" ≠ task !! "id") ∧
  (∀ stored, stored ∈ (run reqs []).2 → stored !! "id" ≠ task !! "id") ∧
  (body !! "status" = None → task !! "status" = Some (JStr "Idea")) ∧
  tasks' = ((run reqs []).2 ++ [task])%list.
Proof.
  intros Hfresh Hpost.
  destruct (postTask_cases body uuid createdAt updatedAt (run reqs []).2)
    as [[Href _] | (title & description & assignee & _ & _ & _ & _ & E)].
  { rewrite Hpost in Href. apply refused_code in Href. simpl in Href. lia. }
  simpl in E. rewrite Hpost in E. injection E as Etask Etasks.
  assert (task !! "id" = Some (JStr uuid)) as Hid by by rewrite Etask.
  assert (task !! "status" = Some (default (JStr "Idea") (body !! "status"))) as Hst
    by by rewrite Etask.
  split_and!.
  - intros earlier Hin. destruct (run_created _ _ _ Hin) as (u & Hu & ->).
    rewrite Hid. by intros [= ->].
  - intros stored Hin.
    assert (stored !! "id" ∈ ids (run reqs []).2) as Hin'.
    { unfold ids. apply list_elem_of_fmap. by exists stored. }
    destruct (run_ids_drawn _ _ _ Hin') as [Hnil | (u & Hu & ->)].
    + by apply elem_of_nil in Hnil.
    + rewrite Hid. by intros [= ->].
  - intros Hnone. by rewrite Hst, Hnone.
  - by rewrite Etasks, Etask.
Qed.

(** C7, as the code has it. In every store a run reaches from the empty
    store, the title, the description and the assignee of every task, where
    they are strings, have no white space at either end. *)
Theorem stored_fields_trimmed reqs task k s :
  task ∈ (run reqs []).2 →
  k ∈ trimmedFields →
  task !! k = Some (JStr s) →
  trimmed s.
Proof.
  intros Hin Hk Hs.
  assert (Forall tidy (run reqs []).2) as Hall by by apply run_tidy.
  rewrite Forall_forall in Hall.
  destruct (String.eqb s "") eqn:E.
  - apply String.eqb_eq in E as ->. apply trimmed_empty.
  - destruct (Hall task Hin k Hk (JStr s) Hs) as (s' & [= <-] & Htr); [|done].
    simpl. by rewrite E.
Qed.

(** C9, as the code has it. When an update is answered 200, every property
    of the body that is neither one of the task's five fields nor one of
    [id], [createdAt] and [updatedAt] is a property of the returned task,
    with the body's value, and the returned task is in the store. *)
Theorem put_keeps_unknown_property id body now (tasks : store) updated tasks' k v :
  putTask id body now tasks = (Resp 200 (JObj updated), tasks') →
  body !! k = Some v →
  k ∉ taskFields →
  k ∉ serverOwned →
  updated !! k = Some v ∧ updated ∈ tasks'.
Proof.
  intros Hput Hk Hfield Howned.
  destruct (putTask_stored _ _ _ _ _ _ Hput)
    as (i & existing & _ & Hex & -> & _ & _ & _ & _ & Hrest & _).
  split.
  - rewrite Hrest; [by apply lookup_union_Some_l | done |].
    intros Hin. apply Hfield. unfold trimmedFields in Hin. unfold taskFields.
    apply elem_of_cons in Hin as [-> | Hin]; [listed|].
    apply elem_of_cons in Hin as [-> | Hin]; [listed|].
    apply list_elem_of_singleton in Hin as ->. listed.
  - apply list_elem_of_lookup. exists i. apply list_lookup_insert_eq.
    by eapply lookup_lt_Some.
Qed.

(** C2. In a store reached by a run from the empty store in which
    [uuidv4()] never returned a value twice, updating a stored task with a
    body that holds nothing but a valid status is answered 200; the task
    returned and stored is the old one with [status] and [updatedAt]
    replaced, so every other property, [id] and [createdAt] included, is as
    it was, and every other task of the store is as it was. *)
Theorem put_status_only reqs (i : nat) (task : object) id status now :
  NoDup (uuidsDrawn reqs) →
  (run reqs []).2 !! i = Some task →
  task !! "id" = Some (JStr id) →
  status ∈ VALID_STATUSES →
  let tasks := (run reqs []).2 in
  let updated := <["updatedAt" := JStr now]> (<["status" := JStr status]> task) in
  putTask id {[ "status" := JStr status ]} now tasks =
    (Resp 200 (JObj updated), <[i := updated]> tasks) ∧
  (∀ k, k ≠ "status" → k ≠ "updatedAt" → updated !! k = task !! k) ∧
  (∀ j, j ≠ i → <[i := updated]> tasks !! j = tasks !! j) ∧
  List.length (<[i := updated]> tasks) = List.length tasks.
Proof.
  intros Hdrawn Hi Hid Hstatus tasks updated.
  change (tasks !! i = Some task) in Hi.
  assert (Forall tidy tasks) as Hall by by apply run_tidy.
  assert (NoDup (ids tasks)) as Hnd.
  { apply run_ids_NoDup; [apply NoDup_nil_2 | done |].
    intros uuid _ H. by apply elem_of_nil in H. }
  assert (findIndex (hasId id) tasks = Some i) as Hfind.
  { apply (findIndex_first _ _ _ task); [done | by apply strictEqualsString_true |].
    intros j y Hj Hy. apply strictEqualsString_false. intros Hyid.
    assert (j = i); [|lia].
    apply (NoDup_lookup (ids tasks) j i (Some (JStr id))); [done|..];
      unfold ids; rewrite list_lookup_fmap.
    - by rewrite Hy; simpl; rewrite Hyid.
    - by rewrite Hi; simpl; rewrite Hid. }
  assert (tidy task) as Htidy.
  { rewrite Forall_forall in Hall. apply Hall. by eapply list_elem_of_lookup_2. }
  assert (<["updatedAt" := JStr now]>
            (setProperty "createdAt" (task !! "createdAt")
               (setProperty "id" (task !! "id")
                  (({[ "status" := JStr status ]} : object) ∪ task))) = updated) as Hmerged.
  { apply map_eq. intros k. rewrite merged_lookup. unfold updated.
    destruct (decide (k = "updatedAt")) as [-> | Hu]; [by rewrite lookup_insert_eq|].
    rewrite lookup_insert_ne by done.
    destruct (decide (k = "createdAt")) as [-> | Hc]; [by rewrite lookup_insert_ne|].
    destruct (decide (k = "id")) as [-> | Hk]; [by rewrite lookup_insert_ne|].
    by rewrite <- insert_union_singleton_l. }
  assert (tidy updated) as Htidy'.
  { apply (tidy_lookup task); [|done]. intros k Hk. unfold updated.
    rewrite !lookup_insert_ne; [done|..]; intros <-; revert Hk; not_listed. }
  destruct (trim_chain_tidy _ Htidy') as (T1 & T2 & T3).
  split_and!.
  - unfold Server.putTask. rewrite Hfind.
    rewrite !lookup_singleton_ne by done. rewrite lookup_singleton_eq. simpl.
    rewrite (bool_decide_eq_true_2 _ Hstatus). simpl.
    rewrite Hi. simpl.
    rewrite Hmerged, T1. simpl. rewrite T2. simpl. by rewrite T3.
  - intros k Hs Hu. unfold updated. by rewrite !lookup_insert_ne.
  - intros j Hj. by apply list_lookup_insert_ne.
  - apply length_insert.
Qed.
End WithHost.

(** *** The theorems at the sample data *)

Import Sample.

(** An update of the unknown id [u9] on the sample board. *)
Lemma put_unknown_id_sample :
  putTask noDate noLength "u9" launch "t1" board =
    (errorResponse 404 "Task not found", board).
Proof.
  apply (put_unknown_id noDate noLength "u9" launch "t1" board).
  intros task Hin. apply list_elem_of_singleton in Hin as ->. discriminate.
Defined.

(** A create whose title is three blanks. *)
Lemma post_bad_title_sample :
  postTask noDate noLength {[ "title" := JStr "   " ]} "u2" "t1" "t1" board =
    (errorResponse 400 "Title is required and must be a non-empty string", board).
Proof.
  apply (post_bad_title noDate noLength {[ "title" := JStr "   " ]} "u2" "t1" "t1" board).
  right; right. exists "   ". split; reflexivity.
Defined.

(** A title of 201 characters that trims to one character is refused by
    create and by update. *)
Lemma title_limit_before_trim_sample :
  String.length padded = 201 ∧ String.length (trim padded) = 1 ∧
  postTask noDate noLength {[ "title" := JStr padded ]} "u2" "t1" "t1" board =
    (errorResponse 400 "Title must be 200 characters or less", board) ∧
  putTask noDate noLength "u1" {[ "title" := JStr padded ]} "t1" board =
    (errorResponse 400 "Title must be 200 characters or less", board).
Proof.
  assert (200 < String.length padded) as Hlen by (vm_compute; lia).
  assert (({[ "title" := JStr padded ]} : object) !! "title" = Some (JStr padded)) as Htitle
    by apply lookup_singleton_eq.
  destruct (title_limit_before_trim noDate noLength padded
              {[ "title" := JStr padded ]} "u2" "t1" "t1" "u1" "t1" board Htitle Hlen)
    as [Hpost Hput].
  split; [reflexivity|]. split; [reflexivity|]. split; [exact Hpost|].
  apply Hput. exists launched. split; [apply list_elem_of_here | reflexivity].
Defined.

(** The sample task moved to "Editing" at time [t1]. *)
Lemma put_status_only_sample :
  (run noDate noLength opening []).2 = board ∧
  putTask noDate noLength "u1" {[ "status" := JStr "Editing" ]} "t1" board =
    (Resp 200 (JObj (<["updatedAt" := JStr "t1"]> (<["status" := JStr "Editing"]> launched))),
     [<["updatedAt" := JStr "t1"]> (<["status" := JStr "Editing"]> launched)]).
Proof.
  split; [reflexivity|].
  refine (proj1 (put_status_only noDate noLength opening 0 launched "u1" "Editing" "t1"
                   _ eq_refl eq_refl _)).
  - apply NoDup_singleton.
  - unfold VALID_STATUSES. listed.
Defined.

(** A second create of the sample body, under the fresh uuid [u2]. *)
Lemma post_fresh_id_default_status_sample :
  uuidsDrawn opening = ["u1"] ∧
  postTask noDate noLength launch "u2" "t0" "t0" board =
    (Resp 201 (JObj second), [launched; second]) ∧
  second !! "id" ≠ launched !! "id" ∧
  second !! "status" = Some (JStr "Idea").
Proof.
  split; [reflexivity|]. split; [reflexivity|].
  destruct (post_fresh_id_default_status noDate noLength opening launch "u2" "t0" "t0"
              second [launched; second]) as (Hearlier & Hstored & Hstatus & _).
  - intros Hin. apply list_elem_of_singleton in Hin. discriminate.
  - reflexivity.
  - split; [|apply Hstatus; reflexivity].
    intros Heq. apply (Hstored launched); [|by symmetry].
    vm_compute. apply list_elem_of_here.
Defined.

(** Listing the sample board by status and by a part of the assignee's
    name in capitals. *)
Lemma getTasks_matching_sample :
  getTasks (Query (Some "Idea") (Some "AD")) board =
    (Resp 200 (JArr [JObj launched]), board).
Proof.
  refine (getTasks_matching (Query (Some "Idea") (Some "AD")) board _).
  intros task Hin. apply list_elem_of_singleton in Hin as ->. by exists "Ada".
Defined.

(** Deleting the sample task. *)
Lemma delete_known_id_sample :
  ∃ i task,
    board !! i = Some task ∧ task !! "id" = Some (JStr "u1") ∧
    (∀ j other, j < i → board !! j = Some other → other !! "id" ≠ Some (JStr "u1")) ∧
    deleteTask "u1" board =
      (Resp 200 (JObj {[ "message" := JStr "Task deleted"; "task" := JObj task ]}),
       delete i board).
Proof.
  apply (delete_known_id "u1" board).
  exists launched. split; [apply list_elem_of_here | reflexivity].
Defined.

(** A title received with blanks around it is stored without them. *)
Lemma stored_fields_trimmed_sample :
  (run noDate noLength
     [POST {[ "title" := JStr "  Write launch article " ]} "u1" "t0" "t0"] []).2
    = [<["assignee" := JStr ""]> launched] ∧
  trimmed "Write launch article".
Proof.
  split; [reflexivity|].
  apply (stored_fields_trimmed noDate noLength
           [POST {[ "title" := JStr "  Write launch article " ]} "u1" "t0" "t0"]
           (<["assignee" := JStr ""]> launched) "title" "Write launch article").
  - vm_compute. apply list_elem_of_here.
  - listed.
  - reflexivity.
Defined.

(** The property [note] of an update body reaches the stored task. *)
Lemma put_keeps_unknown_property_sample :
  putTask noDate noLength "u1" annotate "t1" board =
    (Resp 200 (JObj annotated), [annotated]) ∧
  annotated !! "note" = Some (JStr " x") ∧ annotated ∈ [annotated].
Proof.
  split; [reflexivity|].
  apply (put_keeps_unknown_property noDate noLength "u1" annotate "t1" board
           annotated [annotated] "note" (JStr " x")).
  - reflexivity.
  - reflexivity.
  - unfold taskFields. not_listed.
  - unfold serverOwned. not_listed.
Defined.

(** *** Where the code departs from the specification's wording *)

(** C5. Two requests the wording does not cover. A status parameter that
    is the empty string is not applied: the sample task is listed although
    its status is not the empty string. And a task whose assignee is not a
    string makes the assignee filter fail: [PUT] stores a null assignee, and
    listing by assignee is then answered 500. *)
Lemma getTasks_not_exact :
  (getTasks (Query (Some "") None) board = (Resp 200 (JArr [JObj launched]), board) ∧
   List.filter (matchesFilter (Query (Some "") None)) board = []) ∧
  (let reqs := (opening ++ [PUT "u1" {[ "assignee" := JNull ]} "t1";
                            GET (Query None (Some "ada"))])%list in
   (run noDate noLength reqs []).1 !! 2 =
     Some (errorResponse 500 "Internal server error")).
Proof. split; [split|]; reflexivity. Qed.

(** The first version of [GET /tasks] matched the assignee exactly: "ada"
    does not find Ada there, and does here. *)
Lemma legacy_getTasks_exact :
  Legacy.getTasks (Query None (Some "ada")) board = (Resp 200 (JArr []), board) ∧
  getTasks (Query None (Some "ada")) board = (Resp 200 (JArr [JObj launched]), board).
Proof. split; reflexivity. Qed.

(** C6. The body of a successful delete has the keys [message] and [task];
    it has no key [deletedTask]. *)
Lemma deleteTask_body_keys :
  statusCode (deleteTask "u1" board).1 = 200 ∧
  taskOf (deleteTask "u1" board).1 !! "task" = Some (JObj launched) ∧
  taskOf (deleteTask "u1" board).1 !! "deletedTask" = None ∧
  ¬ deletedTaskShape (json (deleteTask "u1" board).1) launched.
Proof.
  split_and!; try reflexivity.
  intros [message H].
  apply (f_equal (λ v, match v with JObj o => o !! "deletedTask" | _ => None end)) in H.
  vm_compute in H. discriminate.
Qed.

(** C7. A property the task model does not have is stored as received,
    white space included. *)
Lemma untrimmed_property_stored :
  let tasks := (run noDate noLength (opening ++ [PUT "u1" annotate "t1"])%list []).2 in
  annotated ∈ tasks ∧ annotated !! "note" = Some (JStr " x") ∧ ¬ trimmed " x".
Proof.
  split_and!.
  - vm_compute. apply list_elem_of_here.
  - reflexivity.
  - intros [H _]. discriminate H.
Qed.

(** C9. [updatedAt] is outside the task's five fields and is neither [id]
    nor [createdAt], yet the value the body gives for it is not kept. *)
Lemma put_overwrites_updatedAt :
  statusCode (putTask noDate noLength "u1" backdate "t1" board).1 = 200 ∧
  backdate !! "updatedAt" = Some (JStr "1999-01-01T00:00:00.000Z") ∧
  ("updatedAt" ∉ taskFields) ∧ "updatedAt" ≠ "id" ∧ "updatedAt" ≠ "createdAt" ∧
  taskOf (putTask noDate noLength "u1" backdate "t1" board).1 !! "updatedAt"
    = Some (JStr "t1").
Proof.
  split_and!; try reflexivity; try discriminate.
  unfold taskFields. not_listed.
Qed.

End ServerFacts.

(** ** The board clients *)

Module BoardFacts.

Import Server Sample ServerFacts.

(** The drop handler of [project_management_app.jsx] sends a status update
    exactly when the dragged task is known locally and the column's status
    is not the task's; it always clears the dragged id. *)
Lemma guarded_drop st dragged task status :
  Board.draggedTaskId st = Some dragged →
  dragged ≠ "" →
  List.find (hasId dragged) (Board.tasks st) = Some task →
  Board.handleDrop st status =
    (if strictEqualsString (task !! "status") status
     then []
     else [FetchPut dragged {[ "status" := JStr status ]}],
     Board.State (Board.tasks st) None).
Proof.
  intros Hd Hne Hfind. unfold Board.handleDrop. rewrite Hd, Hfind. simpl.
  destruct (String.eqb dragged "") eqn:E; [by apply String.eqb_eq in E|]. simpl.
  by destruct (strictEqualsString (task !! "status") status).
Qed.

(** A drop of a card onto its own column sends nothing. *)
Lemma guarded_drop_same_column st dragged task status :
  Board.draggedTaskId st = Some dragged →
  List.find (hasId dragged) (Board.tasks st) = Some task →
  task !! "status" = Some (JStr status) →
  (Board.handleDrop st status).1 = [].
Proof.
  intros Hd Hfind Hst. unfold Board.handleDrop. rewrite Hd, Hfind. simpl.
  destruct (negb (String.eqb dragged "")); [|done].
  by rewrite (proj2 (strictEqualsString_true _ _) Hst).
Qed.

(** The drop handler of [App.jsx] sends an update on every drop. *)
Lemma unguarded_drop tasks taskId status :
  ∃ body, App.handleDrop tasks taskId status = [FetchPut taskId body] ∧
          body !! "status" = Some (JStr status).
Proof.
  eexists. split; [reflexivity|]. apply lookup_insert_eq.
Qed.

(** C8. In [App.jsx], dropping the sample card, whose status is "Idea", onto
    the "Idea" column sends an update for it, with the whole task as body;
    the handler of [project_management_app.jsx] sends nothing there. *)
Theorem drop_on_own_column :
  launched !! "status" = Some (JStr "Idea") ∧
  App.handleDrop board "u1" "Idea" = [FetchPut "u1" launched] ∧
  (Board.handleDrop (Board.handleDragStart (Board.State board None) "u1") "Idea").1 = [].
Proof. split_and!; reflexivity. Qed.

End BoardFacts.

(** ** The store, request by request *)

Module StoreFacts.

Import Server Stored ArrayFacts JsStringFacts ServerFacts.

Lemma length_trimStart s : (String.length (trimStart s) ≤ String.length s)%nat.
Proof.
  induction s as [|c s IH]; simpl; [lia|].
  destruct (isWhiteSpace c); simpl; lia.
Qed.

Lemma length_trimEnd s : (String.length (trimEnd s) ≤ String.length s)%nat.
Proof.
  induction s as [|c s IH]; simpl; [lia|].
  destruct (trimEnd s) as [|c' r]; [destruct (isWhiteSpace c)|]; simpl in *; lia.
Qed.

(** [trim] never makes a string longer. *)
Lemma length_trim s : (String.length (trim s) ≤ String.length s)%nat.
Proof.
  unfold trim. etrans; [apply length_trimEnd | apply length_trimStart].
Qed.

Lemma isValidStatus_true v :
  isValidStatus v = true ↔ ∃ s, v = JStr s ∧ s ∈ VALID_STATUSES.
Proof.
  destruct v; simpl; try (split; [done | by intros (? & ? & _)]).
  rewrite bool_decide_eq_true. split; [by eauto | by intros (? & [= <-] & ?)].
Qed.

Lemma checkTitle_Next title :
  checkTitle title = Next () ↔
  title = None ∨
  ∃ s, title = Some (JStr s) ∧ trim s ≠ "" ∧ (String.length s ≤ 200)%nat.
Proof.
  destruct title as [[| | |s| |]|]; simpl;
    try (split; [done | by intros [? | (? & ? & _)]]).
  - destruct (String.eqb (trim s) "") eqn:E; simpl.
    + apply String.eqb_eq in E. split; [done|]. by intros [? | (? & [= <-] & ? & _)].
    + apply String.eqb_neq in E.
      destruct (200 <? String.length s)%nat eqn:L; simpl.
      * apply Nat.ltb_lt in L. split; [done|].
        intros [? | (? & [= <-] & _ & ?)]; [done | lia].
      * apply Nat.ltb_ge in L. split; [|done]. intros _. right. by exists s.
  - split; [by left | done].
Qed.

Lemma trimProperty_value k (task task' : object) :
  trimProperty k task = Next task' →
  task' !! k = trimmedValue (task !! k) ∧
  (∀ k', k' ≠ k → task' !! k' = task !! k') ∧
  (∀ v, task !! k = Some v → truthy v = true → ∃ s, v = JStr s).
Proof.
  unfold trimProperty.
  destruct (task !! k) as [v|] eqn:Hv.
  - destruct (truthy v) eqn:Htr.
    + destruct v; simpl; try done. intros [= <-]. split_and!.
      * by rewrite lookup_insert_eq.
      * intros k' Hk. by rewrite lookup_insert_ne.
      * intros v [= <-] _. by eexists.
    + intros [= <-]. split_and!; [|done|].
      * rewrite Hv. destruct v; try done. simpl in Htr.
        destruct s; [done | done].
      * intros v' [= <-]. congruence.
  - intros [= <-]. rewrite Hv. by split_and!.
Qed.

(** *** Listing *)

Lemma filterThrowing_sublist {A} (p : A → flow bool) (l l' : list A) :
  filterThrowing p l = Next l' → l' `sublist_of` l.
Proof.
  revert l'. induction l as [|x l IH]; intros l'; simpl; [by intros [= <-]|].
  destruct (p x) as [keep| |]; simpl; [|done..].
  destruct (filterThrowing p l) as [rest| |]; simpl; [|done..].
  intros [= <-]. destruct keep; [apply sublist_skip | apply sublist_cons]; by apply IH.
Qed.

Lemma filter_sublist {A} (f : A → bool) (l : list A) : List.filter f l `sublist_of` l.
Proof.
  induction l as [|x l IH]; simpl; [done|].
  destruct (f x); [by apply sublist_skip | by apply sublist_cons].
Qed.

(** Whatever [GET /tasks] lists is a part of the store, in store order. *)
Lemma getTasks_sublist q (tasks : store) found :
  (getTasks q tasks).1 = Resp 200 (JArr found) →
  ∃ listed : store, found = JObj <$> listed ∧ listed `sublist_of` tasks.
Proof.
  unfold getTasks.
  set (byStatus := match given (q_status q) with
                   | Some status => List.filter _ tasks
                   | None => tasks
                   end).
  assert (byStatus `sublist_of` tasks) as Hsub.
  { unfold byStatus. destruct (given (q_status q)); [apply filter_sublist | done]. }
  destruct (given (q_assignee q)) as [assignee|]; simpl.
  - match goal with
    | |- context [filterThrowing ?p byStatus] =>
        destruct (filterThrowing_cases p byStatus) as [E | [l' E]]
    end.
    + intros task. destruct (task !! "assignee") as [[]|]; simpl; eauto.
    + rewrite E. simpl. by intros [=].
    + rewrite E. simpl. intros [= <-]. exists l'. split; [done|].
      etrans; [by eapply filterThrowing_sublist | done].
  - intros [= <-]. by exists byStatus.
Qed.


(** With no assignee parameter, [GET /tasks] cannot fail: on every store it
    answers 200 with the tasks that have the given status, or with all
    tasks when no status is given, in store order. *)
Theorem getTasks_without_assignee q (tasks : store) :
  given (q_assignee q) = None →
  getTasks q tasks =
    (Resp 200 (JArr (JObj <$> List.filter (matchesGiven q) tasks)), tasks).
Proof.
  intros Hnone. unfold getTasks, matchesGiven, matchesFilter. rewrite Hnone. simpl.
  destruct (given (q_status q)) as [status|]; simpl.
  - do 4 f_equal. apply filter_agree. intros task _. by rewrite andb_true_r.
  - by rewrite List.filter_true.
Qed.


(** *** Deleting *)

Lemma NoDup_delete_gone {A} (l : list A) i x :
  NoDup l → l !! i = Some x → x ∉ delete i l.
Proof.
  intros Hnd Hl. rewrite <- (take_drop_middle l i x Hl) in Hnd.
  rewrite delete_take_drop.
  apply NoDup_app in Hnd as (_ & Hleft & Hright).
  apply NoDup_cons in Hright as [Hright _].
  intros Hin. apply elem_of_app in Hin as [Hin | Hin]; [|done].
  apply (Hleft x Hin). apply list_elem_of_here.
Qed.

Section WithHost.

Variable dateParseIsNaN : jsval → bool.
Variable exceeds : jsval → nat → bool.

Local Abbreviation postTask := (Server.postTask dateParseIsNaN exceeds).
Local Abbreviation putTask := (Server.putTask dateParseIsNaN exceeds).
Local Abbreviation serve := (Server.serve dateParseIsNaN exceeds).
Local Abbreviation run := (Server.run dateParseIsNaN exceeds).
Local Abbreviation lengthExceeds := (Server.lengthExceeds exceeds).

(** Everything an accepted update has passed, and the task it stores,
    property by property. *)
Lemma putTask_200 id body now (tasks : store) updated tasks' :
  putTask id body now tasks = (Resp 200 (JObj updated), tasks') →
  ∃ i existing,
    findIndex (hasId id) tasks = Some i ∧ tasks !! i = Some existing ∧
    tasks' = <[i := updated]> tasks ∧
    checkTitle (body !! "title") = Next () ∧
    (∀ d, body !! "description" = Some d → lengthExceeds d 2000 = Next false) ∧
    (∀ s, body !! "status" = Some s → isValidStatus s = true) ∧
    (∀ d, body !! "dueDate" = Some d → truthy d && dateParseIsNaN d = false) ∧
    (∀ k, k ∈ trimmedFields →
          updated !! k = trimmedValue ((body ∪ existing) !! k) ∧
          ∀ v, (body ∪ existing) !! k = Some v → truthy v = true → ∃ s, v = JStr s).
Proof.
  intros Hput.
  destruct (putTask_stored _ _ _ _ _ _ _ _ Hput)
    as (i & existing & Hi & Hex & -> & _).
  exists i, existing.
  revert Hput. unfold Server.putTask. rewrite Hi. simpl.
  destruct (checkTitle_cases (body !! "title")) as [Ht | [msg Ht]]; rewrite Ht; simpl;
    [|by intros [=]].
  destruct (match body !! "description" with
            | Some d => Server.lengthExceeds exceeds d 2000
            | None => Next false
            end) as [tooLong|r|] eqn:Hd; simpl; [| |by intros [=]].
  2: { exfalso. destruct (body !! "description") as [d|]; [|done].
       destruct (lengthExceeds_cases exceeds d 2000) as [E | [b E]]; congruence. }
  destruct tooLong; simpl; [by intros [=]|].
  destruct (match body !! "status" with
            | Some s => negb (isValidStatus s)
            | None => false
            end) eqn:Hs; simpl; [by intros [=]|].
  destruct (match body !! "dueDate" with
            | Some d => truthy d && dateParseIsNaN d
            | None => false
            end) eqn:Hdue; simpl; [by intros [=]|].
  rewrite Hex. simpl.
  destruct (trimProperty "title" _) as [u1|r|] eqn:H1; simpl;
    [|by destruct (trimProperty_noReply _ _ _ H1)|by intros [=]].
  destruct (trimProperty "description" u1) as [u2|r|] eqn:H2; simpl;
    [|by destruct (trimProperty_noReply _ _ _ H2)|by intros [=]].
  destruct (trimProperty "assignee" u2) as [u3|r|] eqn:H3; simpl;
    [|by destruct (trimProperty_noReply _ _ _ H3)|by intros [=]].
  intros [= <-].
  destruct (trimProperty_value _ _ _ H1) as (V1 & E1 & S1).
  destruct (trimProperty_value _ _ _ H2) as (V2 & E2 & S2).
  destruct (trimProperty_value _ _ _ H3) as (V3 & E3 & S3).
  split_and!; try done.
  - intros d Hbd. by rewrite Hbd in Hd.
  - intros s Hbs. rewrite Hbs in Hs. by destruct (isValidStatus s).
  - intros d Hbd. by rewrite Hbd in Hdue.
  - intros k Hk; apply elem_of_cons in Hk as [-> | Hk];
      [|apply elem_of_cons in Hk as [-> | Hk]];
      [| |apply list_elem_of_singleton in Hk as ->].
    + rewrite E3, E2, V1 by done. rewrite (merged_lookup body existing now "title").
      simpl. split; [done|]. intros v Hv. apply S1. by rewrite merged_lookup.
    + rewrite E3, V2, E1 by done.
      rewrite (merged_lookup body existing now "description").
      simpl. split; [done|]. intros v Hv. apply S2. rewrite E1 by done.
      by rewrite merged_lookup.
    + rewrite V3, E2, E1 by done.
      rewrite (merged_lookup body existing now "assignee").
      simpl. split; [done|]. intros v Hv. apply S3. rewrite E2, E1 by done.
      by rewrite merged_lookup.
Qed.

(** Everything an accepted create has passed, and the task it stores. *)
Lemma postTask_201 body uuid createdAt updatedAt (tasks : store) task tasks' :
  postTask body uuid createdAt updatedAt tasks = (Resp 201 (JObj task), tasks') →
  ∃ title description assignee,
    body !! "title" = Some (JStr title) ∧
    trim title ≠ "" ∧ (String.length title ≤ 200)%nat ∧
    default (JStr "") (body !! "description") = JStr description ∧
    (String.length description ≤ 2000)%nat ∧
    default (JStr "") (body !! "assignee") = JStr assignee ∧
    isValidStatus (default (JStr "Idea") (body !! "status")) = true ∧
    truthy (default (JStr "") (body !! "dueDate")) &&
      dateParseIsNaN (default (JStr "") (body !! "dueDate")) = false ∧
    task = {[ "id" := JStr uuid;
              "title" := JStr (trim title);
              "description" := JStr (trim description);
              "assignee" := JStr (trim assignee);
              "dueDate" := default (JStr "") (body !! "dueDate");
              "status" := default (JStr "Idea") (body !! "status");
              "createdAt" := JStr createdAt;
              "updatedAt" := JStr updatedAt ]} ∧
    tasks' = (tasks ++ [task])%list.
Proof.
  unfold Server.postTask.
  destruct (body !! "title") as [[| | |title| |]|] eqn:Ht; simpl; try by intros [=].
  destruct (String.eqb title "" || String.eqb (trim title) "") eqn:He; simpl;
    [by intros [=]|].
  apply orb_false_elim in He as [_ He]. apply String.eqb_neq in He.
  destruct (200 <? String.length title)%nat eqn:Hl; simpl; [by intros [=]|].
  apply Nat.ltb_ge in Hl.
  destruct (default (JStr "") (body !! "description")) as [| | |description| |] eqn:Hd.
  all: simpl.
  all: repeat match goal with
       | |- context [andThen (if ?c then _ else _) _] => destruct c eqn:?; simpl
       | |- context [replyIf ?c _] => destruct c eqn:?; simpl
       | |- context [?o !! "length"] => destruct (o !! "length"); simpl
       end; try by intros [=].
  all: destruct (default (JStr "") (body !! "assignee")) as [| | |assignee| |] eqn:Ha;
         simpl; try by intros [=].
  all: intros [= <- <-]; exists title, description, assignee; split_and!; try done.
  all: try by apply negb_false_iff.
  1: { match goal with H : (2000 <? _)%nat = false |- _ => by apply Nat.ltb_ge in H end. }
  match goal with H : negb (String.eqb description "") = false |- _ =>
    apply negb_false_iff, String.eqb_eq in H; subst; simpl; lia end.
Qed.

(** [POST] stores a well-formed task. *)
Lemma postTask_wellFormed body uuid createdAt updatedAt (tasks : store) task tasks' :
  postTask body uuid createdAt updatedAt tasks = (Resp 201 (JObj task), tasks') →
  wellFormed dateParseIsNaN task.
Proof.
  intros Hpost.
  destruct (postTask_201 _ _ _ _ _ _ _ Hpost)
    as (title & description & assignee & Ht & Hne & Hlen & Hd & Hdlen & Ha & Hst & Hdue & -> & _).
  apply isValidStatus_true in Hst as (s & Hs & Hin).
  split_and!.
  - exists s. by rewrite <- Hs.
  - exists (trim title). split_and!; [done | done | apply trim_trimmed |].
    etrans; [apply length_trim | done].
  - eexists. split; [done|]. left. exists (trim description).
    split_and!; [done | apply trim_trimmed |]. etrans; [apply length_trim | done].
  - eexists. split; [done|]. left. exists (trim assignee).
    split; [done | apply trim_trimmed].
  - by eexists.
  - split_and!; by eexists.
Qed.

(** [PUT] stores a well-formed task in place of a well-formed one. *)
Lemma putTask_wellFormed id body now (tasks : store) updated tasks' :
  Forall (wellFormed dateParseIsNaN) tasks →
  putTask id body now tasks = (Resp 200 (JObj updated), tasks') →
  wellFormed dateParseIsNaN updated.
Proof.
  intros Hall Hput.
  destruct (putTask_200 _ _ _ _ _ _ Hput)
    as (i & existing & Hi & Hex & -> & Ht & Hd & Hs & Hdue & Htrim).
  destruct (putTask_stored _ _ _ _ _ _ _ _ Hput)
    as (i' & existing' & Hi' & Hex' & _ & _ & Hid & Hc & Hu & Hrest & _).
  rewrite Hi in Hi'. injection Hi' as <-. rewrite Hex in Hex'. injection Hex' as <-.
  rewrite Forall_forall in Hall.
  destruct (Hall existing (list_elem_of_lookup_2 _ _ _ Hex))
    as ((s0 & Hs0 & Hs0in) & (t0 & Ht0 & Ht0ne & Ht0tr & Ht0len) &
        (d0 & Hd0 & Hd0ok) & (a0 & Ha0 & Ha0ok) & (due0 & Hdue0 & Hdue0ok) &
        ((u & Hu0) & (c & Hc0) & _)).
  split_and!.
  - unfold staged. rewrite Hrest by not_listed.
    destruct (body !! "status") as [s|] eqn:Hbs.
    + destruct (proj1 (isValidStatus_true s) (Hs s eq_refl)) as (s' & -> & Hin).
      exists s'. split; [|done]. by apply lookup_union_Some_l.
    + exists s0. split; [|done]. by rewrite lookup_union_r.
  - unfold titled. destruct (Htrim "title") as [-> _]; [listed|].
    destruct (body !! "title") as [t|] eqn:Hbt.
    + rewrite (lookup_union_Some_l _ _ _ _ Hbt).
      apply checkTitle_Next in Ht as [? | (s & [= ->] & Hne & Hlen)]; [done|].
      simpl. exists (trim s). split_and!; [done | done | apply trim_trimmed |].
      etrans; [apply length_trim | done].
    + rewrite lookup_union_r, Ht0 by done. simpl. rewrite (trim_id _ Ht0tr). by exists t0.
  - unfold described. destruct (Htrim "description") as [-> Hstr]; [listed|].
    destruct (body !! "description") as [d|] eqn:Hbd.
    + rewrite (lookup_union_Some_l _ _ _ _ Hbd) in Hstr |- *.
      specialize (Hd d eq_refl). specialize (Hstr d eq_refl).
      destruct d as [|b|n|s|l|o]; simpl in *; try done.
      * destruct b; [by destruct (Hstr eq_refl) | eauto].
      * destruct (n =? 0)%Z eqn:E; simpl in Hstr; [|by destruct (Hstr eq_refl)].
        apply Z.eqb_eq in E as ->. eauto.
      * injection Hd as Hd. apply Nat.ltb_ge in Hd.
        eexists. split; [done|]. left. exists (trim s).
        split_and!; [done | apply trim_trimmed |]. etrans; [apply length_trim | done].
      * by destruct (Hstr eq_refl).
      * by destruct (Hstr eq_refl).
    + rewrite lookup_union_r, Hd0 by done.
      destruct Hd0ok as [(s & -> & Hstr0 & Hlen0) | [-> | ->]]; simpl.
      * rewrite (trim_id _ Hstr0). eexists. split; [done|]. left. by exists s.
      * eauto.
      * eauto.
  - unfold assigned. destruct (Htrim "assignee") as [-> Hstr]; [listed|].
    assert (∀ v, (∀ w, Some v = Some w → truthy w = true → ∃ s, w = JStr s) →
                 ∃ v', trimmedValue (Some v) = Some v' ∧
                       ((∃ s, v' = JStr s ∧ trimmed s) ∨ truthy v' = false)) as Hgen.
    { intros v Hv. destruct (truthy v) eqn:Htr.
      - destruct (Hv v eq_refl Htr) as [s ->]. simpl. eexists. split; [done|].
        left. eexists. split; [done | apply trim_trimmed].
      - destruct v; simpl in *; try (eexists; split; [done|]; by right).
        eexists. split; [done|]. left. eexists. split; [done | apply trim_trimmed]. }
    destruct (body !! "assignee") as [a|] eqn:Hba.
    + rewrite (lookup_union_Some_l _ _ _ _ Hba) in Hstr |- *. by apply Hgen.
    + rewrite lookup_union_r in Hstr |- * by done. rewrite Ha0 in Hstr |- *.
      by apply Hgen.
  - unfold dated. rewrite Hrest by not_listed.
    destruct (body !! "dueDate") as [d|] eqn:Hbd.
    + exists d. split; [by apply lookup_union_Some_l | by apply Hdue].
    + exists due0. split; [by rewrite lookup_union_r | done].
  - split_and!.
    + exists u. by rewrite Hid.
    + exists c. by rewrite Hc.
    + by exists now.
Qed.

Lemma serve_wellFormed req (tasks : store) :
  Forall (wellFormed dateParseIsNaN) tasks →
  Forall (wellFormed dateParseIsNaN) (serve req tasks).2.
Proof.
  intros Hall.
  destruct req as [q | body uuid createdAt updatedAt | id body now | id]; simpl.
  - by rewrite (proj1 (getTasks_store q tasks)).
  - destruct (postTask_cases dateParseIsNaN exceeds body uuid createdAt updatedAt tasks)
      as [[_ ->] | (title & description & assignee & _ & _ & _ & _ & E)]; [done|].
    simpl in E. rewrite E. simpl. apply Forall_app. split; [done|].
    apply Forall_singleton. by eapply postTask_wellFormed.
  - destruct (putTask_cases dateParseIsNaN exceeds id body now tasks)
      as [[_ ->] | (i & ex & u1 & u2 & u3 & _ & _ & _ & _ & _ & _ & _ & E)]; [done|].
    rewrite E. simpl. apply Forall_insert; [done|]. by eapply putTask_wellFormed.
  - destruct (deleteTask_cases id tasks) as [[-> _] | (i & task & _ & _ & _ & ->)];
      [done|].
    simpl. by apply Forall_delete.
Qed.

(** Every task of every store a run reaches is well formed. *)
Lemma run_wellFormed reqs (tasks : store) :
  Forall (wellFormed dateParseIsNaN) tasks →
  Forall (wellFormed dateParseIsNaN) (run reqs tasks).2.
Proof.
  revert tasks. induction reqs as [|req reqs IH]; intros tasks Hall; [done|].
  rewrite run_cons. simpl. by apply IH, serve_wellFormed.
Qed.

(** *** Requests that are refused *)

(** Each request is refused with the store untouched, or answered 200 or
    201. *)
Lemma serve_cases req (tasks : store) :
  (refused (serve req tasks).1 ∧ (serve req tasks).2 = tasks) ∨
  statusCode (serve req tasks).1 = 200 ∨ statusCode (serve req tasks).1 = 201.
Proof.
  destruct req as [q | body uuid createdAt updatedAt | id body now | id]; simpl.
  - destruct (getTasks_store q tasks) as [E [Href | [found ->]]]; [by left | by right; left].
  - destruct (postTask_cases dateParseIsNaN exceeds body uuid createdAt updatedAt tasks)
      as [? | (title & description & assignee & _ & _ & _ & _ & E)]; [by left|].
    simpl in E. rewrite E. by right; right.
  - destruct (putTask_cases dateParseIsNaN exceeds id body now tasks)
      as [? | (i & ex & u1 & u2 & u3 & _ & _ & _ & _ & _ & _ & _ & E)]; [by left|].
    rewrite E. by right; left.
  - destruct (deleteTask_cases id tasks) as [[-> _] | (i & task & _ & _ & _ & ->)].
    + left. split; [apply refused_error; lia | done].
    + by right; left.
Qed.

(** No partial mutation: a request answered with an error status leaves the
    store exactly as it was. *)
Theorem error_leaves_store req (tasks : store) :
  (400 ≤ statusCode (serve req tasks).1)%nat →
  (serve req tasks).2 = tasks.
Proof.
  intros Hcode.
  destruct (serve_cases req tasks) as [[_ E] | [E | E]]; [done | lia | lia].
Qed.

(** The size of the store: a create answered 201 adds one task, a delete
    answered 200 removes one, and every other request keeps the size. *)
Theorem store_size req (tasks : store) :
  List.length (serve req tasks).2 =
    match req with
    | POST _ _ _ _ =>
        if (statusCode (serve req tasks).1 =? 201)%nat
        then S (List.length tasks) else List.length tasks
    | DELETE _ =>
        if (statusCode (serve req tasks).1 =? 200)%nat
        then Nat.pred (List.length tasks) else List.length tasks
    | _ => List.length tasks
    end ∧
  (∀ id, req = DELETE id → statusCode (serve req tasks).1 = 200 →
         (0 < List.length tasks)%nat).
Proof.
  destruct req as [q | body uuid createdAt updatedAt | id body now | id]; simpl.
  - split; [|done]. by rewrite (proj1 (getTasks_store q tasks)).
  - split; [|done].
    destruct (postTask_cases dateParseIsNaN exceeds body uuid createdAt updatedAt tasks)
      as [[Href ->] | (title & description & assignee & _ & _ & _ & _ & E)].
    + apply refused_code in Href.
      destruct (_ =? 201)%nat eqn:C; [apply Nat.eqb_eq in C; lia | done].
    + simpl in E. rewrite E. simpl. rewrite length_app. simpl. lia.
  - split; [|done].
    destruct (putTask_cases dateParseIsNaN exceeds id body now tasks)
      as [[_ ->] | (i & ex & u1 & u2 & u3 & _ & _ & _ & _ & _ & _ & _ & E)]; [done|].
    rewrite E. simpl. apply length_insert.
  - destruct (deleteTask_cases id tasks) as [[-> _] | (i & task & _ & Hl & _ & ->)]; simpl.
    + split; [done|]. by intros ? _ [=].
    + apply lookup_lt_Some in Hl. split; [|intros; lia].
      rewrite length_delete; [lia|]. by apply lookup_lt_is_Some_2.
Qed.




(** An update of a known or unknown id is refused, and stores nothing,
    whenever its description is a string of more than 2000 characters, its
    status is not a workflow status, or its due date is truthy and does not
    parse. *)
Theorem put_rejects_invalid id body now (tasks : store) :
  (∃ d, body !! "description" = Some (JStr d) ∧ (2000 < String.length d)%nat) ∨
  (∃ s, body !! "status" = Some s ∧ isValidStatus s = false) ∨
  (∃ d, body !! "dueDate" = Some d ∧ truthy d = true ∧ dateParseIsNaN d = true) →
  refused (putTask id body now tasks).1 ∧ (putTask id body now tasks).2 = tasks.
Proof.
  intros Hbad.
  destruct (putTask_cases dateParseIsNaN exceeds id body now tasks)
    as [? | (i & ex & u1 & u2 & u3 & _ & _ & _ & _ & _ & _ & _ & E)]; [done|].
  exfalso.
  destruct (putTask_200 _ _ _ _ _ _ E) as (_ & _ & _ & _ & _ & _ & Hd & Hs & Hdue & _).
  destruct Hbad as [(d & Hbd & Hlen) | [(s & Hbs & Hinv) | (d & Hbd & Htr & Hnan)]].
  - specialize (Hd _ Hbd). simpl in Hd. injection Hd as Hd.
    apply Nat.ltb_ge in Hd. lia.
  - specialize (Hs _ Hbs). congruence.
  - specialize (Hdue _ Hbd). by rewrite Htr, Hnan in Hdue.
Qed.

(** *** What an update cannot change *)

(** An update that is answered 200 returns a task with the id it was
    addressed to, the [createdAt] of the task it replaces and the clock's
    reading as [updatedAt], whatever the body holds for these three. *)
Theorem put_keeps_id_createdAt id body now (tasks : store) updated tasks' :
  putTask id body now tasks = (Resp 200 (JObj updated), tasks') →
  updated !! "id" = Some (JStr id) ∧
  updated !! "updatedAt" = Some (JStr now) ∧
  ∃ i existing,
    tasks !! i = Some existing ∧ existing !! "id" = Some (JStr id) ∧
    updated !! "createdAt" = existing !! "createdAt" ∧
    tasks' = <[i := updated]> tasks.
Proof.
  intros Hput.
  destruct (putTask_stored _ _ _ _ _ _ _ _ Hput)
    as (i & existing & Hi & Hex & -> & _ & Hid & Hc & Hu & _).
  destruct (findIndex_Some _ _ _ Hi) as (x & Hx & Hp & _).
  rewrite Hex in Hx. injection Hx as <-. apply strictEqualsString_true in Hp.
  split_and!; [by rewrite Hid | done |]. by exists i, existing.
Qed.

(** *** What every stored task looks like *)

(** In every store a run reaches, the status of every task is one of the
    seven workflow statuses. *)
Theorem stored_status_valid reqs task :
  task ∈ (run reqs []).2 →
  ∃ s, task !! "status" = Some (JStr s) ∧ s ∈ VALID_STATUSES.
Proof.
  intros Hin. assert (Forall (wellFormed dateParseIsNaN) (run reqs []).2) as Hall
    by by apply run_wellFormed.
  rewrite Forall_forall in Hall. by destruct (Hall task Hin) as (? & _).
Qed.

(** In every store a run reaches, the title of every task is a string that
    is not empty and has at most 200 characters. *)
Theorem stored_title_within_limit reqs task :
  task ∈ (run reqs []).2 →
  ∃ s, task !! "title" = Some (JStr s) ∧ s ≠ "" ∧ (String.length s ≤ 200)%nat.
Proof.
  intros Hin. assert (Forall (wellFormed dateParseIsNaN) (run reqs []).2) as Hall
    by by apply run_wellFormed.
  rewrite Forall_forall in Hall.
  destruct (Hall task Hin) as (_ & (s & Hs & Hne & _ & Hlen) & _). by exists s.
Qed.

(** In every store a run reaches, the description of every task is a string
    of at most 2000 characters, or 0, or false. *)
Theorem stored_description_within_limit reqs task :
  task ∈ (run reqs []).2 →
  ∃ v, task !! "description" = Some v ∧
       ((∃ s, v = JStr s ∧ (String.length s ≤ 2000)%nat) ∨ v = JNum 0 ∨ v = JBool false).
Proof.
  intros Hin. assert (Forall (wellFormed dateParseIsNaN) (run reqs []).2) as Hall
    by by apply run_wellFormed.
  rewrite Forall_forall in Hall.
  destruct (Hall task Hin) as (_ & _ & (v & Hv & Hok) & _).
  exists v. split; [done|].
  destruct Hok as [(s & -> & _ & Hlen) | [-> | ->]]; eauto.
Qed.

(** In every store a run reaches, every task has the eight properties that
    [POST] gave it: no update removes one. *)
Theorem stored_task_complete reqs task k :
  task ∈ (run reqs []).2 →
  k ∈ taskKeys →
  is_Some (task !! k).
Proof.
  intros Hin Hk. assert (Forall (wellFormed dateParseIsNaN) (run reqs []).2) as Hall
    by by apply run_wellFormed.
  rewrite Forall_forall in Hall.
  destruct (Hall task Hin)
    as ((? & Hs & _) & (? & Ht & _) & (? & Hd & _) & (? & Ha & _) & (? & Hdue & _) &
        ((? & Hid) & (? & Hc) & (? & Hu))).
  unfold taskKeys in Hk.
  repeat (apply elem_of_cons in Hk as [-> | Hk]; [by eexists|]).
  by apply elem_of_nil in Hk.
Qed.

(** A create copies nothing but the five fields from the body: the task it
    stores has exactly the eight properties of the task model. *)
Theorem post_stores_model_fields_only body uuid createdAt updatedAt (tasks : store)
    task tasks' k :
  postTask body uuid createdAt updatedAt tasks = (Resp 201 (JObj task), tasks') →
  is_Some (task !! k) ↔ k ∈ taskKeys.
Proof.
  intros Hpost.
  destruct (postTask_201 _ _ _ _ _ _ _ Hpost)
    as (title & description & assignee & _ & _ & _ & _ & _ & _ & _ & _ & -> & _).
  unfold taskKeys. split.
  - intros Hsome.
    repeat match type of Hsome with
           | is_Some (<[?k' := _]> _ !! k) =>
               destruct (decide (k = k')) as [-> | ?];
               [listed | rewrite lookup_insert_ne in Hsome by done]
           end.
    destruct (decide (k = "updatedAt")) as [-> | ?]; [listed|].
    rewrite lookup_singleton_ne in Hsome by done. by destruct Hsome.
  - intros Hk.
    repeat (apply elem_of_cons in Hk as [-> | Hk]; [by eexists|]).
    by apply elem_of_nil in Hk.
Qed.

(** Deleting what a create has just stored gives back the store as it was,
    and the deleted record is the created one. *)
Theorem post_then_delete body uuid createdAt updatedAt (tasks : store) task tasks' :
  (∀ other, other ∈ tasks → other !! "id" ≠ Some (JStr uuid)) →
  postTask body uuid createdAt updatedAt tasks = (Resp 201 (JObj task), tasks') →
  deleteTask uuid tasks' =
    (Resp 200 (JObj {[ "message" := JStr "Task deleted"; "task" := JObj task ]}), tasks).
Proof.
  intros Hfresh Hpost.
  destruct (postTask_201 _ _ _ _ _ _ _ Hpost)
    as (title & description & assignee & _ & _ & _ & _ & _ & _ & _ & _ & Htask & ->).
  assert (task !! "id" = Some (JStr uuid)) as Hid by by rewrite Htask.
  assert (findIndex (hasId uuid) (tasks ++ [task])%list = Some (List.length tasks)) as Hf.
  { apply (findIndex_first _ _ _ task).
    - by rewrite list_lookup_middle.
    - by apply strictEqualsString_true.
    - intros j other Hj Hother. rewrite lookup_app_l in Hother by done.
      apply strictEqualsString_false, Hfresh. by eapply list_elem_of_lookup_2. }
  unfold deleteTask. rewrite Hf. simpl. rewrite list_lookup_middle by done. simpl.
  do 2 f_equal. rewrite (delete_middle tasks [] task). apply app_nil_r.
Qed.

(** After a delete of a known id, in a store reached while [uuidv4()] never
    repeated, the store is one task shorter, no stored task has the id, no
    listing shows it, and a second delete and any update of the id are
    answered 404. *)
Theorem delete_then_gone reqs id :
  NoDup (uuidsDrawn reqs) →
  known id (run reqs []).2 →
  let tasks := (run reqs []).2 in
  let tasks' := (deleteTask id tasks).2 in
  statusCode (deleteTask id tasks).1 = 200 ∧
  S (List.length tasks') = List.length tasks ∧
  (∀ task, task ∈ tasks' → task !! "id" ≠ Some (JStr id)) ∧
  (∀ q found task, (getTasks q tasks').1 = Resp 200 (JArr found) →
                   JObj task ∈ found → task !! "id" ≠ Some (JStr id)) ∧
  deleteTask id tasks' = (errorResponse 404 "Task not found", tasks') ∧
  (∀ body now, putTask id body now tasks' = (errorResponse 404 "Task not found", tasks')).
Proof.
  intros Hdrawn Hknown tasks tasks'.
  assert (NoDup (ids tasks)) as Hnd.
  { apply run_ids_NoDup; [apply NoDup_nil_2 | done |].
    intros uuid _ H. by apply elem_of_nil in H. }
  destruct (deleteTask_cases id tasks) as [[_ Hnone] | (i & task & Hf & Hl & Hid & E)].
  { destruct Hknown as (t & Ht & Htid). by destruct (Hnone t Ht). }
  assert (tasks' = delete i tasks) as Htasks' by (unfold tasks'; by rewrite E).
  assert (∀ other, other ∈ tasks' → other !! "id" ≠ Some (JStr id)) as Hgone.
  { intros other Hin Hoid. rewrite Htasks' in Hin.
    apply (NoDup_delete_gone (ids tasks) i (Some (JStr id)) Hnd).
    - unfold ids. by rewrite list_lookup_fmap, Hl; simpl; rewrite Hid.
    - unfold ids. rewrite <- list_fmap_delete. apply list_elem_of_fmap.
      by exists other. }
  split_and!.
  - by rewrite E.
  - rewrite Htasks'. rewrite length_delete by by eexists.
    apply lookup_lt_Some in Hl. lia.
  - done.
  - intros q found t Hget Hin.
    destruct (getTasks_sublist _ _ _ Hget) as (listed & -> & Hsub).
    apply list_elem_of_fmap in Hin as (t' & [= <-] & Hin).
    apply Hgone. by eapply elem_of_sublist.
  - unfold deleteTask. by rewrite (unknown_findIndex _ _ Hgone).
  - intros body now. unfold Server.putTask. by rewrite (unknown_findIndex _ _ Hgone).
Qed.

(** *** Sending a stored task back *)

Lemma wellFormed_tidy (task : object) : wellFormed dateParseIsNaN task → tidy task.
Proof.
  intros (_ & (t & Ht & _ & Httr & _) & (d & Hd & Hdok) & (a & Ha & Haok) & _).
  intros k Hk v Hv Htr. unfold trimmedFields in Hk.
  apply elem_of_cons in Hk as [-> | Hk]; [|apply elem_of_cons in Hk as [-> | Hk]];
    [| |apply list_elem_of_singleton in Hk as ->].
  - rewrite Ht in Hv. injection Hv as <-. by exists t.
  - rewrite Hd in Hv. injection Hv as <-.
    destruct Hdok as [(s & -> & Hs & _) | [-> | ->]]; [by exists s | done | done].
  - rewrite Ha in Hv. injection Hv as <-.
    destruct Haok as [(s & -> & Hs) | Hf]; [by exists s | congruence].
Qed.

(** An update whose body is a stored task with another workflow status, as
    [App.jsx] sends it, passes every check and changes nothing but [status]
    and [updatedAt]. *)
Lemma putTask_resend id status now (tasks : store) i (task : object) :
  wellFormed dateParseIsNaN task →
  findIndex (hasId id) tasks = Some i →
  tasks !! i = Some task →
  status ∈ VALID_STATUSES →
  let updated := <["updatedAt" := JStr now]> (<["status" := JStr status]> task) in
  putTask id (<["status" := JStr status]> task) now tasks =
    (Resp 200 (JObj updated), <[i := updated]> tasks).
Proof.
  intros Hwf Hi Hl Hstatus updated.
  pose proof (wellFormed_tidy _ Hwf) as Htidy.
  destruct Hwf as (_ & (t & Ht & Htne & Httr & Htlen) & (d & Hd & Hdok) & _ &
                   (due & Hdue & Hdueok) & _).
  assert (<["updatedAt" := JStr now]>
            (setProperty "createdAt" (task !! "createdAt")
               (setProperty "id" (task !! "id")
                  ((<["status" := JStr status]> task) ∪ task))) = updated) as Hmerged.
  { apply map_eq. intros k. rewrite merged_lookup. unfold updated.
    destruct (decide (k = "updatedAt")) as [-> | Hu]; [by rewrite lookup_insert_eq|].
    rewrite lookup_insert_ne by done.
    destruct (decide (k = "createdAt")) as [-> | Hc]; [by rewrite lookup_insert_ne|].
    destruct (decide (k = "id")) as [-> | Hk]; [by rewrite lookup_insert_ne|].
    destruct (decide (k = "status")) as [-> | Hs].
    - rewrite lookup_insert_eq. apply lookup_union_Some_l. by rewrite lookup_insert_eq.
    - rewrite lookup_insert_ne by done.
      destruct (task !! k) as [v|] eqn:Hv.
      + apply lookup_union_Some_l. by rewrite lookup_insert_ne.
      + apply lookup_union_None. by rewrite lookup_insert_ne. }
  assert (tidy updated) as Htidy'.
  { apply (tidy_lookup task); [|done]. intros k Hk. unfold updated.
    rewrite !lookup_insert_ne; [done|..]; intros <-; revert Hk; not_listed. }
  destruct (trim_chain_tidy _ Htidy') as (T1 & T2 & T3).
  unfold Server.putTask. rewrite Hi. simpl.
  rewrite (lookup_insert_ne _ "status" "title"), Ht by done. simpl.
  rewrite (trim_id _ Httr).
  assert (String.eqb t "" = false) as -> by by apply String.eqb_neq.
  simpl. rewrite (proj2 (Nat.ltb_ge _ _) Htlen). simpl.
  rewrite (lookup_insert_ne _ "status" "description"), Hd by done.
  assert (Server.lengthExceeds exceeds d 2000 = Next false) as ->.
  { destruct Hdok as [(s & -> & _ & Hlen) | [-> | ->]]; simpl; [|done..].
    by rewrite (proj2 (Nat.ltb_ge _ _) Hlen). }
  simpl. rewrite lookup_insert_eq. simpl.
  rewrite (bool_decide_eq_true_2 _ Hstatus). simpl.
  rewrite (lookup_insert_ne _ "status" "dueDate"), Hdue, Hdueok by done. simpl.
  rewrite Hl. simpl. rewrite Hmerged, T1. simpl. rewrite T2. simpl. by rewrite T3.
Qed.

(** An update whose body is a workflow status and nothing else, as
    [project_management_app.jsx] sends it, replaces [status] and
    [updatedAt] of a tidy task and nothing else. *)
Lemma putTask_status id status now (tasks : store) i (task : object) :
  tidy task →
  findIndex (hasId id) tasks = Some i →
  tasks !! i = Some task →
  status ∈ VALID_STATUSES →
  let updated := <["updatedAt" := JStr now]> (<["status" := JStr status]> task) in
  putTask id {[ "status" := JStr status ]} now tasks =
    (Resp 200 (JObj updated), <[i := updated]> tasks).
Proof.
  intros Htidy Hi Hl Hstatus updated.
  assert (<["updatedAt" := JStr now]>
            (setProperty "createdAt" (task !! "createdAt")
               (setProperty "id" (task !! "id")
                  (({[ "status" := JStr status ]} : object) ∪ task))) = updated) as Hmerged.
  { apply map_eq. intros k. rewrite merged_lookup. unfold updated.
    destruct (decide (k = "updatedAt")) as [-> | Hu]; [by rewrite lookup_insert_eq|].
    rewrite lookup_insert_ne by done.
    destruct (decide (k = "createdAt")) as [-> | Hc]; [by rewrite lookup_insert_ne|].
    destruct (decide (k = "id")) as [-> | Hk]; [by rewrite lookup_insert_ne|].
    by rewrite <- insert_union_singleton_l. }
  assert (tidy updated) as Htidy'.
  { apply (tidy_lookup task); [|done]. intros k Hk. unfold updated.
    rewrite !lookup_insert_ne; [done|..]; intros <-; revert Hk; not_listed. }
  destruct (trim_chain_tidy _ Htidy') as (T1 & T2 & T3).
  unfold Server.putTask. rewrite Hi.
  rewrite !lookup_singleton_ne by done. rewrite lookup_singleton_eq. simpl.
  rewrite (bool_decide_eq_true_2 _ Hstatus). simpl.
  rewrite Hl. simpl. rewrite Hmerged, T1. simpl. rewrite T2. simpl. by rewrite T3.
Qed.

End WithHost.

(** *** The properties on the sample board *)

Import Sample Scenario.

(** Listing the sample board by status, with an empty assignee parameter. *)
Lemma getTasks_without_assignee_sample :
  getTasks (Query (Some "Idea") (Some "")) board =
    (Resp 200 (JArr [JObj launched]), board).
Proof.
  exact (getTasks_without_assignee (Query (Some "Idea") (Some "")) board eq_refl).
Defined.


(** An update of the sample task to a status outside the workflow. *)
Lemma error_leaves_store_sample :
  statusCode (serve noDate noLength (PUT "u1" misfiled "t1") board).1 = 400 ∧
  (serve noDate noLength (PUT "u1" misfiled "t1") board).2 = board.
Proof.
  split; [reflexivity|].
  apply (error_leaves_store noDate noLength (PUT "u1" misfiled "t1") board).
  apply Nat.eq_le_incl. reflexivity.
Defined.



(** An update of the sample task to a status outside the workflow is
    refused. *)
Lemma put_rejects_invalid_sample :
  refused (putTask noDate noLength "u1" misfiled "t1" board).1 ∧
  (putTask noDate noLength "u1" misfiled "t1" board).2 = board.
Proof.
  apply (put_rejects_invalid noDate noLength "u1" misfiled "t1" board).
  right; left. exists (JStr "Done"). split; reflexivity.
Defined.

(** An update of the sample task that carries an id and a creation time of
    its own. *)
Lemma put_keeps_id_createdAt_sample :
  putTask noDate noLength "u1" forge "t1" board = (Resp 200 (JObj forged), [forged]) ∧
  forged !! "id" = Some (JStr "u1") ∧
  forged !! "updatedAt" = Some (JStr "t1") ∧
  forged !! "createdAt" = Some (JStr "t0").
Proof.
  split; [reflexivity|].
  destruct (put_keeps_id_createdAt noDate noLength "u1" forge "t1" board forged [forged]
              eq_refl) as (Hid & Hupdated & _).
  split; [exact Hid|]. split; [exact Hupdated | reflexivity].
Defined.

(** The sample task, in the store its run leaves. *)
Lemma stored_status_valid_sample :
  ∃ s, launched !! "status" = Some (JStr s) ∧ s ∈ VALID_STATUSES.
Proof.
  apply (stored_status_valid noDate noLength opening launched).
  vm_compute. apply list_elem_of_here.
Defined.

Lemma stored_title_within_limit_sample :
  ∃ s, launched !! "title" = Some (JStr s) ∧ s ≠ "" ∧ (String.length s ≤ 200)%nat.
Proof.
  apply (stored_title_within_limit noDate noLength opening launched).
  vm_compute. apply list_elem_of_here.
Defined.

Lemma stored_description_within_limit_sample :
  ∃ v, launched !! "description" = Some v ∧
       ((∃ s, v = JStr s ∧ (String.length s ≤ 2000)%nat) ∨ v = JNum 0 ∨ v = JBool false).
Proof.
  apply (stored_description_within_limit noDate noLength opening launched).
  vm_compute. apply list_elem_of_here.
Defined.

(** The sample task after an update that names no field still has its due
    date. *)
Lemma stored_task_complete_sample :
  is_Some (forged !! "dueDate").
Proof.
  apply (stored_task_complete noDate noLength (opening ++ [PUT "u1" forge "t1"]) forged).
  - vm_compute. apply list_elem_of_here.
  - unfold taskKeys. listed.
Defined.

(** A create with a note: the note is not stored. *)
Lemma post_stores_model_fields_only_sample :
  postTask noDate noLength noted "u2" "t1" "t1" board =
    (Resp 201 (JObj phases), [launched; phases]) ∧
  ¬ is_Some (phases !! "note").
Proof.
  split; [reflexivity|]. intros Hnote.
  apply (post_stores_model_fields_only noDate noLength noted "u2" "t1" "t1" board
           phases [launched; phases] "note" eq_refl) in Hnote.
  revert Hnote. unfold taskKeys. not_listed.
Defined.

(** A second create on the sample board, deleted again. *)
Lemma post_then_delete_sample :
  deleteTask "u2" [launched; second] =
    (Resp 200 (JObj {[ "message" := JStr "Task deleted"; "task" := JObj second ]}), board).
Proof.
  apply (post_then_delete noDate noLength launch "u2" "t0" "t0" board second
           [launched; second]).
  - intros other Hin. apply list_elem_of_singleton in Hin as ->. discriminate.
  - reflexivity.
Defined.

(** The sample task deleted. *)
Lemma delete_then_gone_sample :
  statusCode (deleteTask "u1" board).1 = 200 ∧
  deleteTask "u1" (deleteTask "u1" board).2 =
    (errorResponse 404 "Task not found", (deleteTask "u1" board).2).
Proof.
  destruct (delete_then_gone noDate noLength opening "u1") as (Hok & _ & _ & _ & Hagain & _).
  - apply NoDup_singleton.
  - exists launched. split; [apply list_elem_of_here | reflexivity].
  - split; [exact Hok | exact Hagain].
Defined.

End StoreFacts.

(** ** The first version of the API and of the board *)

Module LegacyFacts.

Import Server Stored ArrayFacts JsStringFacts ServerFacts StoreFacts.

Section WithHost.

Variable dateParseIsNaN : jsval → bool.
Variable exceeds : jsval → nat → bool.

(** Validation only tightened: every create the current API accepts, the
    first version accepted too, and it stored the same id, status and due
    date, and the title, description and assignee that the current one
    stores trimmed. *)
Theorem accepted_create_was_accepted body uuid createdAt updatedAt (tasks : store)
    task tasks' :
  Server.postTask dateParseIsNaN exceeds body uuid createdAt updatedAt tasks =
    (Resp 201 (JObj task), tasks') →
  ∃ old,
    Legacy.postTask body uuid tasks = (Resp 201 (JObj old), (tasks ++ [old])%list) ∧
    (∀ k, k ∈ ["id"; "dueDate"; "status"] → task !! k = old !! k) ∧
    (∀ k, k ∈ trimmedFields → task !! k = trimmedValue (old !! k)).
Proof.
  intros Hpost.
  destruct (postTask_201 _ _ _ _ _ _ _ _ _ Hpost)
    as (title & description & assignee & Ht & Hne & _ & Hd & _ & Ha & _ & _ & -> & _).
  unfold Legacy.postTask. rewrite Ht, Hd, Ha. simpl.
  assert (String.eqb title "" = false) as ->.
  { destruct title; [by destruct Hne | done]. }
  simpl. eexists. split; [done|]. split.
  - intros k Hk. repeat (apply elem_of_cons in Hk as [-> | Hk]; [done|]).
    by apply elem_of_nil in Hk.
  - intros k Hk. unfold trimmedFields in Hk.
    repeat (apply elem_of_cons in Hk as [-> | Hk]; [done|]).
    by apply elem_of_nil in Hk.
Qed.

End WithHost.

(** The first [PUT] checked nothing: for a known id it is answered 200 with
    every property of the body but [id] taken over as received, a status
    that is no workflow status included. *)
Theorem legacy_put_unchecked id body (tasks : store) :
  known id tasks →
  ∃ i updated,
    Legacy.putTask id body tasks = (Resp 200 (JObj updated), <[i := updated]> tasks) ∧
    updated !! "id" = Some (JStr id) ∧
    ∀ k v, k ≠ "id" → body !! k = Some v → updated !! k = Some v.
Proof.
  intros Hknown.
  destruct (known_findIndex _ _ Hknown) as (i & task & Hi & Hl & Hid).
  unfold Legacy.putTask. rewrite Hi, Hl, Hid. simpl.
  exists i. eexists. split; [done|]. split.
  - by rewrite lookup_insert_eq.
  - intros k v Hk Hb. rewrite lookup_insert_ne by done. by apply lookup_union_Some_l.
Qed.

(** Both versions of [DELETE] change the store in the same way and answer
    with the same status. *)
Theorem delete_same_effect id (tasks : store) :
  (Legacy.deleteTask id tasks).2 = (deleteTask id tasks).2 ∧
  statusCode (Legacy.deleteTask id tasks).1 = statusCode (deleteTask id tasks).1.
Proof.
  unfold Legacy.deleteTask.
  destruct (deleteTask_cases id tasks) as [[E Hnone] | (i & task & Hi & _ & _ & E)].
  - rewrite E, (unknown_findIndex _ _ Hnone). done.
  - rewrite E, Hi. done.
Qed.

(** *** The first version on the sample data *)

Import Sample Scenario.

(** The sample create, on both versions. *)
Lemma accepted_create_was_accepted_sample :
  Server.postTask noDate noLength launch "u1" "t0" "t0" [] =
    (Resp 201 (JObj launched), [launched]) ∧
  ∃ old,
    Legacy.postTask launch "u1" [] = (Resp 201 (JObj old), [old]) ∧
    launched !! "status" = old !! "status".
Proof.
  split; [reflexivity|].
  destruct (accepted_create_was_accepted noDate noLength launch "u1" "t0" "t0" []
              launched [launched] eq_refl) as (old & Hold & Hsame & _).
  exists old. split; [exact Hold|]. apply Hsame. listed.
Defined.

(** The first version files the sample task under a status outside the
    workflow. *)
Lemma legacy_put_unchecked_sample :
  ∃ i updated,
    Legacy.putTask "u1" misfiled board = (Resp 200 (JObj updated), <[i := updated]> board) ∧
    updated !! "status" = Some (JStr "Done").
Proof.
  destruct (legacy_put_unchecked "u1" misfiled board) as (i & updated & Hput & _ & Hbody).
  - exists launched. split; [apply list_elem_of_here | reflexivity].
  - exists i, updated. split; [exact Hput|]. apply Hbody; [discriminate | reflexivity].
Defined.

End LegacyFacts.

Module LocalBoardFacts.

Import ArrayFacts JsStringFacts ServerFacts.

Lemma filter_all {A} (f : A → bool) (l : list A) :
  (∀ x, x ∈ l → f x = true) → List.filter f l = l.
Proof.
  induction l as [|x l IH]; intros H; simpl; [done|].
  rewrite (H x) by apply list_elem_of_here.
  f_equal. apply IH. intros y Hy. apply H. by apply list_elem_of_further.
Qed.

(** Adding a task and deleting it by the id it was given restores the task
    list, provided no other task has that id and the form carries no [id]
    of its own. *)
Theorem add_then_delete now st :
  (∀ t, t ∈ LocalBoard.tasks st → t !! "id" ≠ Some (JStr now)) →
  LocalBoard.formData st !! "id" = None →
  LocalBoard.tasks (LocalBoard.deleteTask now (LocalBoard.addTask now st)) =
    LocalBoard.tasks st.
Proof.
  intros Hfresh Hform. unfold LocalBoard.addTask.
  assert (List.filter (λ t : object, negb (strictEqualsString (t !! "id") now))
            (LocalBoard.tasks st) = LocalBoard.tasks st) as Hkeep.
  { apply filter_all. intros t Ht. apply negb_true_iff, strictEqualsString_false.
    by apply Hfresh. }
  destruct (LocalBoard.formData st !! "title") as [title|]; [|done].
  destruct (String.eqb (trim title) ""); [done|].
  simpl. rewrite List.filter_app, Hkeep. simpl.
  assert (((JStr <$> LocalBoard.formData st) ∪ {[ "id" := JStr now ]} : object) !! "id"
          = Some (JStr now)) as ->.
  { rewrite lookup_union_r; [by rewrite lookup_singleton_eq|].
    by rewrite lookup_fmap, Hform. }
  simpl. rewrite String.eqb_refl. simpl. by rewrite app_nil_r.
Qed.

(** A task added to the empty board at time [1700000000000] and deleted. *)
Lemma add_then_delete_sample :
  LocalBoard.tasks
    (LocalBoard.deleteTask "1700000000000"
       (LocalBoard.addTask "1700000000000" Scenario.drafted)) = [].
Proof.
  apply (add_then_delete "1700000000000" Scenario.drafted).
  - intros t Hin. apply elem_of_nil in Hin. destruct Hin.
  - reflexivity.
Defined.

End LocalBoardFacts.

(** ** The clients *)

Module ClientFacts.

Import Server Stored ArrayFacts JsStringFacts ServerFacts StoreFacts Backend.

(** *** Arrays with one match at most *)

Lemma find_findIndex {A} (p : A → bool) (l : list A) i :
  findIndex p l = Some i → List.find p l = l !! i.
Proof.
  revert i. induction l as [|x l IH]; intros i; simpl; [done|].
  destruct (p x); [by intros [= <-]|].
  destruct (findIndex p l) as [j|]; simpl; [|done].
  intros [= <-]. by apply IH.
Qed.

Lemma filter_keep_all {A} (p : A → bool) (l : list A) :
  (∀ j y, l !! j = Some y → p y = false) →
  List.filter (λ x, negb (p x)) l = l.
Proof.
  induction l as [|x l IH]; intros H; simpl; [done|].
  rewrite (H 0 x eq_refl). simpl. f_equal. apply IH.
  intros j y Hy. by apply (H (S j)).
Qed.

Lemma filter_out_one {A} (p : A → bool) (l : list A) i :
  findIndex p l = Some i →
  (∀ j y, l !! j = Some y → p y = true → j = i) →
  List.filter (λ x, negb (p x)) l = delete i l.
Proof.
  revert i. induction l as [|x l IH]; intros i; simpl; [done|].
  destruct (p x) eqn:Hpx; simpl.
  - intros [= <-] Hone. simpl. apply filter_keep_all.
    intros j y Hy. destruct (p y) eqn:Hpy; [|done].
    by specialize (Hone (S j) y Hy Hpy).
  - destruct (findIndex p l) as [j|]; simpl; [|done].
    intros [= <-] Hone. simpl. f_equal. apply IH; [done|].
    intros j' y Hy Hpy. specialize (Hone (S j') y Hy Hpy). lia.
Qed.

Lemma filter_out_none {A} (p : A → bool) (l : list A) :
  findIndex p l = None → List.filter (λ x, negb (p x)) l = l.
Proof.
  rewrite findIndex_None. intros H. apply filter_keep_all.
  intros j y Hy. apply H. by eapply list_elem_of_lookup_2.
Qed.

Lemma replace_none {A} (p : A → bool) (l : list A) (y : A) :
  (∀ j z, l !! j = Some z → p z = false) →
  (λ z, if p z then y else z) <$> l = l.
Proof.
  induction l as [|z l IH]; intros H; simpl; [done|].
  rewrite (H 0 z eq_refl). f_equal. apply IH. intros j u Hu. by apply (H (S j)).
Qed.

Lemma replace_one {A} (p : A → bool) (l : list A) i x y :
  l !! i = Some x →
  (∀ j z, l !! j = Some z → p z = true → j = i) →
  p x = true →
  (λ z, if p z then y else z) <$> l = <[i := y]> l.
Proof.
  revert i. induction l as [|z l IH]; intros i; [done|].
  destruct i as [|i]; simpl.
  - intros [= ->] Hone Hpx. rewrite Hpx. f_equal. apply replace_none.
    intros j u Hu. destruct (p u) eqn:Hpu; [|done].
    by specialize (Hone (S j) u Hu Hpu).
  - intros Hx Hone Hpx.
    destruct (p z) eqn:Hpz; [by specialize (Hone 0 z eq_refl Hpz)|].
    f_equal. apply IH; [done| |done].
    intros j u Hu Hpu. specialize (Hone (S j) u Hu Hpu). lia.
Qed.

(** With ids that differ, the test of an id has one match at most. *)
Lemma hasId_one id (tasks : store) i (task : object) :
  NoDup (ids tasks) → tasks !! i = Some task → task !! "id" = Some (JStr id) →
  ∀ j other, tasks !! j = Some other → hasId id other = true → j = i.
Proof.
  intros Hnd Hi Hid j other Hj Hp. apply strictEqualsString_true in Hp.
  apply (NoDup_lookup (ids tasks) j i (Some (JStr id))); [done|..];
    unfold ids; rewrite list_lookup_fmap.
  - by rewrite Hj; simpl; rewrite Hp.
  - by rewrite Hi; simpl; rewrite Hid.
Qed.

Lemma hasId_findIndex id (tasks : store) i (task : object) :
  NoDup (ids tasks) → tasks !! i = Some task → task !! "id" = Some (JStr id) →
  findIndex (hasId id) tasks = Some i.
Proof.
  intros Hnd Hi Hid.
  apply (findIndex_first _ _ _ task); [done | by apply strictEqualsString_true |].
  intros j y Hj Hy. destruct (hasId id y) eqn:Hp; [|done].
  pose proof (hasId_one _ _ _ _ Hnd Hi Hid j y Hy Hp). lia.
Qed.

Lemma asObjects_objects (l : list object) : asObjects (JArr (JObj <$> l)) = l.
Proof.
  simpl. rewrite <- list_fmap_compose. induction l as [|x l IH]; simpl; [done|].
  by f_equal.
Qed.

(** Listing without parameters hands the client the store. *)
Lemma api_listTasks dp ex uuid c u now (tasks : store) :
  listTasks (api dp ex uuid c u now) tasks = (Responded true tasks, tasks).
Proof.
  unfold api. cbn [listTasks]. unfold received.
  assert (getTasks (Query None None) tasks = (Resp 200 (JArr (JObj <$> tasks)), tasks))
    as -> by reflexivity.
  cbn [fst snd json]. by rewrite asObjects_objects.
Qed.

(** *** The board component of [project_management_app.jsx] *)

Section Component.

Variable stringOf : option jsval → string.
Context {W : Type}.
Variable net : network W.

Local Abbreviation fetchTasks := (ProjectManagementApp.fetchTasks net).
Local Abbreviation handleSubmit := (ProjectManagementApp.handleSubmit stringOf net).
Local Abbreviation deleteTask := (ProjectManagementApp.deleteTask stringOf net).
Local Abbreviation updateTaskStatus := (ProjectManagementApp.updateTaskStatus net).
Local Abbreviation handleDrop := (ProjectManagementApp.handleDrop net).

Local Abbreviation keptOrFetched := (ProjectManagementApp.keptOrFetched net).

Lemma fetchTasks_kept st w : keptOrFetched st (fetchTasks st w).1.
Proof.
  unfold ProjectManagementApp.fetchTasks.
  destruct (listTasks net w) as [[msg | [] data] w'] eqn:E; simpl; [by left | | by left].
  right. by exists w, w', data.
Qed.

(** The component never makes up or drops tasks: after any of its handlers
    that talk to the API, the list it shows is the one it showed before, or
    the body of a listing the API answered ok. *)
Theorem shown_tasks_come_from_listing st w :
  keptOrFetched st (fetchTasks st w).1 ∧
  keptOrFetched st (handleSubmit st w).1 ∧
  (∀ confirmed taskId, keptOrFetched st (deleteTask confirmed taskId st w).1) ∧
  (∀ taskId status, keptOrFetched st (updateTaskStatus taskId status st w).1) ∧
  (∀ status, keptOrFetched st (handleDrop status st w).1).
Proof.
  assert (∀ taskId status, keptOrFetched st (updateTaskStatus taskId status st w).1) as Hup.
  { intros taskId status. unfold ProjectManagementApp.updateTaskStatus.
    destruct (updateTask net taskId _ w) as [[msg | [] body] w']; simpl;
      [by left | | by left].
    apply (fetchTasks_kept st w'). }
  split_and!.
  - apply fetchTasks_kept.
  - unfold ProjectManagementApp.handleSubmit.
    destruct (ProjectManagementApp.formData st !! "title") as [[| | |title| |]|];
      try by left.
    destruct (String.eqb (trim title) ""); [by left|].
    destruct (match ProjectManagementApp.editingTask st with
              | Some task => _ | None => _ end) as [[msg | [] body] w']; simpl;
      [by left | | by left].
    pose proof (fetchTasks_kept (ProjectManagementApp.setSubmitting true st) w') as Hk.
    destruct (ProjectManagementApp.fetchTasks net _ w') as [st2 w2]. exact Hk.
  - intros confirmed taskId. unfold ProjectManagementApp.deleteTask.
    destruct confirmed; simpl; [|by left].
    destruct (removeTask net _ w) as [[msg | [] body] w']; simpl; [by left | | by left].
    apply (fetchTasks_kept st w').
  - done.
  - intros status. unfold ProjectManagementApp.handleDrop.
    destruct (ProjectManagementApp.draggedTaskId st) as [dragged|]; [|by left].
    destruct (truthy (JStr dragged)); [|by left].
    destruct (List.find _ _) as [task|]; [|by left].
    destruct (negb _); [|by left].
    pose proof (Hup dragged status) as Hk.
    destruct (ProjectManagementApp.updateTaskStatus net dragged status st w). exact Hk.
Qed.

(** A submit the API does not answer ok leaves the dialog as it is, form
    and edited task included, keeps the list, and shows an error. *)
Theorem failed_submit_keeps_dialog st w title :
  ProjectManagementApp.formData st !! "title" = Some (JStr title) →
  trim title ≠ "" →
  (∀ body,
     (match ProjectManagementApp.editingTask st with
      | Some task =>
          updateTask net (ProjectManagementApp.templateLiteral stringOf (task !! "id"))
                     (ProjectManagementApp.formData st) w
      | None => createTask net (ProjectManagementApp.formData st) w
      end).1 ≠ Responded true body) →
  let st' := (handleSubmit st w).1 in
  ProjectManagementApp.tasks st' = ProjectManagementApp.tasks st ∧
  is_Some (ProjectManagementApp.error st') ∧
  ProjectManagementApp.isDialogOpen st' = ProjectManagementApp.isDialogOpen st ∧
  ProjectManagementApp.formData st' = ProjectManagementApp.formData st ∧
  ProjectManagementApp.editingTask st' = ProjectManagementApp.editingTask st ∧
  ProjectManagementApp.submitting st' = false.
Proof.
  intros Ht Hne Hfail. unfold ProjectManagementApp.handleSubmit. rewrite Ht.
  apply String.eqb_neq in Hne. rewrite Hne.
  destruct (match ProjectManagementApp.editingTask st with
            | Some task => _ | None => _ end) as [[msg | [] body] w']; simpl in *.
  - by split_and!.
  - by destruct (Hfail body).
  - by split_and!.
Qed.

End Component.

(** *** The clients against the task API *)

(** [x || ""] leaves a string as it is, and is [x] when it is truthy. *)
Lemma orEmpty_string s : orEmpty (Some (JStr s)) = JStr s.
Proof. by destruct s. Qed.

Lemma orEmpty_truthy x :
  truthy (orEmpty x) = true → x = Some (orEmpty x).
Proof.
  destruct x as [v|]; [|done]. unfold orEmpty.
  by destruct (truthy v) eqn:Hv.
Qed.

Lemma renderColumnTasks_cons status (task : object) (tasks : list object) :
  ProjectManagementApp.renderColumnTasks status (task :: tasks) =
    if strictEqualsString (task !! "status") status
    then task :: ProjectManagementApp.renderColumnTasks status tasks
    else ProjectManagementApp.renderColumnTasks status tasks.
Proof. reflexivity. Qed.

(** A task is shown in the column of its status and in no other. *)
Lemma columns_cons (task : object) (tasks : list object) (columns : list string) status :
  task !! "status" = Some (JStr status) →
  status ∈ columns →
  NoDup columns →
  List.concat ((λ s, ProjectManagementApp.renderColumnTasks s (task :: tasks)) <$> columns)
    ≡ₚ task :: List.concat ((λ s, ProjectManagementApp.renderColumnTasks s tasks) <$> columns).
Proof.
  intros Hstatus. induction columns as [|s columns IH]; intros Hin Hnd.
  - by apply elem_of_nil in Hin.
  - apply NoDup_cons in Hnd as [Hs Hnd].
    rewrite !fmap_cons. cbn [List.concat]. rewrite renderColumnTasks_cons.
    destruct (decide (status = s)) as [-> | Hne].
    + rewrite (proj2 (strictEqualsString_true _ _) Hstatus).
      rewrite <- app_comm_cons. do 2 f_equiv. clear IH Hin Hnd.
      induction columns as [|s' columns IH]; [done|].
      apply not_elem_of_cons in Hs as [Hne Hs].
      rewrite !fmap_cons. cbn [List.concat]. rewrite renderColumnTasks_cons.
      assert (strictEqualsString (task !! "status") s' = false) as ->.
      { apply strictEqualsString_false. rewrite Hstatus. congruence. }
      f_equiv. by apply IH.
    + assert (strictEqualsString (task !! "status") s = false) as ->.
      { apply strictEqualsString_false. rewrite Hstatus. congruence. }
      apply elem_of_cons in Hin as [-> | Hin]; [done|].
      rewrite (IH Hin Hnd). by rewrite Permutation_middle.
Qed.

Lemma STATUS_ORDER_NoDup : NoDup ProjectManagementApp.STATUS_ORDER.
Proof. apply (bool_decide_unpack _). by vm_compute. Qed.

Section Served.

Variable dateParseIsNaN : jsval → bool.
Variable exceeds : jsval → nat → bool.
Variable stringOf : option jsval → string.

Local Abbreviation api := (Backend.api dateParseIsNaN exceeds).
Local Abbreviation run := (Server.run dateParseIsNaN exceeds).
Local Abbreviation postTask := (Server.postTask dateParseIsNaN exceeds).
Local Abbreviation putTask := (Server.putTask dateParseIsNaN exceeds).
Local Abbreviation handleSubmit := (ProjectManagementApp.handleSubmit stringOf).
Local Abbreviation handleDrop := (ProjectManagementApp.handleDrop).

Lemma run_store_wellFormed reqs : Forall (wellFormed dateParseIsNaN) (run reqs []).2.
Proof. by apply run_wellFormed. Qed.

Lemma run_store_NoDup reqs : NoDup (uuidsDrawn reqs) → NoDup (ids (run reqs []).2).
Proof.
  intros Hnd. apply run_ids_NoDup; [apply NoDup_nil_2 | done |].
  intros uuid _ Hin. by apply elem_of_nil in Hin.
Qed.

(** Every task the API has stored is on the board once: the seven columns
    together show the tasks of the store, each in one column. *)
Theorem columns_show_every_task reqs :
  List.concat ((λ status, ProjectManagementApp.renderColumnTasks status (run reqs []).2)
            <$> ProjectManagementApp.STATUS_ORDER)
    ≡ₚ (run reqs []).2.
Proof.
  pose proof (run_store_wellFormed reqs) as Hwf.
  induction Hwf as [|task tasks Htask _ IH]; [done|].
  destruct Htask as ((status & Hstatus & Hin) & _).
  rewrite (columns_cons task tasks _ status Hstatus Hin STATUS_ORDER_NoDup).
  by rewrite IH.
Qed.

(** A form the board component refuses to send is one the API refuses too:
    with a blank title the handler returns at once, and the same form posted
    gets 400 for its title and stores nothing. *)
Theorem blank_title_refused_on_both_sides st uuid createdAt updatedAt now
    (tasks : store) title :
  ProjectManagementApp.formData st !! "title" = Some (JStr title) →
  trim title = "" →
  handleSubmit (api uuid createdAt updatedAt now) st tasks = (st, tasks) ∧
  postTask (ProjectManagementApp.formData st) uuid createdAt updatedAt tasks =
    (errorResponse 400 "Title is required and must be a non-empty string", tasks).
Proof.
  intros Ht Hblank. split.
  - unfold ProjectManagementApp.handleSubmit. by rewrite Ht, Hblank.
  - unfold Server.postTask. rewrite Ht. simpl.
    destruct (String.eqb title ""); [done|]. simpl. by rewrite Hblank.
Qed.

(** A form the API accepts reaches the board: the component's own check
    lets it through, the new task ends the store, and the component shows
    the store, with the dialog closed and the form empty again. *)
Theorem accepted_form_reaches_board st uuid createdAt updatedAt now
    (tasks tasks' : store) (newTask : object) :
  ProjectManagementApp.editingTask st = None →
  postTask (ProjectManagementApp.formData st) uuid createdAt updatedAt tasks =
    (Resp 201 (JObj newTask), tasks') →
  let out := handleSubmit (api uuid createdAt updatedAt now) st tasks in
  out.2 = (tasks ++ [newTask])%list ∧
  ProjectManagementApp.tasks out.1 = out.2 ∧
  ProjectManagementApp.isDialogOpen out.1 = false ∧
  ProjectManagementApp.formData out.1 = ProjectManagementApp.emptyForm ∧
  ProjectManagementApp.editingTask out.1 = None ∧
  ProjectManagementApp.error out.1 = None ∧
  ProjectManagementApp.submitting out.1 = false.
Proof.
  intros Hnew Hpost out. subst out.
  destruct (postTask_201 _ _ _ _ _ _ _ _ _ Hpost)
    as (title & description & assignee & Ht & Hne & _ & _ & _ & _ & _ & _ & _ & ->).
  destruct (handleSubmit _ st tasks) as [st' store'] eqn:Hout.
  unfold ProjectManagementApp.handleSubmit in Hout. rewrite Ht, Hnew in Hout.
  apply String.eqb_neq in Hne. rewrite Hne in Hout.
  unfold Backend.api at 1 in Hout. cbn [createTask] in Hout. rewrite Hpost in Hout.
  unfold received at 1, ProjectManagementApp.fetchTasks in Hout.
  rewrite api_listTasks in Hout. injection Hout as <- <-.
  by split_and!.
Qed.

(** A card dropped on another column moves on both sides: the API replaces
    [status] and [updatedAt] of that task and nothing else, and the
    component shows the store again. Dropped on its own column it sends
    nothing. Either way the drag is over. *)
Theorem dropped_card_moves reqs uuid createdAt updatedAt now st i (task : object)
    id status :
  NoDup (uuidsDrawn reqs) →
  ProjectManagementApp.tasks st = (run reqs []).2 →
  ProjectManagementApp.draggedTaskId st = Some id →
  id ≠ "" →
  (run reqs []).2 !! i = Some task →
  task !! "id" = Some (JStr id) →
  status ∈ ProjectManagementApp.STATUS_ORDER →
  let out := handleDrop (api uuid createdAt updatedAt now) status st (run reqs []).2 in
  let moved := <["updatedAt" := JStr now]> (<["status" := JStr status]> task) in
  (task !! "status" = Some (JStr status) →
   out = (ProjectManagementApp.setDraggedTaskId None st, (run reqs []).2)) ∧
  (task !! "status" ≠ Some (JStr status) →
   out.2 = <[i := moved]> (run reqs []).2 ∧
   ProjectManagementApp.tasks out.1 = out.2 ∧
   ProjectManagementApp.error out.1 = None ∧
   ProjectManagementApp.draggedTaskId out.1 = None).
Proof.
  intros Hdrawn Hsync Hdrag Hid Hi Htask Hstatus out moved.
  pose proof (run_store_NoDup reqs Hdrawn) as Hnd.
  pose proof (run_store_wellFormed reqs) as Hwf.
  rewrite Forall_lookup in Hwf. specialize (Hwf i task Hi).
  pose proof (hasId_findIndex _ _ _ _ Hnd Hi Htask) as Hfind.
  assert (truthy (JStr id) = true) as Htruthy by (by destruct id).
  subst out moved.
  destruct (handleDrop _ status st _) as [st' store'] eqn:Hout.
  unfold ProjectManagementApp.handleDrop in Hout.
  rewrite Hdrag, Htruthy, Hsync, (find_findIndex _ _ _ Hfind), Hi in Hout.
  split.
  - intros Hsame. rewrite (proj2 (strictEqualsString_true _ _) Hsame) in Hout.
    by injection Hout as <- <-.
  - intros Hother. rewrite (proj2 (strictEqualsString_false _ _) Hother) in Hout.
    cbn [negb] in Hout.
    unfold ProjectManagementApp.updateTaskStatus, Backend.api at 1 in Hout.
    cbn [updateTask] in Hout.
    rewrite (putTask_status dateParseIsNaN exceeds id status now _ i task
               (wellFormed_tidy _ _ Hwf) Hfind Hi Hstatus) in Hout.
    unfold received at 1, ProjectManagementApp.fetchTasks in Hout.
    rewrite api_listTasks in Hout. injection Hout as <- <-.
    by split_and!.
Qed.

(** The Vite front end stays in step on a status change: it sends the
    whole task with the new status, the API changes [status] and
    [updatedAt] of that task only, and the list the front end shows is
    the store again. *)
Theorem vite_status_change_in_step reqs uuid createdAt updatedAt now st i
    (task : object) id status :
  NoDup (uuidsDrawn reqs) →
  ViteApp.tasks st = (run reqs []).2 →
  (run reqs []).2 !! i = Some task →
  task !! "id" = Some (JStr id) →
  status ∈ ProjectManagementApp.STATUS_ORDER →
  let out := ViteApp.handleDrop (api uuid createdAt updatedAt now) id status st
               (run reqs []).2 in
  out.2 = <[i := <["updatedAt" := JStr now]> (<["status" := JStr status]> task)]>
            (run reqs []).2 ∧
  ViteApp.tasks out.1 = out.2.
Proof.
  intros Hdrawn Hsync Hi Htask Hstatus out.
  pose proof (run_store_NoDup reqs Hdrawn) as Hnd.
  pose proof (run_store_wellFormed reqs) as Hwf.
  rewrite Forall_lookup in Hwf. specialize (Hwf i task Hi).
  pose proof (hasId_findIndex _ _ _ _ Hnd Hi Htask) as Hfind.
  subst out.
  destruct (ViteApp.handleDrop _ id status st _) as [st' store'] eqn:Hout.
  unfold ViteApp.handleDrop, ViteApp.updateTaskStatus in Hout.
  rewrite Hsync, (find_findIndex _ _ _ Hfind), Hi in Hout. change (default ∅ (Some task)) with task in Hout.
  unfold Backend.api at 1 in Hout. cbn [updateTask] in Hout.
  rewrite (putTask_resend dateParseIsNaN exceeds id status now _ i task Hwf Hfind Hi Hstatus)
    in Hout.
  unfold received in Hout. cbn [fst snd json asObject] in Hout.
  injection Hout as <- <-. cbn [fst snd ViteApp.tasks]. split; [done|].
  apply (replace_one (hasId id) _ i task); [done | | by apply strictEqualsString_true].
  by apply (hasId_one id _ i task).
Qed.

(** The Vite front end stays in step on a delete, whether the API knows
    the id or answers 404: it drops the tasks with that id from its list,
    and the list is the store again. *)
Theorem vite_delete_in_step reqs uuid createdAt updatedAt now st id :
  NoDup (uuidsDrawn reqs) →
  ViteApp.tasks st = (run reqs []).2 →
  let out := ViteApp.deleteTask (api uuid createdAt updatedAt now) id st (run reqs []).2 in
  ViteApp.tasks out.1 = out.2.
Proof.
  intros Hdrawn Hsync out.
  pose proof (run_store_NoDup reqs Hdrawn) as Hnd.
  subst out.
  destruct (ViteApp.deleteTask _ id st _) as [st' store'] eqn:Hout.
  unfold ViteApp.deleteTask, Backend.api at 1 in Hout. cbn [removeTask] in Hout.
  destruct (deleteTask_cases id (run reqs []).2)
    as [[Hdel Hunknown] | (i & task & Hfind & Hi & Htask & Hdel)];
    rewrite Hdel in Hout; unfold received in Hout; cbn [fst snd] in Hout;
    injection Hout as <- <-; cbn [fst snd ViteApp.tasks]; rewrite Hsync.
  - apply filter_out_none. by apply unknown_findIndex.
  - apply filter_out_one; [done|]. by apply (hasId_one id _ i task).
Qed.

(** The Vite front end does not look at the status of the answer to a
    create: when the API refuses the form, it stores nothing, and the front
    end appends the error object to its list as if it were the new task,
    closes the dialog and empties the form. *)
Theorem vite_refusal_shown_as_task uuid createdAt updatedAt now st (tasks : store) title :
  ViteApp.formData st !! "title" = Some title →
  trim title ≠ "" →
  refused (postTask (JStr <$> ViteApp.formData st) uuid createdAt updatedAt tasks).1 →
  let out := ViteApp.addTask (api uuid createdAt updatedAt now) st tasks in
  out.2 = tasks ∧
  (∃ message,
     ViteApp.tasks out.1 = (ViteApp.tasks st ++ [{[ "error" := JStr message ]}])%list) ∧
  ViteApp.isDialogOpen out.1 = false ∧
  ViteApp.formData out.1 = ViteApp.emptyForm.
Proof.
  intros Ht Hne Hrefused out.
  subst out.
  destruct (ViteApp.addTask _ st tasks) as [st' store'] eqn:Hout.
  unfold ViteApp.addTask in Hout. rewrite Ht in Hout.
  apply String.eqb_neq in Hne. rewrite Hne in Hout.
  unfold Backend.api at 1 in Hout. cbn [createTask] in Hout.
  destruct (postTask_cases dateParseIsNaN exceeds (JStr <$> ViteApp.formData st)
              uuid createdAt updatedAt tasks)
    as [[_ Hstore] | (t & d & a & _ & _ & _ & _ & Haccepted)].
  - destruct Hrefused as (code & msg & Hresp & _).
    destruct (postTask _ _ _ _ _) as [resp tasks'] eqn:Hpost.
    simpl in Hresp, Hstore. subst resp tasks'.
    unfold received in Hout. cbn [fst snd json errorResponse asObject] in Hout.
    injection Hout as <- <-.
    split_and!; [done | by exists msg | done | done].
  - simpl in Haccepted. rewrite Haccepted in Hrefused.
    apply refused_code in Hrefused. simpl in Hrefused. lia.
Qed.

(** A card opened in the dialog and saved as it is: the form the dialog
    fills passes every check of the API, which stores the task with a new
    [updatedAt] and with the empty string for a description, assignee or
    due date that was falsy; the component shows the store again and
    closes the dialog. A task whose three optional fields are strings
    changes in [updatedAt] only. *)
Theorem unchanged_edit_saved reqs uuid createdAt updatedAt now st i (task : object) :
  NoDup (uuidsDrawn reqs) →
  (run reqs []).2 !! i = Some task →
  let out := handleSubmit (api uuid createdAt updatedAt now)
               (ProjectManagementApp.openEditDialog task st) (run reqs []).2 in
  let saved : object :=
    <["updatedAt" := JStr now]>
      (<["dueDate" := orEmpty (task !! "dueDate")]>
         (<["assignee" := orEmpty (task !! "assignee")]>
            (<["description" := orEmpty (task !! "description")]> task))) in
  out.2 = <[i := saved]> (run reqs []).2 ∧
  ProjectManagementApp.tasks out.1 = out.2 ∧
  ProjectManagementApp.isDialogOpen out.1 = false ∧
  ProjectManagementApp.editingTask out.1 = None ∧
  ProjectManagementApp.error out.1 = None ∧
  ((∀ k, k ∈ ["description"; "assignee"; "dueDate"] → ∃ s, task !! k = Some (JStr s)) →
   saved = <["updatedAt" := JStr now]> task).
Proof.
  intros Hdrawn Hi out saved.
  pose proof (run_store_NoDup reqs Hdrawn) as Hnd.
  pose proof (run_store_wellFormed reqs) as Hwf.
  rewrite Forall_lookup in Hwf. specialize (Hwf i task Hi).
  pose proof (wellFormed_tidy _ _ Hwf) as Htidy.
  destruct Hwf as ((status & Hstatus & Hvalid) & (t & Ht & Htne & Httr & Htlen) &
                   (d & Hd & Hdok) & (a & Ha & Haok) & (due & Hdue & Hdueok) &
                   ((id & Hid) & _)).
  pose proof (hasId_findIndex _ _ _ _ Hnd Hi Hid) as Hfind.
  set (D := orEmpty (task !! "description")) in *.
  set (A := orEmpty (task !! "assignee")) in *.
  set (U := orEmpty (task !! "dueDate")) in *.
  set (form := (<["title" := JStr t]>
                  (<["status" := JStr status]>
                     {[ "description" := D; "assignee" := A; "dueDate" := U ]})) : object).
  assert (ProjectManagementApp.formData (ProjectManagementApp.openEditDialog task st) = form)
    as Hform.
  { cbn [ProjectManagementApp.openEditDialog ProjectManagementApp.setDialogOpen
         ProjectManagementApp.setFormData ProjectManagementApp.formData].
    by rewrite Ht, Hstatus. }
  assert (form !! "title" = Some (JStr t)) as Ft by reflexivity.
  assert (form !! "status" = Some (JStr status)) as Fs by reflexivity.
  assert (form !! "description" = Some D) as Fd by reflexivity.
  assert (form !! "assignee" = Some A) as Fa by reflexivity.
  assert (form !! "dueDate" = Some U) as Fu by reflexivity.
  assert (∀ k, k ∉ taskFields → form !! k = None) as Fnone.
  { intros k Hk. unfold form.
    rewrite !lookup_insert_ne; [by rewrite lookup_singleton_ne; [|intros <-; apply Hk; listed]|..];
      intros <-; apply Hk; listed. }
  assert (<["updatedAt" := JStr now]>
            (setProperty "createdAt" (task !! "createdAt")
               (setProperty "id" (task !! "id") (form ∪ task))) = saved) as Hmerged.
  { apply map_eq. intros k. rewrite merged_lookup. unfold saved.
    destruct (decide (k = "updatedAt")) as [-> | Hu]; [by rewrite lookup_insert_eq|].
    rewrite (lookup_insert_ne _ "updatedAt") by done.
    destruct (decide (k = "createdAt")) as [-> | Hc]; [by rewrite !lookup_insert_ne|].
    destruct (decide (k = "id")) as [-> | Hk]; [by rewrite !lookup_insert_ne|].
    destruct (decide (k = "dueDate")) as [-> | K1].
    { rewrite lookup_insert_eq. by apply lookup_union_Some_l. }
    rewrite (lookup_insert_ne _ "dueDate") by done.
    destruct (decide (k = "assignee")) as [-> | K2].
    { rewrite lookup_insert_eq. by apply lookup_union_Some_l. }
    rewrite (lookup_insert_ne _ "assignee") by done.
    destruct (decide (k = "description")) as [-> | K3].
    { rewrite lookup_insert_eq. by apply lookup_union_Some_l. }
    rewrite (lookup_insert_ne _ "description") by done.
    destruct (decide (k = "title")) as [-> | K4].
    { rewrite Ht. by apply lookup_union_Some_l. }
    destruct (decide (k = "status")) as [-> | K5].
    { rewrite Hstatus. by apply lookup_union_Some_l. }
    rewrite lookup_union_r; [done|]. apply Fnone. unfold taskFields.
    intros Hin. repeat (apply elem_of_cons in Hin as [-> | Hin]; [done|]).
    by apply elem_of_nil in Hin. }
  assert (tidy saved) as Htidy'.
  { intros k Hk v Hv Htr. unfold trimmedFields in Hk. unfold saved in Hv.
    rewrite (lookup_insert_ne _ "updatedAt") in Hv by (intros <-; revert Hk; not_listed).
    rewrite (lookup_insert_ne _ "dueDate") in Hv by (intros <-; revert Hk; not_listed).
    apply elem_of_cons in Hk as [-> | Hk]; [|apply elem_of_cons in Hk as [-> | Hk]];
      [| |apply list_elem_of_singleton in Hk as ->].
    - rewrite !lookup_insert_ne in Hv by done. by apply (Htidy "title"); [listed|..].
    - rewrite lookup_insert_ne, lookup_insert_eq in Hv by done. injection Hv as <-.
      apply (Htidy "description"); [listed | by apply orEmpty_truthy | done].
    - rewrite lookup_insert_eq in Hv. injection Hv as <-.
      apply (Htidy "assignee"); [listed | by apply orEmpty_truthy | done]. }
  destruct (trim_chain_tidy _ Htidy') as (T1 & T2 & T3).
  assert (putTask id form now (run reqs []).2 =
            (Resp 200 (JObj saved), <[i := saved]> (run reqs []).2)) as Hput.
  { unfold Server.putTask. rewrite Hfind, Ft, Fd, Fs, Fu. simpl.
    rewrite (trim_id _ Httr).
    assert (String.eqb t "" = false) as -> by by apply String.eqb_neq.
    simpl. rewrite (proj2 (Nat.ltb_ge _ _) Htlen). simpl.
    assert (Server.lengthExceeds exceeds D 2000 = Next false) as ->.
    { unfold D. rewrite Hd.
      destruct Hdok as [(s & -> & _ & Hlen) | [-> | ->]]; [|done..].
      rewrite orEmpty_string. simpl. by rewrite (proj2 (Nat.ltb_ge _ _) Hlen). }
    simpl. rewrite (bool_decide_eq_true_2 _ Hvalid). simpl.
    assert (truthy U && dateParseIsNaN U = false) as ->.
    { destruct (truthy U) eqn:HU; [|done].
      pose proof (orEmpty_truthy (task !! "dueDate") HU) as E. fold U in E.
      rewrite Hdue in E. assert (due = U) as Hdu by congruence.
      rewrite Hdu, HU in Hdueok. exact Hdueok. }
    simpl. rewrite Hi. simpl. rewrite Hmerged, T1. simpl. rewrite T2. simpl. by rewrite T3. }
  subst out.
  destruct (handleSubmit _ _ _) as [st' store'] eqn:Hout.
  unfold ProjectManagementApp.handleSubmit in Hout. rewrite Hform, Ft in Hout.
  rewrite (trim_id _ Httr) in Hout.
  assert (String.eqb t "" = false) as Hnonempty by by apply String.eqb_neq.
  rewrite Hnonempty in Hout.
  cbn [ProjectManagementApp.openEditDialog ProjectManagementApp.setDialogOpen
       ProjectManagementApp.setFormData ProjectManagementApp.setEditingTask
       ProjectManagementApp.editingTask] in Hout.
  rewrite Hid in Hout. cbn [ProjectManagementApp.templateLiteral] in Hout.
  unfold Backend.api at 1 in Hout. cbn [updateTask] in Hout. rewrite Hput in Hout.
  unfold received at 1, ProjectManagementApp.fetchTasks in Hout.
  rewrite api_listTasks in Hout. injection Hout as <- <-.
  split_and!; [done..|].
  intros Hstrings. unfold saved. f_equal.
  destruct (Hstrings "dueDate") as (s1 & H1); [listed|].
  destruct (Hstrings "assignee") as (s2 & H2); [listed|].
  destruct (Hstrings "description") as (s3 & H3); [listed|].
  unfold U, A, D. rewrite H1, H2, H3, !orEmpty_string.
  rewrite (insert_id task "description") by done.
  rewrite (insert_id task "assignee") by done.
  by rewrite (insert_id task "dueDate").
Qed.

(** Deleting a card: unless the user confirms, nothing is sent; once
    confirmed, the API removes that task and no other, and the component
    shows the store again. *)
Theorem confirmed_delete_removes_card reqs uuid createdAt updatedAt now st i (task : object) :
  NoDup (uuidsDrawn reqs) →
  (run reqs []).2 !! i = Some task →
  let deleteTask := ProjectManagementApp.deleteTask stringOf (api uuid createdAt updatedAt now) in
  let out := deleteTask true (task !! "id") st (run reqs []).2 in
  deleteTask false (task !! "id") st (run reqs []).2 = (st, (run reqs []).2) ∧
  out.2 = delete i (run reqs []).2 ∧
  ProjectManagementApp.tasks out.1 = out.2 ∧
  ProjectManagementApp.error out.1 = None.
Proof.
  intros Hdrawn Hi deleteTask out.
  split; [done|].
  pose proof (run_store_NoDup reqs Hdrawn) as Hnd.
  pose proof (run_store_wellFormed reqs) as Hwf.
  rewrite Forall_lookup in Hwf.
  destruct (Hwf i task Hi) as (_ & _ & _ & _ & _ & ((id & Hid) & _)).
  pose proof (hasId_findIndex _ _ _ _ Hnd Hi Hid) as Hfind.
  assert (Server.deleteTask id (run reqs []).2 =
            (Resp 200 (JObj {[ "message" := JStr "Task deleted"; "task" := JObj task ]}),
             delete i (run reqs []).2)) as Hdelete.
  { destruct (deleteTask_cases id (run reqs []).2)
      as [[_ Hunknown] | (i' & task' & Hfind' & Hi' & _ & Hdel)].
    - destruct (Hunknown task); [by eapply list_elem_of_lookup_2 | done].
    - rewrite Hfind in Hfind'. injection Hfind' as <-.
      rewrite Hi in Hi'. injection Hi' as <-. exact Hdel. }
  subst out deleteTask.
  destruct (ProjectManagementApp.deleteTask _ _ true _ _ _) as [st' store'] eqn:Hout.
  unfold ProjectManagementApp.deleteTask in Hout. cbn [negb] in Hout.
  rewrite Hid in Hout. cbn [ProjectManagementApp.templateLiteral] in Hout.
  unfold Backend.api at 1 in Hout. cbn [removeTask] in Hout. rewrite Hdelete in Hout.
  unfold received at 1, ProjectManagementApp.fetchTasks in Hout.
  rewrite api_listTasks in Hout. injection Hout as <- <-.
  by split_and!.
Qed.

End Served.

(** *** The clients on the sample board *)

Import Sample Scenario.

(** A submit while the network is down. *)
Lemma failed_submit_keeps_dialog_sample :
  let st' := (ProjectManagementApp.handleSubmit noString offline typing ()).1 in
  ProjectManagementApp.tasks st' = board ∧
  ProjectManagementApp.error st' = Some "Failed to fetch" ∧
  ProjectManagementApp.isDialogOpen st' = true ∧
  ProjectManagementApp.formData st' = ProjectManagementApp.formData typing.
Proof.
  destruct (failed_submit_keeps_dialog noString offline typing () " Review photos ")
    as (Htasks & _ & Hopen & Hform & _).
  - reflexivity.
  - discriminate.
  - intros body. discriminate.
  - split; [exact Htasks|]. split; [reflexivity|]. split; [exact Hopen | exact Hform].
Defined.

(** A title of three blanks. *)
Lemma blank_title_refused_on_both_sides_sample :
  ProjectManagementApp.handleSubmit noString online blank board = (blank, board) ∧
  postTask noDate noLength (ProjectManagementApp.formData blank) "u2" "t1" "t1" board =
    (errorResponse 400 "Title is required and must be a non-empty string", board).
Proof.
  apply (blank_title_refused_on_both_sides noDate noLength noString blank "u2" "t1" "t1" "t1"
           board "   "); reflexivity.
Defined.

(** The typed form submitted to the sample board. *)
Lemma accepted_form_reaches_board_sample :
  let out := ProjectManagementApp.handleSubmit noString online typing board in
  out.2 = [launched; reviewed] ∧
  ProjectManagementApp.tasks out.1 = out.2 ∧
  ProjectManagementApp.isDialogOpen out.1 = false ∧
  ProjectManagementApp.formData out.1 = ProjectManagementApp.emptyForm.
Proof.
  destruct (accepted_form_reaches_board noDate noLength noString typing "u2" "t1" "t1" "t1"
              board [launched; reviewed] reviewed eq_refl eq_refl)
    as (Hstore & Hshown & Hclosed & Hform & _).
  split; [exact Hstore|]. split; [exact Hshown|]. split; [exact Hclosed | exact Hform].
Defined.

(** The sample card dropped on "Editing" at time [t1]. *)
Lemma dropped_card_moves_sample :
  let out := ProjectManagementApp.handleDrop online "Editing" dragging board in
  out.2 = [edited] ∧
  ProjectManagementApp.tasks out.1 = out.2 ∧
  ProjectManagementApp.draggedTaskId out.1 = None.
Proof.
  destruct (dropped_card_moves noDate noLength opening "u2" "t1" "t1" "t1" dragging 0
              launched "u1" "Editing") as [_ Hmoved].
  - apply NoDup_singleton.
  - reflexivity.
  - reflexivity.
  - discriminate.
  - reflexivity.
  - reflexivity.
  - unfold ProjectManagementApp.STATUS_ORDER. listed.
  - destruct Hmoved as (Hstore & Hshown & _ & Hdrag); [discriminate|].
    split; [exact Hstore|]. split; [exact Hshown | exact Hdrag].
Defined.

(** The same drop in the Vite front end. *)
Lemma vite_status_change_in_step_sample :
  let out := ViteApp.handleDrop online "u1" "Editing" synced board in
  out.2 = [edited] ∧ ViteApp.tasks out.1 = out.2.
Proof.
  apply (vite_status_change_in_step noDate noLength opening "u2" "t1" "t1" "t1" synced 0
           launched "u1" "Editing").
  - apply NoDup_singleton.
  - reflexivity.
  - reflexivity.
  - reflexivity.
  - unfold ProjectManagementApp.STATUS_ORDER. listed.
Defined.

(** The sample card deleted in the Vite front end. *)
Lemma vite_delete_in_step_sample :
  let out := ViteApp.deleteTask online "u1" synced board in
  ViteApp.tasks out.1 = out.2.
Proof.
  apply (vite_delete_in_step noDate noLength opening "u2" "t1" "t1" "t1" synced "u1").
  - apply NoDup_singleton.
  - reflexivity.
Defined.

(** A title of 201 characters added in the Vite front end. *)
Lemma vite_refusal_shown_as_task_sample :
  let out := ViteApp.addTask online overlong board in
  out.2 = board ∧
  (∃ message,
     ViteApp.tasks out.1 = [launched; {[ "error" := JStr message ]}]) ∧
  ViteApp.isDialogOpen out.1 = false ∧
  ViteApp.formData out.1 = ViteApp.emptyForm.
Proof.
  apply (vite_refusal_shown_as_task noDate noLength "u2" "t1" "t1" "t1" overlong board padded).
  - reflexivity.
  - discriminate.
  - exists 400, "Title must be 200 characters or less". split; [reflexivity|].
    apply Nat.eq_le_incl. reflexivity.
Defined.

(** The sample card opened and saved as it is, at time [t1]. *)
Lemma unchanged_edit_saved_sample :
  let out := ProjectManagementApp.handleSubmit noString online
               (ProjectManagementApp.openEditDialog launched loaded) board in
  out.2 = [forged] ∧
  ProjectManagementApp.tasks out.1 = out.2 ∧
  ProjectManagementApp.isDialogOpen out.1 = false.
Proof.
  destruct (unchanged_edit_saved noDate noLength noString opening "u2" "t1" "t1" "t1" loaded 0
              launched) as (Hstore & Hshown & Hclosed & _).
  - apply NoDup_singleton.
  - reflexivity.
  - split; [exact Hstore|]. split; [exact Hshown | exact Hclosed].
Defined.

(** The sample card deleted, the user having confirmed. *)
Lemma confirmed_delete_removes_card_sample :
  let out := ProjectManagementApp.deleteTask noString online true (Some (JStr "u1"))
               loaded board in
  out.2 = [] ∧ ProjectManagementApp.tasks out.1 = [].
Proof.
  destruct (confirmed_delete_removes_card noDate noLength noString opening "u2" "t1" "t1" "t1"
              loaded 0 launched) as (_ & Hstore & Hshown & _).
  - apply NoDup_singleton.
  - reflexivity.
  - split; [exact Hstore | exact Hshown].
Defined.

End ClientFacts.
